(** * Ace Fixings storefront: the app's helpers and its serverless proxies

    A shallow embedding of the JavaScript sources:
    - [netlify/functions/shopify.js]   the Storefront GraphQL proxy,
    - [api/submitVatVerification]      the VAT-verification endpoint,
    - [api/registerCustomer]           the registration endpoint,
    - [src/App.jsx]                    helpers, cart, login and logout.

    JavaScript values that cross the wire are JSON values; prices are
    IEEE-754 binary64 numbers, embedded as Rocq's primitive floats. *)

From Stdlib Require Import ZArith String Ascii List Floats Lia Bool.
From Stdlib Require Import DecimalString Sorted.
From stdpp Require Import gmap strings.

#[local] Set Warnings "-register-all,-inexact-float".

Local Open Scope Z_scope.
Local Open Scope string_scope.

(** ** JavaScript values *)

(** A value produced by [JSON.parse], or handed to [JSON.stringify]. A
    number is a binary64: [JNum n] is the integer [n] (lengths, counts,
    quantities, HTTP statuses, timestamps), [JFrac f] a number that is no
    integer: a fraction, an infinity or [NaN]. *)
Inductive json : Type :=
| JNull
| JBool (b : bool)
| JNum (n : Z)
| JStr (s : string)
| JArr (items : list json)
| JObj (fields : list (string * json))
| JFrac (f : float).

(** A JavaScript value as the sources meet it: [None] is [undefined]. *)
Definition jsval : Type := option json.

(** A number as arithmetic yields it: an integer, or a binary64 that is
    none. *)
Inductive number : Type :=
| NInt (n : Z)
| NFrac (f : float).

Definition number_json (x : number) : json :=
  match x with
  | NInt n => JNum n
  | NFrac f => JFrac f
  end.

(** The binary64 of an integer of less than 54 bits. *)
Definition float_of_Z (n : Z) : float :=
  if (n <? 0)%Z then PrimFloat.opp (PrimFloat.of_uint63 (Uint63.of_Z (- n)))
  else PrimFloat.of_uint63 (Uint63.of_Z n).

(** The number a binary64 is: an integer where its value is one. *)
Definition number_of_float (f : float) : number :=
  match Prim2SF f with
  | S754_zero _ => NInt 0
  | S754_finite s m e =>
      let sign := if s then (-1)%Z else 1%Z in
      if (0 <=? e)%Z then NInt (sign * (Z.pos m * 2 ^ e))
      else if (Z.pos m mod 2 ^ (- e) =? 0)%Z then NInt (sign * (Z.pos m / 2 ^ (- e)))
      else NFrac f
  | S754_infinity _ | S754_nan => NFrac f
  end.

(** An exception object: [name] and [message] of an [Error]. *)
Record JsError : Type := mkError { ename : string; emessage : string }.

Definition Error (msg : string) : JsError := mkError "Error" msg.
Definition TypeError (msg : string) : JsError := mkError "TypeError" msg.

(** [String(err)], i.e. [Error.prototype.toString]. *)
Definition Error_toString (e : JsError) : string :=
  if String.eqb (emessage e) "" then ename e
  else if String.eqb (ename e) "" then emessage e
  else ename e +:+ ": " +:+ emessage e.

(** The result of evaluating an expression that may throw. *)
Inductive result (A : Type) : Type :=
| Ok (a : A)
| Throw (e : JsError).
Arguments Ok {A} a.
Arguments Throw {A} e.

(** Truthiness ([ToBoolean]). *)
Definition json_truthy (v : json) : bool :=
  match v with
  | JNull => false
  | JBool b => b
  | JNum n => negb (n =? 0)%Z
  | JStr s => negb (String.eqb s "")
  | JArr _ | JObj _ => true
  | JFrac f => negb (PrimFloat.eqb f 0%float || PrimFloat.is_nan f)
  end.

Definition truthy (v : jsval) : bool :=
  match v with
  | None => false
  | Some j => json_truthy j
  end.

Definition str_truthy (s : string) : bool := negb (String.eqb s "").

(** [a || b] on an optional string (environment variables, [event.body]). *)
Definition str_or (a : option string) (b : string) : string :=
  match a with
  | Some s => if str_truthy s then s else b
  | None => b
  end.

(** [a || b] on values. *)
Definition js_or (a : jsval) (b : json) : json :=
  match a with
  | Some j => if json_truthy j then j else b
  | None => b
  end.

(** Decimal rendering of an integer, as [String(n)] and template literals do. *)
Definition string_of_Z (n : Z) : string := NilZero.string_of_int (Z.to_int n).

(** Own-property lookup in a parsed object. *)
Fixpoint assoc (k : string) (fields : list (string * json)) : jsval :=
  match fields with
  | [] => None
  | (k', v) :: rest => if String.eqb k k' then Some v else assoc k rest
  end.

(** What the JavaScript engine and its built-ins contribute. *)
Class Platform : Type := {
  (** [JSON.parse]: a value, or the [SyntaxError] it throws. *)
  JSON_parse : string -> result json;
  (** [JSON.stringify] on a JSON value. *)
  JSON_stringify : json -> string;
  (** The [TypeError] thrown on reading property [k] of [null]/[undefined]. *)
  nullish_read : jsval -> string -> JsError;
  (** The [TypeError] thrown on destructuring property [k] out of the
      expression [source] when its value is [null]/[undefined]. *)
  nullish_destructure : jsval -> string -> string -> JsError;
  (** [ToNumber(s) > 0] for a string [s]. *)
  string_gt_zero : string -> bool;
  (** [Number.prototype.toString] on an integer and on another number. *)
  Number_toString : Z -> string;
  Fraction_toString : float -> string;
  (** The [TypeError] thrown on converting [v] to a primitive value. *)
  not_primitive : json -> JsError;
}.

(** What the web platform contributes to the app. *)
Class WebApi : Type := {
  (** [crypto.subtle.digest("SHA-256", data)]. *)
  sha256 : list Byte.byte -> list Byte.byte;
  (** [atob]: the decoded binary string, or the error it throws. *)
  atob : string -> result string;
  (** [decodeURIComponent]: the decoded string, or the [URIError]. *)
  decodeURIComponent : string -> result string;
  (** [new URLSearchParams(pairs).toString()]. *)
  URLSearchParams_toString : list (string * string) -> string;
  (** [Number(s)] for a string. *)
  StringToNumber : string -> number;
}.

Section Access.
Context `{Platform}.

(** [String(v)], as a template literal, [new Error(v)] and a comparison
    with a number compute it. An array joins its elements, [null] giving the
    empty string. An object converts through its [toString]: the inherited
    one gives ["[object Object]"]; an own member of that name shadows it,
    and since JSON holds nothing callable (neither there nor under
    [valueOf]) the conversion then throws. *)
Fixpoint ToString (v : json) : result string :=
  match v with
  | JNull => Ok "null"
  | JBool b => Ok (if b then "true" else "false")
  | JNum n => Ok (Number_toString n)
  | JFrac f => Ok (Fraction_toString f)
  | JStr s => Ok s
  | JArr items =>
      match
        (fix elements (items : list json) : result (list string) :=
           match items with
           | [] => Ok []
           | x :: rest =>
               match (match x with JNull => Ok "" | _ => ToString x end) with
               | Throw e => Throw e
               | Ok s =>
                   match elements rest with
                   | Throw e => Throw e
                   | Ok ss => Ok (s :: ss)
                   end
               end
           end) items
      with
      | Throw e => Throw e
      | Ok ss => Ok (String.concat "," ss)
      end
  | JObj fields =>
      match assoc "toString" fields with
      | Some _ => Throw (not_primitive v)
      | None => Ok "[object Object]"
      end
  end.

(** [String(v)] where [v] may be [undefined]. *)
Definition String_of (v : jsval) : result string :=
  match v with
  | Some j => ToString j
  | None => Ok "undefined"
  end.

(** The text of a value that converts to one; the empty string stands in
    for a value that does not. *)
Definition text_of (v : jsval) : string :=
  match String_of v with
  | Ok text => text
  | Throw _ => ""
  end.

(** [v.k] for a defined, non-null [v]: an own property of an object, the
    [length] of an array or a string, and their element [0] (the only index
    the sources use). *)
Definition member (v : json) (k : string) : jsval :=
  match v with
  | JObj fields => assoc k fields
  | JArr items =>
      if String.eqb k "length" then Some (JNum (Z.of_nat (length items)))
      else if String.eqb k "0" then head items
      else None
  | JStr s =>
      if String.eqb k "length" then Some (JNum (Z.of_nat (String.length s)))
      else if String.eqb k "0" then
        match s with
        | EmptyString => None
        | String c _ => Some (JStr (String c EmptyString))
        end
      else None
  | JNull | JBool _ | JNum _ | JFrac _ => None
  end.

(** [v.k]: throws on [null] and [undefined]. *)
Definition get (v : jsval) (k : string) : result jsval :=
  match v with
  | None | Some JNull => Throw (nullish_read v k)
  | Some j => Ok (member j k)
  end.

(** [const { k } = source], where [v] is the value of [source]. *)
Definition destructure (v : jsval) (k source : string) : result jsval :=
  match v with
  | None | Some JNull => Throw (nullish_destructure v k source)
  | Some j => Ok (member j k)
  end.

(** [v?.k]. *)
Definition get_opt (v : jsval) (k : string) : jsval :=
  match v with
  | None | Some JNull => None
  | Some j => member j k
  end.

(** [v > 0]: an array or an object is converted to a string first. *)
Definition gt_zero (v : jsval) : result bool :=
  match v with
  | None | Some JNull => Ok false
  | Some (JBool b) => Ok b
  | Some (JNum n) => Ok (0 <? n)%Z
  | Some (JFrac f) => Ok (PrimFloat.ltb 0%float f)
  | Some (JStr s) => Ok (string_gt_zero s)
  | Some j =>
      match ToString j with
      | Throw e => Throw e
      | Ok s => Ok (string_gt_zero s)
      end
  end.

End Access.

Section Numbers.
Context `{Platform} `{WebApi}.

(** [Number(v)]: an array or an object is converted to a string first. *)
Definition ToNumber (v : jsval) : result number :=
  match v with
  | None => Ok (NFrac nan)
  | Some JNull => Ok (NInt 0)
  | Some (JBool b) => Ok (NInt (if b then 1 else 0))
  | Some (JNum n) => Ok (NInt n)
  | Some (JFrac f) => Ok (NFrac f)
  | Some (JStr s) => Ok (StringToNumber s)
  | Some j =>
      match ToString j with
      | Throw e => Throw e
      | Ok s => Ok (StringToNumber s)
      end
  end.

End Numbers.

(** An object literal handed to [JSON.stringify]: [undefined] members vanish. *)
Definition object (fields : list (string * jsval)) : json :=
  JObj (omap (fun '(k, v) => match v with Some j => Some (k, j) | None => None end) fields).

(** ** Effects

    A program is a tree of calls into the outside world; every function of
    the sources that awaits something is such a tree. *)

Record Request : Type := mkRequest {
  url : string;
  method : string;
  req_headers : list (string * string);
  req_body : string;
}.

(** What [await fetch(...)] followed by reading the body gives: a response
    with its status and text, or a rejection. *)
Inductive FetchResult : Type :=
| Responded (status : Z) (text : string)
| Rejected (e : JsError).

(** [response.ok]. *)
Definition status_ok (status : Z) : bool :=
  ((200 <=? status) && (status <=? 299))%Z.

(** What [await CapacitorHttp.request(...)] gives on a device: the status
    and the data (a string, or the JSON the plugin already parsed), or a
    rejection. *)
Inductive NativeResult : Type :=
| NativeResponded (status : Z) (data : jsval)
| NativeRejected (e : JsError).

(** The calls of the sources into the outside world: [fetch], the setters
    of the component's state and refs, the [Preferences] store, the native
    HTTP plugin, the in-app browser, the random source and the clock. *)
Inductive eff : Type -> Type :=
| Fetch (r : Request) : eff FetchResult
| SetState (name : string) (v : jsval) : eff unit
| PrefGet (key : string) : eff (option string)
| PrefSet (key value : string) : eff unit
| PrefRemove (key : string) : eff unit
| NativeHttp (r : Request) : eff NativeResult
| BrowserOpen (url : string) : eff unit
| GetRandomValues (len : nat) : eff (list Byte.byte)
| DateNow : eff Z.

Inductive Prog (A : Type) : Type :=
| Ret (a : A)
| Fail (e : JsError)
| Vis {X : Type} (ev : eff X) (k : X -> Prog A).
Arguments Ret {A} a.
Arguments Fail {A} e.
Arguments Vis {A X} ev k.

Fixpoint bind {A B : Type} (p : Prog A) (f : A -> Prog B) : Prog B :=
  match p with
  | Ret a => f a
  | Fail e => Fail e
  | Vis ev k => Vis ev (fun x => bind (k x) f)
  end.

#[export] Instance Prog_ret : MRet Prog := @Ret.
#[export] Instance Prog_bind : MBind Prog := fun A B f p => bind p f.

(** [try { p } catch (e) { h e }]. *)
Fixpoint try_catch {A : Type} (p : Prog A) (h : JsError -> Prog A) : Prog A :=
  match p with
  | Ret a => Ret a
  | Fail e => h e
  | Vis ev k => Vis ev (fun x => try_catch (k x) h)
  end.

(** [try { p } finally { f }]. *)
Fixpoint try_finally {A : Type} (p : Prog A) (f : Prog unit) : Prog A :=
  match p with
  | Ret a => bind f (fun _ => Ret a)
  | Fail e => bind f (fun _ => Fail e)
  | Vis ev k => Vis ev (fun x => try_finally (k x) f)
  end.

Definition call {X : Type} (ev : eff X) : Prog X := Vis ev Ret.
Definition lift {A : Type} (r : result A) : Prog A :=
  match r with
  | Ok a => Ret a
  | Throw e => Fail e
  end.

(** [await fetch(url, init)] and the reading of the response body. *)
Definition fetch (r : Request) : Prog (Z * string) :=
  Vis (Fetch r) (fun fr =>
    match fr with
    | Responded status text => Ret (status, text)
    | Rejected e => Fail e
    end).

(** One call with the answer it got. *)
Inductive step : Type :=
| Step {X : Type} (ev : eff X) (answer : X).

(** The outside world: a state, and its answer to each call. *)
Record World : Type := mkWorld {
  W_state : Type;
  W_answer : forall X : Type, eff X -> W_state -> X * W_state;
}.

(** Running a program in a world: its outcome, the calls it made in order,
    and the state the world is left in. *)
Fixpoint run {A : Type} (W : World) (p : Prog A) (w : W_state W)
  : result A * list step * W_state W :=
  match p with
  | Ret a => (Ok a, [], w)
  | Fail e => (Throw e, [], w)
  | Vis ev k =>
      let '(x, w1) := W_answer W _ ev w in
      let '(r, t, w2) := run W (k x) w1 in
      (r, Step ev x :: t, w2)
  end.

(** The requests among the calls of a run. *)
Fixpoint requests (t : list step) : list Request :=
  match t with
  | [] => []
  | Step ev _ :: rest =>
      match ev with
      | Fetch r => r :: requests rest
      | _ => requests rest
      end
  end.

(** The answers to the requests among the calls of a run. *)
Fixpoint responses (t : list step) : list FetchResult :=
  match t with
  | [] => []
  | Step ev x :: rest =>
      match ev in eff X return X -> list FetchResult with
      | Fetch _ => fun fr => fr :: responses rest
      | _ => fun _ => responses rest
      end x
  end.

(** [traces p t r]: in some world, [p] makes the calls [t], gets the
    answers recorded in [t], and ends with [r]. *)
Inductive traces {A : Type} : Prog A -> list step -> result A -> Prop :=
| traces_ret (a : A) : traces (Ret a) [] (Ok a)
| traces_fail (e : JsError) : traces (Fail e) [] (Throw e)
| traces_vis {X : Type} (ev : eff X) (k : X -> Prog A) (x : X) t r :
    traces (k x) t r -> traces (Vis ev k) (Step ev x :: t) r.

(** [calls P p]: every call [p] can make satisfies [P]. *)
Inductive calls (P : forall X : Type, eff X -> Prop) {A : Type} : Prog A -> Prop :=
| calls_ret (a : A) : calls P (Ret a)
| calls_fail (e : JsError) : calls P (Fail e)
| calls_vis {X : Type} (ev : eff X) (k : X -> Prog A) :
    P X ev -> (forall x : X, calls P (k x)) -> calls P (Vis ev k).

Definition is_fetch (X : Type) (ev : eff X) : Prop :=
  match ev with
  | Fetch _ => True
  | _ => False
  end.

(** Every request [p] can make satisfies [P]. *)
Definition requests_satisfy (P : Request -> Prop) (X : Type) (ev : eff X) : Prop :=
  match ev with
  | Fetch r => P r
  | _ => True
  end.

(** [p] makes no other call than requests, and they satisfy [P]. *)
Definition only_requests (P : Request -> Prop) (X : Type) (ev : eff X) : Prop :=
  match ev with
  | Fetch r => P r
  | _ => False
  end.

(** A device: the scripted answers of the network ([fetch] and the native
    plugin), the [Preferences] store, the component's state as the setters
    leave it, the random bytes to come, the clock and the pages opened in
    the in-app browser. *)
Record Device : Type := mkPhone {
  upstream : list FetchResult;
  prefs : gmap string string;
  ui : gmap string jsval;
  native : list NativeResult;
  entropy : list Byte.byte;
  clock : Z;
  opened : list string;
}.

(** A device with nothing but [fetch] answers, a store and a state. *)
Definition mkDevice (upstream : list FetchResult) (prefs : gmap string string)
    (ui : gmap string jsval) : Device :=
  mkPhone upstream prefs ui [] [] 0 [].

Definition device_answer (X : Type) (ev : eff X) (d : Device) : X * Device :=
  match ev in eff X return X * Device with
  | Fetch _ =>
      match upstream d with
      | fr :: rest =>
          (fr, mkPhone rest (prefs d) (ui d) (native d) (entropy d) (clock d) (opened d))
      | [] => (Rejected (TypeError "fetch failed"), d)
      end
  | SetState name v =>
      (tt, mkPhone (upstream d) (prefs d) (<[name := v]> (ui d))
             (native d) (entropy d) (clock d) (opened d))
  | PrefGet key => (prefs d !! key, d)
  | PrefSet key value =>
      (tt, mkPhone (upstream d) (<[key := value]> (prefs d)) (ui d)
             (native d) (entropy d) (clock d) (opened d))
  | PrefRemove key =>
      (tt, mkPhone (upstream d) (delete key (prefs d)) (ui d)
             (native d) (entropy d) (clock d) (opened d))
  | NativeHttp _ =>
      match native d with
      | nr :: rest =>
          (nr, mkPhone (upstream d) (prefs d) (ui d) rest (entropy d) (clock d) (opened d))
      | [] => (NativeRejected (Error "request failed"), d)
      end
  | BrowserOpen url =>
      (tt, mkPhone (upstream d) (prefs d) (ui d) (native d) (entropy d) (clock d)
             (opened d ++ [url]))
  | GetRandomValues len =>
      (firstn len (entropy d ++ repeat Byte.x00 len),
       mkPhone (upstream d) (prefs d) (ui d) (native d) (skipn len (entropy d))
         (clock d) (opened d))
  | DateNow => (clock d, d)
  end.

Definition device : World := mkWorld Device device_answer.

(** ** A reference platform

    An executable JSON codec for the fragment the sources exchange
    (integers, strings with the short escapes, arrays, objects), used to
    run the models on concrete inputs. *)

Module Reference.
Local Open Scope char_scope.

Definition dquote : ascii := "034".
Definition backslash : ascii := "092".

Definition is_ws (c : ascii) : bool :=
  Ascii.eqb c " " || Ascii.eqb c "010" || Ascii.eqb c "013" || Ascii.eqb c "009".

Fixpoint skip_ws (s : string) : string :=
  match s with
  | String c rest => if is_ws c then skip_ws rest else s
  | EmptyString => s
  end.

Definition digit_of (c : ascii) : option Z :=
  let n := Z.of_nat (nat_of_ascii c) in
  if ((48 <=? n) && (n <=? 57))%Z then Some (n - 48)%Z else None.

(** Digits at the head of [s], folded into [acc]. *)
Fixpoint read_digits (s : string) (acc : Z) : Z * string :=
  match s with
  | String c rest =>
      match digit_of c with
      | Some d => read_digits rest (10 * acc + d)%Z
      | None => (acc, s)
      end
  | EmptyString => (acc, s)
  end.

Definition starts_with_digit (s : string) : bool :=
  match s with
  | String c _ => match digit_of c with Some _ => true | None => false end
  | EmptyString => false
  end.

Definition read_int (s : string) : option (Z * string) :=
  match s with
  | String "-" rest =>
      if starts_with_digit rest then
        let '(n, rest') := read_digits rest 0 in Some ((- n)%Z, rest')
      else None
  | _ =>
      if starts_with_digit s then Some (read_digits s 0) else None
  end.

(** The characters of a string literal after its opening quote. *)
Fixpoint read_string (s : string) : option (string * string) :=
  match s with
  | EmptyString => None
  | String c rest =>
      if Ascii.eqb c dquote then Some (EmptyString, rest)
      else if Ascii.eqb c backslash then
        match rest with
        | String e rest' =>
            let unescaped :=
              if Ascii.eqb e "n" then Some "010"
              else if Ascii.eqb e "r" then Some "013"
              else if Ascii.eqb e "t" then Some "009"
              else if Ascii.eqb e "b" then Some "008"
              else if Ascii.eqb e "f" then Some "012"
              else if Ascii.eqb e "/" then Some "/"
              else if Ascii.eqb e dquote then Some dquote
              else if Ascii.eqb e backslash then Some backslash
              else None in
            match unescaped, read_string rest' with
            | Some ch, Some (body, after) => Some (String ch body, after)
            | _, _ => None
            end
        | EmptyString => None
        end
      else
        match read_string rest with
        | Some (body, after) => Some (String c body, after)
        | None => None
        end
  end.

Definition expect (lit : string) (v : json) (s : string) : option (json * string) :=
  if String.prefix lit s
  then Some (v, String.substring (String.length lit) (String.length s - String.length lit) s)
  else None.

Fixpoint read_value (fuel : nat) (s : string) : option (json * string) :=
  match fuel with
  | O => None
  | S fuel =>
      match skip_ws s with
      | String "{" rest =>
          match skip_ws rest with
          | String "}" after => Some (JObj [], after)
          | _ => read_members fuel rest
          end
      | String "[" rest =>
          match skip_ws rest with
          | String "]" after => Some (JArr [], after)
          | _ => read_elements fuel rest
          end
      | String "t" _ => expect "true" (JBool true) (skip_ws s)
      | String "f" _ => expect "false" (JBool false) (skip_ws s)
      | String "n" _ => expect "null" JNull (skip_ws s)
      | String c rest =>
          if Ascii.eqb c dquote then
            match read_string rest with
            | Some (str, after) => Some (JStr str, after)
            | None => None
            end
          else
            match read_int (skip_ws s) with
            | Some (n, after) => Some (JNum n, after)
            | None => None
            end
      | EmptyString => None
      end
  end
with read_elements (fuel : nat) (s : string) : option (json * string) :=
  match fuel with
  | O => None
  | S fuel =>
      match read_value fuel s with
      | Some (v, after) =>
          match skip_ws after with
          | String "]" after' => Some (JArr [v], after')
          | String "," after' =>
              match read_elements fuel after' with
              | Some (JArr vs, after'') => Some (JArr (v :: vs), after'')
              | _ => None
              end
          | _ => None
          end
      | None => None
      end
  end
with read_members (fuel : nat) (s : string) : option (json * string) :=
  match fuel with
  | O => None
  | S fuel =>
      match skip_ws s with
      | String c rest =>
          if Ascii.eqb c dquote then
            match read_string rest with
            | Some (key, after) =>
                match skip_ws after with
                | String ":" after' =>
                    match read_value fuel after' with
                    | Some (v, after'') =>
                        match skip_ws after'' with
                        | String "}" rest' => Some (JObj [(key, v)], rest')
                        | String "," rest' =>
                            match read_members fuel rest' with
                            | Some (JObj kvs, rest'') => Some (JObj ((key, v) :: kvs), rest'')
                            | _ => None
                            end
                        | _ => None
                        end
                    | None => None
                    end
                | _ => None
                end
            | None => None
            end
          else None
      | EmptyString => None
      end
  end.

Definition SyntaxError : JsError := mkError "SyntaxError" "Unexpected token in JSON".

Definition parse (s : string) : result json :=
  match read_value (S (String.length s)) s with
  | Some (v, rest) =>
      match skip_ws rest with
      | EmptyString => Ok v
      | _ => Throw SyntaxError
      end
  | None => Throw SyntaxError
  end.

Fixpoint escape (s : string) : string :=
  match s with
  | EmptyString => EmptyString
  | String c rest =>
      let tail := escape rest in
      if Ascii.eqb c dquote then String backslash (String dquote tail)
      else if Ascii.eqb c backslash then String backslash (String backslash tail)
      else if Ascii.eqb c "010" then String backslash (String "n" tail)
      else if Ascii.eqb c "013" then String backslash (String "r" tail)
      else if Ascii.eqb c "009" then String backslash (String "t" tail)
      else if Ascii.eqb c "008" then String backslash (String "b" tail)
      else if Ascii.eqb c "012" then String backslash (String "f" tail)
      else String c tail
  end.

Definition quote (s : string) : string :=
  String dquote (escape s +:+ String dquote EmptyString).

(** The decimal text of a number that is no integer: all the digits of
    [m * 2^e]. *)
Fixpoint drop_zeros (s : string) : string :=
  match s with
  | EmptyString => EmptyString
  | String c rest =>
      match drop_zeros rest with
      | EmptyString => if Ascii.eqb c "0" then EmptyString else String c EmptyString
      | kept => String c kept
      end
  end.

Definition decimal (f : float) : string :=
  match Prim2SF f with
  | S754_nan => "NaN"
  | S754_infinity s => if s then "-Infinity" else "Infinity"
  | S754_zero _ => "0"
  | S754_finite s m e =>
      let sign : string := if s then "-"%string else EmptyString in
      if (0 <=? e)%Z then sign +:+ string_of_Z (Z.pos m * 2 ^ e)
      else
        let scaled := (Z.pos m * 5 ^ (- e))%Z in
        let unit := (10 ^ (- e))%Z in
        let digits := string_of_Z (unit + scaled mod unit) in
        sign +:+ string_of_Z (scaled / unit) +:+ "."%string
        +:+ drop_zeros (String.substring 1 (String.length digits - 1) digits)
  end.

Fixpoint stringify (v : json) : string :=
  match v with
  | JNull => "null"
  | JBool b => if b then "true" else "false"
  | JNum n => string_of_Z n
  | JFrac f =>
      match Prim2SF f with
      | S754_nan | S754_infinity _ => "null"
      | _ => decimal f
      end
  | JStr s => quote s
  | JArr items => "[" +:+ String.concat "," (map stringify items) +:+ "]"
  | JObj fields =>
      "{" +:+ String.concat ","
                (map (fun kv => quote (fst kv) +:+ ":" +:+ stringify (snd kv)) fields)
          +:+ "}"
  end.

Definition read_error (v : jsval) (k : string) : JsError :=
  TypeError ("Cannot read properties of "
             +:+ (match v with None => "undefined" | Some _ => "null" end)
             +:+ " (reading '" +:+ k +:+ "')").

Definition destructure_error (v : jsval) (k source : string) : JsError :=
  TypeError ("Cannot destructure property '" +:+ k +:+ "' of '" +:+ source
             +:+ "' as it is "
             +:+ (match v with None => "undefined" | Some _ => "null" end) +:+ ".").

Definition decimal_gt_zero (s : string) : bool :=
  match read_int (skip_ws s) with
  | Some (n, rest) =>
      match skip_ws rest with
      | EmptyString => (0 <? n)%Z
      | _ => false
      end
  | None => false
  end.

#[export] Instance platform : Platform := {|
  JSON_parse := parse;
  JSON_stringify := stringify;
  nullish_read := read_error;
  nullish_destructure := destructure_error;
  string_gt_zero := decimal_gt_zero;
  Number_toString := string_of_Z;
  Fraction_toString := decimal;
  not_primitive := fun _ => TypeError "Cannot convert object to primitive value";
|}.

End Reference.

(** ** The Storefront proxy ([netlify/functions/shopify.js]) *)

(** [process.env]. *)
Abbreviation Env := (gmap string string).

Module Netlify.

Record Event : Type := mkEvent {
  httpMethod : string;
  body : option string;
}.

Record Reply : Type := mkReply {
  statusCode : Z;
  headers : list (string * string);
  reply_body : string;
}.

Section Handler.
Context `{Platform}.

Definition reply (statusCode : Z) (obj : json) : Reply :=
  {| statusCode := statusCode;
     headers :=
       [ ("Content-Type", "application/json");
         ("Access-Control-Allow-Origin", "*");
         ("Access-Control-Allow-Headers", "Content-Type");
         ("Access-Control-Allow-Methods", "POST, OPTIONS") ];
     reply_body := JSON_stringify obj |}.

(** The endpoint the proxy posts to. *)
Definition endpoint (env : Env) : string :=
  let SHOP_DOMAIN := str_or (env !! "SHOP_DOMAIN") "acefixings.com" in
  let API_VERSION := str_or (env !! "SHOPIFY_API_VERSION") "2025-07" in
  "https://" +:+ SHOP_DOMAIN +:+ "/api/" +:+ API_VERSION +:+ "/graphql.json".

Definition handler (env : Env) (event : Event) : Prog Reply :=
  try_catch
    (if String.eqb (httpMethod event) "OPTIONS" then
       Ret (reply 200 (JObj [("ok", JBool true)]))
     else if negb (String.eqb (httpMethod event) "POST") then
       Ret (reply 405 (JObj [("ok", JBool false); ("error", JStr "Use POST")]))
     else
       match JSON_parse (str_or (body event) "{}") with
       | Throw e =>
           Ret (reply 400 (JObj [("ok", JBool false);
                                 ("error", JStr "Invalid JSON body");
                                 ("details", JStr (Error_toString e))]))
       | Ok body =>
           query ← lift (destructure (Some body) "query" "body");
           variables ← lift (destructure (Some body) "variables" "body");
           if negb (truthy query) then
             Ret (reply 400 (JObj [("ok", JBool false); ("error", JStr "Missing query")]))
           else
             let TOKEN := env !! "SHOPIFY_STOREFRONT_TOKEN" in
             if negb (str_truthy (str_or TOKEN "")) then
               Ret (reply 500 (JObj [("ok", JBool false);
                                     ("error", JStr "Missing SHOPIFY_STOREFRONT_TOKEN env var")]))
             else
               '(status, text) ← fetch
                 {| url := endpoint env;
                    method := "POST";
                    req_headers :=
                      [ ("Content-Type", "application/json");
                        ("X-Shopify-Storefront-Access-Token", str_or TOKEN "") ];
                    req_body :=
                      JSON_stringify
                        (object [("query", query);
                                 ("variables", Some (js_or variables (JObj [])))]) |};
               let parsed :=
                 match JSON_parse text with
                 | Ok v => v
                 | Throw _ => JObj [("raw", JStr text)]
                 end in
               if negb (status_ok status) then
                 Ret (reply status
                        (JObj [("ok", JBool false);
                               ("error", JStr ("Shopify HTTP " +:+ string_of_Z status));
                               ("details", parsed)]))
               else Ret (reply 200 parsed)
       end)
    (fun err =>
       Ret (reply 500
              (JObj [("ok", JBool false);
                     ("error", JStr (if str_truthy (emessage err) then emessage err
                                     else Error_toString err))]))).

(** The request a POST with parsed body [b] is forwarded as. *)
Definition forwarded (env : Env) (b : json) : Request :=
  {| url := endpoint env;
     method := "POST";
     req_headers :=
       [ ("Content-Type", "application/json");
         ("X-Shopify-Storefront-Access-Token",
          str_or (env !! "SHOPIFY_STOREFRONT_TOKEN") "") ];
     req_body :=
       JSON_stringify
         (object [("query", get_opt (Some b) "query");
                  ("variables", Some (js_or (get_opt (Some b) "variables") (JObj [])))]) |}.

(** A POST the proxy forwards: its body parses to [b], which carries a
    query, and the Storefront token is set. *)
Definition forwardable (env : Env) (event : Event) (b : json) : Prop :=
  httpMethod event = "POST"
  /\ JSON_parse (str_or (body event) "{}") = Ok b
  /\ truthy (get_opt (Some b) "query") = true
  /\ str_truthy (str_or (env !! "SHOPIFY_STOREFRONT_TOKEN") "") = true.



End Handler.
End Netlify.

(** ** The VAT-verification endpoint ([api/submitVatVerification])

    What the handler writes to the console has no bearing on its replies and
    requests; the template literals it writes are evaluated all the same,
    and those that can throw are kept as conversions whose text is dropped. *)

Module Vat.

Record Req : Type := mkReq {
  req_method : string;
  (** [req.body] as the host parsed it; [None] when there is none. *)
  body : jsval;
}.

(** [res.status(code).json(obj)]. *)
Record Reply : Type := mkReply {
  status : Z;
  json_body : json;
}.

Definition searchQuery : string := "
      query SearchCustomers($query: String!) {
        customers(first: 1, query: $query) {
          edges {
            node {
              id
              email
            }
          }
        }
      }
    ".

Definition updateMetafieldMutation : string := "
      mutation UpdateCustomerMetafield($metafields: [MetafieldsSetInput!]!) {
        metafieldsSet(metafields: $metafields) {
          userErrors {
            field
            message
          }
          metafields {
            id
            key
            value
          }
        }
      }
    ".

Definition addTagMutation : string := "
      mutation AddCustomerTag($id: ID!, $tags: [String!]!) {
        tagsAdd(id: $id, tags: $tags) {
          userErrors {
            field
            message
          }
          node {
            id
          }
        }
      }
    ".

Section Handler.
Context `{Platform}.

(** The Admin API endpoint of a shop. *)
Definition admin_url (domain apiVersion : string) : string :=
  "https://" +:+ domain +:+ "/admin/api/" +:+ apiVersion +:+ "/graphql.json".

(** The request [graphqlRequest] sends. *)
Definition graphql_request (domain token apiVersion query : string) (variables : json)
  : Request :=
  {| url := admin_url domain apiVersion;
     method := "POST";
     req_headers :=
       [ ("X-Shopify-Access-Token", token);
         ("Content-Type", "application/json") ];
     req_body :=
       JSON_stringify
         (JObj [("query", JStr query);
                ("variables", js_or (Some variables) (JObj []))]) |}.

(** What [graphqlRequest] makes of the answer: the [data] of the response,
    or the error it throws. *)
Definition graphql_answer (fr : FetchResult) : result json :=
  match fr with
  | Rejected e => Throw e
  | Responded status text =>
      if negb (status_ok status) then
        Throw (Error ("Shopify API error " +:+ string_of_Z status +:+ ": " +:+ text))
      else
        match JSON_parse text with
        | Throw e => Throw e
        | Ok data =>
            match get (Some data) "errors" with
            | Throw e => Throw e
            | Ok errors =>
                if truthy errors then
                  Throw (Error ("GraphQL error: " +:+ JSON_stringify (js_or errors JNull)))
                else Ok (js_or (member data "data") data)
            end
        end
  end.

Definition graphqlRequest (domain token apiVersion query : string) (variables : json)
  : Prog json :=
  fr ← call (Fetch (graphql_request domain token apiVersion query variables));
  lift (graphql_answer fr).

Definition shopDomain (env : Env) : string :=
  str_or (env !! "SHOPIFY_DOMAIN")
    (str_or (env !! "SHOP_DOMAIN") "acefixings.myshopify.com").

Definition apiVersion (env : Env) : string :=
  str_or (env !! "SHOPIFY_API_VERSION") "2024-01".

Definition metafield (customerId : jsval) (key : string) (value : jsval) : json :=
  object [ ("ownerId", customerId);
           ("namespace", Some (JStr "custom"));
           ("key", Some (JStr key));
           ("type", Some (JStr "single_line_text_field"));
           ("value", value) ].

(** [{ query: `email:${customerEmail}` }], for the text of the e-mail. *)
Definition search_variables (email : string) : json :=
  JObj [("query", JStr ("email:" +:+ email))].

Definition metafields_variables (customerId vatNumber businessName country : jsval) : json :=
  JObj [("metafields",
         JArr [ metafield customerId "vat_number" vatNumber;
                metafield customerId "business_name" businessName;
                metafield customerId "business_country" country ])].

Definition tag_variables (customerId : jsval) : json :=
  object [ ("id", customerId);
           ("tags", Some (JArr [JStr "No Vat Customers"])) ].

Definition success_body : json :=
  JObj [ ("success", JBool true);
         ("message",
          JStr "VAT verification submitted successfully. Your application will be reviewed shortly.") ].

Definition handler (env : Env) (req : Req) : Prog Reply :=
  if negb (String.eqb (req_method req) "POST") then
    Ret (mkReply 405 (JObj [("error", JStr "Method not allowed")]))
  else
    try_catch
      (customerEmail ← lift (destructure (body req) "customerEmail" "req.body");
       businessName ← lift (destructure (body req) "businessName" "req.body");
       country ← lift (destructure (body req) "country" "req.body");
       vatNumber ← lift (destructure (body req) "vatNumber" "req.body");
       if negb (truthy customerEmail) || negb (truthy businessName)
          || negb (truthy country) || negb (truthy vatNumber) then
         Ret (mkReply 400 (JObj [("error", JStr "Missing required fields")]))
       else
         let adminToken := str_or (env !! "SHOPIFY_ADMIN_API_TOKEN") "" in
         if negb (str_truthy adminToken) then
           Ret (mkReply 500 (JObj [("error", JStr "Missing admin API token")]))
         else
           email ← lift (String_of customerEmail);
           searchResponse ← graphqlRequest (shopDomain env) adminToken (apiVersion env)
             searchQuery (search_variables email);
           if negb (truthy (get_opt (get_opt (get_opt (Some searchResponse)
                                                "customers") "edges") "length")) then
             Ret (mkReply 404
                    (JObj [("error", JStr ("Customer with email " +:+ email +:+ " not found"))]))
           else
             customers ← lift (get (Some searchResponse) "customers");
             edges ← lift (get customers "edges");
             first ← lift (get edges "0");
             node ← lift (get first "node");
             customerId ← lift (get node "id");
             _ ← lift (String_of customerId);
             metafieldResponse ← graphqlRequest (shopDomain env) adminToken (apiVersion env)
               updateMetafieldMutation
               (metafields_variables customerId vatNumber businessName country);
             let errors := get_opt (Some metafieldResponse) "errors" in
             let userErrors :=
               get_opt (get_opt (Some metafieldResponse) "metafieldsSet") "userErrors" in
             if truthy errors then
               Fail (Error ("Metafield update failed: "
                            +:+ JSON_stringify (js_or errors JNull)))
             else
               refused ← lift (gt_zero (get_opt userErrors "length"));
               if refused : bool then
                 Fail (Error ("Metafield update failed: "
                              +:+ JSON_stringify (js_or userErrors JNull)))
               else
                 tagResponse ← graphqlRequest (shopDomain env) adminToken (apiVersion env)
                   addTagMutation (tag_variables customerId);
                 _ ← lift (gt_zero (get_opt (get_opt (get_opt (Some tagResponse) "tagsAdd")
                                               "userErrors") "length"));
                 Ret (mkReply 200 success_body))
      (fun err =>
         Ret (mkReply 500
                (JObj [("error", JStr (if str_truthy (emessage err) then emessage err
                                       else "Internal server error"))]))).

(** The fields a submission must supply, and whether a body supplies
    them all (each present and truthy). *)
Definition required_fields : list string :=
  ["customerEmail"; "businessName"; "country"; "vatNumber"].

Definition supplies (body : jsval) (field : string) : bool :=
  truthy (get_opt body field).

Definition complete (body : jsval) : bool :=
  forallb (supplies body) required_fields.

(** The status of the reply to a request that is not a complete POST. *)
Definition rejection_status (req : Req) : Z :=
  if negb (String.eqb (req_method req) "POST") then 405
  else match body req with
       | None | Some JNull => 500
       | Some _ => 400
       end.

(** [payload?.userErrors?.length > 0]. *)
Definition reports_userErrors (payload : jsval) : result bool :=
  gt_zero (get_opt (get_opt payload "userErrors") "length").

End Handler.
End Vat.

(** ** The exchange of a VAT verification, spelled out

    What the endpoint is to send to the Admin API and to answer, written
    down without the definitions its model is built from. *)

Module VatWire.
Section Wire.
Context `{Platform}.

(** A POST of a GraphQL document with its variables to the Admin API of
    the shop, under the admin token. *)
Definition admin_post (env : Env) (document : string) (variables : json) : Request :=
  {| url := "https://"
            +:+ str_or (env !! "SHOPIFY_DOMAIN")
                  (str_or (env !! "SHOP_DOMAIN") "acefixings.myshopify.com")
            +:+ "/admin/api/" +:+ str_or (env !! "SHOPIFY_API_VERSION") "2024-01"
            +:+ "/graphql.json";
     method := "POST";
     req_headers :=
       [ ("X-Shopify-Access-Token", str_or (env !! "SHOPIFY_ADMIN_API_TOKEN") "");
         ("Content-Type", "application/json") ];
     req_body :=
       JSON_stringify (JObj [("query", JStr document); ("variables", variables)]) |}.

(** The search of the customer with the e-mail [email]. *)
Definition search (env : Env) (email : string) : Request :=
  admin_post env "
      query SearchCustomers($query: String!) {
        customers(first: 1, query: $query) {
          edges {
            node {
              id
              email
            }
          }
        }
      }
    "
    (JObj [("query", JStr ("email:" +:+ email))]).

(** One metafield of the customer [owner]. *)
Definition entry (owner : jsval) (key : string) (value : jsval) : json :=
  object [ ("ownerId", owner);
           ("namespace", Some (JStr "custom"));
           ("key", Some (JStr key));
           ("type", Some (JStr "single_line_text_field"));
           ("value", value) ].

(** The writing of the three metafields of the customer [owner]. *)
Definition metafields (env : Env) (owner vatNumber businessName country : jsval)
  : Request :=
  admin_post env "
      mutation UpdateCustomerMetafield($metafields: [MetafieldsSetInput!]!) {
        metafieldsSet(metafields: $metafields) {
          userErrors {
            field
            message
          }
          metafields {
            id
            key
            value
          }
        }
      }
    "
    (JObj [("metafields",
            JArr [ entry owner "vat_number" vatNumber;
                   entry owner "business_name" businessName;
                   entry owner "business_country" country ])]).

(** The tagging of the customer [owner]. *)
Definition tag (env : Env) (owner : jsval) : Request :=
  admin_post env "
      mutation AddCustomerTag($id: ID!, $tags: [String!]!) {
        tagsAdd(id: $id, tags: $tags) {
          userErrors {
            field
            message
          }
          node {
            id
          }
        }
      }
    "
    (object [("id", owner); ("tags", Some (JArr [JStr "No Vat Customers"]))]).

End Wire.
End VatWire.

(** ** The app ([src/App.jsx]): helpers, cart and reorder *)

Module App.

Definition SHOP_DOMAIN : string := "acefixings.com".
Definition API_VERSION : string := "2025-07".
Definition STOREFRONT_TOKEN : string := "6a03196efa97d2256f8b9b0c0fc148b9".
Definition STOREFRONT_ENDPOINT : string :=
  "https://" +:+ SHOP_DOMAIN +:+ "/api/" +:+ API_VERSION +:+ "/graphql.json".






Definition cartCreate_query : string := "
      mutation CartCreate($input: CartInput) {
        cartCreate(input: $input) {
          cart { id }
          userErrors { message }
        }
      }
    ".

Definition cart_query : string := "
        query CartQuery($id: ID!) {
          cart(id: $id) {
            id
            checkoutUrl
            totalQuantity
            cost {
              subtotalAmount { amount currencyCode }
              totalAmount { amount currencyCode }
              totalTaxAmount { amount currencyCode }
            }
            lines(first: 50) {
              edges {
                node {
                  id
                  quantity
                  merchandise {
                    ... on ProductVariant {
                      id
                      title
                      sku
                      product { title handle featuredImage { url altText } }
                      price { amount currencyCode }
                    }
                  }
                }
              }
            }
          }
        }
      ".

Definition cartLinesAdd_query : string := "
      mutation CartLinesAdd($cartId:ID!, $lines:[CartLineInput!]!) {
        cartLinesAdd(cartId:$cartId, lines:$lines) {
          cart { id }
          userErrors { message }
        }
      }
    ".

(** [a || b] where both are values. *)
Definition or_else (a b : jsval) : jsval := if truthy a then a else b.

Definition setState (name : string) (v : json) : Prog unit :=
  call (SetState name (Some v)).
Definition setToast (s : string) : Prog unit := setState "toast" (JStr s).
Definition setError (s : string) : Prog unit := setState "error" (JStr s).
Definition setView (s : string) : Prog unit := setState "view" (JStr s).

(** [String(e?.message || e)]. *)
Definition error_text (e : JsError) : string :=
  if str_truthy (emessage e) then emessage e else Error_toString e.

Section Component.
Context `{Platform} `{WebApi}.

(** What the engine contributes: the [TypeError] thrown on calling the
    missing method [name] of a value. *)
Variable not_a_function : string -> JsError.

(** [safeJsonParse]. *)
Definition safeJsonParse (s : string) : json :=
  match JSON_parse s with
  | Ok v => v
  | Throw _ => JNull
  end.

(** What [throw new Error(v)] throws: the message is [String(v)], and a
    value that cannot be converted throws in its place. *)
Definition Error_of (v : jsval) : JsError :=
  match String_of v with
  | Ok message => Error message
  | Throw e => e
  end.




(** The request [shopifyStorefront] sends. *)
Definition storefront_request (query : string) (variables : json) : Request :=
  {| url := STOREFRONT_ENDPOINT;
     method := "POST";
     req_headers :=
       [ ("Content-Type", "application/json");
         ("X-Shopify-Storefront-Access-Token", STOREFRONT_TOKEN) ];
     req_body :=
       JSON_stringify (JObj [("query", JStr query); ("variables", variables)]) |}.

Definition shopifyStorefront (query : string) (variables : json) : Prog jsval :=
  '(status, text) ← fetch (storefront_request query variables);
  let json := safeJsonParse text in
  if negb (status_ok status) then
    let message :=
      or_else (get_opt (get_opt (get_opt (Some json) "errors") "0") "message")
        (or_else (get_opt (Some json) "error")
           (or_else (Some (JStr text))
              (Some (JStr ("Storefront HTTP " +:+ string_of_Z status))))) in
    Fail (Error_of message)
  else if truthy (get_opt (get_opt (Some json) "errors") "length") then
    Fail (Error_of
            (or_else (get_opt (get_opt (get_opt (Some json) "errors") "0") "message")
               (Some (JStr "Storefront API error"))))
  else lift (get (Some json) "data").

(** The state of the component that the closures below capture, and the
    view model [fetchCart] hands to [setCart] (a pure mapping of the
    response, which throws on a malformed edge). *)
Variable cartId : string.
Variable cartView : json -> result json.

Definition createCart : Prog json :=
  data ← shopifyStorefront cartCreate_query (JObj [("input", JObj [])]);
  let err :=
    get_opt (get_opt (get_opt (get_opt data "cartCreate") "userErrors") "0") "message" in
  if truthy err then Fail (Error_of err)
  else
    let id := get_opt (get_opt (get_opt data "cartCreate") "cart") "id" in
    if negb (truthy id) then Fail (Error "Failed to create cart")
    else Ret (js_or id JNull).

Definition fetchCart (id : json) : Prog unit :=
  setState "loadingCart" (JBool true);;
  setError "";;
  try_finally
    (data ← shopifyStorefront cart_query (JObj [("id", id)]);
     if negb (truthy (get_opt (get_opt data "cart") "id")) then
       Fail (Error "Cart not found (expired).")
     else
       view ← lift (cartView (js_or data JNull));
       setState "cart" view)
    (setState "loadingCart" (JBool false)).

(** The path [ensureCartId] takes when there is no usable saved cart. *)
Definition freshCart : Prog json :=
  newId ← createCart;
  setState "cartId" newId;;
  fetchCart newId;;
  Ret newId.

Definition ensureCartId : Prog json :=
  if str_truthy cartId then
    try_catch (fetchCart (JStr cartId);; Ret (JStr cartId)) (fun _ => freshCart)
  else freshCart.




(** The three Storefront requests of the cart. *)
Definition cart_request (id : json) : Request :=
  storefront_request cart_query (JObj [("id", id)]).

Definition cartCreate_request : Request :=
  storefront_request cartCreate_query (JObj [("input", JObj [])]).



End Component.




End App.

(** ** The app ([src/App.jsx]): tokens, PKCE and the session *)

Module Session.
Import App.

(** *** Strings and base64 *)

(** [s.split(sep)] for a one-character separator. *)
Fixpoint split (sep : ascii) (s : string) : list string :=
  match s with
  | EmptyString => [EmptyString]
  | String c rest =>
      if Ascii.eqb c sep then EmptyString :: split sep rest
      else
        match split sep rest with
        | first :: others => String c first :: others
        | [] => [String c EmptyString]
        end
  end.

(** [s.replace(/c/g, d)]. *)
Fixpoint replace_all (c d : ascii) (s : string) : string :=
  match s with
  | EmptyString => EmptyString
  | String x rest => String (if Ascii.eqb x c then d else x) (replace_all c d rest)
  end.

(** [s.replace(/c+$/g, "")]: the trailing run of [c] goes. *)
Fixpoint strip_trailing (c : ascii) (s : string) : string :=
  match s with
  | EmptyString => EmptyString
  | String x rest =>
      match strip_trailing c rest with
      | EmptyString => if Ascii.eqb x c then EmptyString else String x EmptyString
      | kept => String x kept
      end
  end.

(** What the two replacements of [sha256Base64Url] make of one character. *)
Definition to_url (c : ascii) : ascii :=
  let c := if Ascii.eqb c "+" then "-"%char else c in
  if Ascii.eqb c "/" then "_"%char else c.

(** [c.repeat(n)]. *)
Fixpoint repeat_char (c : ascii) (n : nat) : string :=
  match n with
  | O => EmptyString
  | S n => String c (repeat_char c n)
  end.

Definition base64_alphabet : string :=
  "ABCDEFGHIJKLMNOPQRSTUVWXYZabcdefghijklmnopqrstuvwxyz0123456789+/".

Definition base64url_alphabet : string :=
  "ABCDEFGHIJKLMNOPQRSTUVWXYZabcdefghijklmnopqrstuvwxyz0123456789-_".

Definition digit_in (alphabet : string) (n : nat) : ascii :=
  match String.get n alphabet with
  | Some c => c
  | None => "="%char
  end.

(** The four sextets of three octets, the third and fourth of which may be
    missing. *)
Definition sextet1 (a : nat) : nat := (a / 4)%nat.
Definition sextet2 (a b : nat) : nat := ((a mod 4) * 16 + b / 16)%nat.
Definition sextet3 (b c : nat) : nat := ((b mod 16) * 4 + c / 64)%nat.
Definition sextet4 (c : nat) : nat := (c mod 64)%nat.

(** [btoa] on a binary string (every character code is below 256). *)
Fixpoint btoa (s : string) : string :=
  let ch := digit_in base64_alphabet in
  match s with
  | String a (String b (String c rest)) =>
      let '(a, b, c) := (nat_of_ascii a, nat_of_ascii b, nat_of_ascii c) in
      String (ch (sextet1 a)) (String (ch (sextet2 a b))
        (String (ch (sextet3 b c)) (String (ch (sextet4 c)) (btoa rest))))
  | String a (String b EmptyString) =>
      let '(a, b) := (nat_of_ascii a, nat_of_ascii b) in
      String (ch (sextet1 a)) (String (ch (sextet2 a b))
        (String (ch (sextet3 b 0)) "="))
  | String a EmptyString =>
      let a := nat_of_ascii a in
      String (ch (sextet1 a)) (String (ch (sextet2 a 0)) "==")
  | EmptyString => EmptyString
  end.

(** The base64url encoding without padding of RFC 4648, section 5, as
    RFC 7636 asks of a code challenge: the URL-safe alphabet, and no [=]. *)
Fixpoint base64url_nopad (octets : list Byte.byte) : string :=
  let ch := digit_in base64url_alphabet in
  let code (x : Byte.byte) := N.to_nat (Byte.to_N x) in
  match octets with
  | a :: b :: c :: rest =>
      String (ch (sextet1 (code a))) (String (ch (sextet2 (code a) (code b)))
        (String (ch (sextet3 (code b) (code c))) (String (ch (sextet4 (code c)))
           (base64url_nopad rest))))
  | [a; b] =>
      String (ch (sextet1 (code a))) (String (ch (sextet2 (code a) (code b)))
        (String (ch (sextet3 (code b) 0)) EmptyString))
  | [a] =>
      String (ch (sextet1 (code a))) (String (ch (sextet2 (code a) 0)) EmptyString)
  | [] => EmptyString
  end.

(** [new TextEncoder().encode(s)]: UTF-8, for characters below 256. *)
Fixpoint utf8 (s : string) : list Byte.byte :=
  match s with
  | EmptyString => []
  | String c rest =>
      let n := N_of_ascii c in
      if (n <? 128)%N then byte_of_ascii c :: utf8 rest
      else
        byte_of_ascii (ascii_of_N (192 + n / 64))
        :: byte_of_ascii (ascii_of_N (128 + n mod 64))
        :: utf8 rest
  end.

(** [bytes.forEach((b) => (bin += String.fromCharCode(b)))]. *)
Definition binary_string (octets : list Byte.byte) : string :=
  string_of_list_byte octets.

(** [(n).toString(36)] for a digit, and [(n).toString(16)] padded to two. *)
Definition digit36 (n : nat) : ascii :=
  digit_in "0123456789abcdefghijklmnopqrstuvwxyz" n.

Definition hex2 (n : nat) : string :=
  let digit := digit_in "0123456789abcdef" in
  String (digit (n / 16)%nat) (String (digit (n mod 16)%nat) EmptyString).

(** [s.split("").map((c) => "%" + hex2(c)).join("")]. *)
Fixpoint percent_encode_all (s : string) : string :=
  match s with
  | EmptyString => EmptyString
  | String c rest => String "%" (hex2 (nat_of_ascii c) +:+ percent_encode_all rest)
  end.

(** *** Storage keys *)

Module K.
Definition VAT_MODE : string := "acefixings_vat_mode".
Definition CART_ID : string := "acefixings_cart_id".
Definition AUTH : string := "acefixings_auth".
Definition PKCE : string := "acefixings_pkce".
Definition PROFILE : string := "acefixings_customer_profile".
Definition ORDERS_CACHE : string := "acefixings_orders_cache".
End K.

(** The key [loadCustomerProfile] writes besides those of [K]. *)
Definition CUSTOMER_SHOPIFY_ID : string := "customer_shopify_id".

Definition CUSTOMER_ACCOUNTS_CLIENT_ID : string := "edc5278a-8942-4645-a802-bdfa625f8dbd".
Definition REDIRECT_URI : string := "shop.90779713878.app://callback".
Definition OIDC_CONFIG_URL : string :=
  "https://" +:+ SHOP_DOMAIN +:+ "/.well-known/openid-configuration".
Definition CUSTOMER_ACCOUNT_API_DISCOVERY_URL : string :=
  "https://" +:+ SHOP_DOMAIN +:+ "/.well-known/customer-account-api".

(** [a === b] on values: primitives compare by value, objects and arrays
    (fresh from [JSON.parse]) never equal anything else. *)
Definition strict_eq (a b : jsval) : bool :=
  match a, b with
  | None, None => true
  | Some JNull, Some JNull => true
  | Some (JBool x), Some (JBool y) => Bool.eqb x y
  | Some (JNum x), Some (JNum y) => (x =? y)%Z
  | Some (JStr x), Some (JStr y) => String.eqb x y
  | _, _ => false
  end.

Section Component.
Context `{Platform} `{WebApi}.

(** [base64UrlDecode]. *)
Definition base64UrlDecode (str : string) : result string :=
  let pad := repeat_char "=" ((4 - String.length str mod 4) mod 4)%nat in
  let b64 := replace_all "_" "/" (replace_all "-" "+" (str +:+ pad)) in
  match atob b64 with
  | Throw e => Throw e
  | Ok decoded =>
      match decodeURIComponent (percent_encode_all decoded) with
      | Ok text => Ok text
      | Throw _ => Ok decoded
      end
  end.

(** [decodeJwt]. *)
Definition decodeJwt (jwt : jsval) : result json :=
  match jwt with
  | Some (JStr s) =>
      if negb (str_truthy s) then Ok JNull
      else
        let parts := split "." s in
        if (length parts <? 2)%nat then Ok JNull
        else
          match base64UrlDecode (nth 1 parts EmptyString) with
          | Throw e => Throw e
          | Ok payload => Ok (safeJsonParse payload)
          end
  | _ => Ok JNull
  end.

(** The pairs [toQuery] sets: [null] and [undefined] are skipped, any
    other value goes as [String(v)]. *)
Fixpoint query_pairs (obj : list (string * jsval)) : result (list (string * string)) :=
  match obj with
  | [] => Ok []
  | (k, v) :: rest =>
      match v with
      | None | Some JNull => query_pairs rest
      | Some j =>
          match ToString j with
          | Throw e => Throw e
          | Ok text =>
              match query_pairs rest with
              | Throw e => Throw e
              | Ok pairs => Ok ((k, text) :: pairs)
              end
          end
      end
  end.

(** [toQuery]. *)
Definition toQuery (obj : list (string * jsval)) : result string :=
  match query_pairs obj with
  | Throw e => Throw e
  | Ok pairs => Ok (URLSearchParams_toString pairs)
  end.

(** [sha256Base64Url]. *)
Definition sha256Base64Url (input : string) : string :=
  let data := utf8 input in
  let hash := sha256 data in
  let bin := binary_string hash in
  let b64 := btoa bin in
  strip_trailing "=" (replace_all "/" "_" (replace_all "+" "-" b64)).

(** The string [randomString] makes of the random octets. *)
Definition base36 (octets : list Byte.byte) : string :=
  string_of_list_ascii
    (map (fun b => digit36 (N.to_nat (Byte.to_N b) mod 36)%nat) octets).

(** [randomString(len)]. *)
Definition randomString (len : nat) : Prog string :=
  octets ← call (GetRandomValues len);
  Ret (base36 octets).

(** The state the closures capture: whether the app runs natively, and the
    discovery documents loaded so far. *)
Variable isNative : bool.
Variable oidc : jsval.
Variable custApi : jsval.

(** [httpGetText]. *)
Definition httpGetText (url : string) : Prog string :=
  if isNative then
    r ← call (NativeHttp {| url := url; method := "GET";
                            req_headers := [("Accept", "application/json")];
                            req_body := "" |});
    match r with
    | NativeRejected e => Fail e
    | NativeResponded _ data =>
        match data with
        | Some (JStr s) => Ret s
        | Some (JArr _ as j) | Some (JObj _ as j) => Ret (JSON_stringify j)
        | _ => Ret ""
        end
    end
  else
    '(_, text) ← fetch {| url := url; method := "GET"; req_headers := []; req_body := "" |};
    Ret text.

(** [fetchJson]. *)
Definition fetchJson (url : string) : Prog json :=
  text ← httpGetText url;
  let json := safeJsonParse text in
  if negb (json_truthy json) then Fail (Error "Invalid JSON from discovery endpoint")
  else Ret json.

(** The pairs of [new URLSearchParams(formObj)]: every value goes as
    [String(v)]. *)
Fixpoint form_pairs (formObj : list (string * jsval)) : result (list (string * string)) :=
  match formObj with
  | [] => Ok []
  | (k, v) :: rest =>
      match String_of v with
      | Throw e => Throw e
      | Ok text =>
          match form_pairs rest with
          | Throw e => Throw e
          | Ok pairs => Ok ((k, text) :: pairs)
          end
      end
  end.

(** The body [httpPostForm] sends: [new URLSearchParams(formObj).toString()]. *)
Definition form_body (formObj : list (string * jsval)) : result string :=
  match form_pairs formObj with
  | Throw e => Throw e
  | Ok pairs => Ok (URLSearchParams_toString pairs)
  end.

Definition form_request (url body : string) : Request :=
  {| url := url; method := "POST";
     req_headers := [("Content-Type", "application/x-www-form-urlencoded")];
     req_body := body |}.

(** [httpPostForm]: the body is built first; the URL is converted when the
    request is made. *)
Definition httpPostForm (url : jsval) (formObj : list (string * jsval)) : Prog json :=
  body ← lift (form_body formObj);
  url ← lift (String_of url);
  if isNative then
    r ← call (NativeHttp (form_request url body));
    match r with
    | NativeRejected e => Fail e
    | NativeResponded status data =>
        let json :=
          match data with
          | Some (JStr s) => Some (safeJsonParse s)
          | _ => data
          end in
        if negb (status =? 0)%Z && (400 <=? status)%Z then
          Fail (Error_of
                  (or_else (get_opt json "error_description")
                     (or_else (get_opt json "error")
                        (match data with
                         | Some (JStr s) => Some (JStr s)
                         | _ => Some (JStr ("HTTP " +:+ string_of_Z status))
                         end))))
        else if truthy (get_opt json "error") then
          Fail (Error_of (or_else (get_opt json "error_description") (get_opt json "error")))
        else Ret (js_or json (JObj []))
    end
  else
    '(status, text) ← fetch (form_request url body);
    let json := safeJsonParse text in
    if negb (status_ok status) then
      Fail (Error_of
              (or_else (get_opt (Some json) "error_description")
                 (or_else (get_opt (Some json) "error")
                    (or_else (Some (JStr text))
                       (Some (JStr ("HTTP " +:+ string_of_Z status)))))))
    else Ret (js_or (Some json) (JObj [])).

(** The value [startLogin] stores under [K.PKCE]. *)
Definition pkce_record (verifier state nonce : string) (created_at : Z) : json :=
  JObj [ ("verifier", JStr verifier);
         ("state", JStr state);
         ("nonce", JStr nonce);
         ("redirect", JStr REDIRECT_URI);
         ("created_at", JNum created_at) ].

(** The parameters of the authorization request. *)
Definition authorization_params (state nonce challenge : string) : list (string * jsval) :=
  [ ("client_id", Some (JStr CUSTOMER_ACCOUNTS_CLIENT_ID));
    ("response_type", Some (JStr "code"));
    ("redirect_uri", Some (JStr REDIRECT_URI));
    ("scope", Some (JStr "openid email customer-account-api:full"));
    ("state", Some (JStr state));
    ("nonce", Some (JStr nonce));
    ("code_challenge", Some (JStr challenge));
    ("code_challenge_method", Some (JStr "S256")) ].

Definition authorization_url (oidcJson : json) (state nonce challenge : string)
  : result string :=
  match String_of (get_opt (Some oidcJson) "authorization_endpoint") with
  | Throw e => Throw e
  | Ok endpoint =>
      match toQuery (authorization_params state nonce challenge) with
      | Throw e => Throw e
      | Ok query => Ok (endpoint +:+ "?" +:+ query)
      end
  end.

(** [oidc || (await fetchJson(url))]. *)
Definition loaded_or_fetch (loaded : jsval) (url : string) : Prog json :=
  match loaded with
  | Some j => if json_truthy j then Ret j else fetchJson url
  | None => fetchJson url
  end.

(** The first block of the [try] of [startLogin]: the discovery documents,
    loaded or fetched; it gives [oidcJson]. *)
Definition discover : Prog json :=
  setState "deepLinkHandledRef" (JBool false);;
  oidcJson ← loaded_or_fetch oidc OIDC_CONFIG_URL;
  custJson ← loaded_or_fetch custApi CUSTOMER_ACCOUNT_API_DISCOVERY_URL;
  (if negb (truthy oidc) then setState "oidc" oidcJson else Ret tt);;
  (if negb (truthy custApi) then setState "custApi" custJson else Ret tt);;
  Ret oidcJson.

(** The second block: the verifier and its challenge, the state and the
    nonce, the record stored under [K.PKCE], and the authorization request
    opened in the browser. *)
Definition authorize (oidcJson : json) : Prog unit :=
  verifier ← randomString 64;
  let challenge := sha256Base64Url verifier in
  state ← randomString 24;
  nonce ← randomString 24;
  now ← call DateNow;
  call (PrefSet K.PKCE (JSON_stringify (pkce_record verifier state nonce now)));;
  authUrl ← lift (authorization_url oidcJson state nonce challenge);
  call (BrowserOpen authUrl).

(** [startLogin]. *)
Definition startLogin : Prog unit :=
  setError "";;
  if negb isNative then
    setToast "Login works in the Android app (not on localhost)";;
    setView "account"
  else
    try_catch
      (oidcJson ← discover; authorize oidcJson)
      (fun e => setError (error_text e)).

(** The form of the token exchange. *)
Definition token_form (code verifier : jsval) : list (string * jsval) :=
  [ ("grant_type", Some (JStr "authorization_code"));
    ("client_id", Some (JStr CUSTOMER_ACCOUNTS_CLIENT_ID));
    ("redirect_uri", Some (JStr REDIRECT_URI));
    ("code", code);
    ("code_verifier", verifier) ].

(** [Date.now() + expires_in * 1000]. *)
Definition expiry (now : Z) (expires_in : number) : number :=
  match expires_in with
  | NInt n => NInt (now + n * 1000)
  | NFrac f => number_of_float (PrimFloat.add (float_of_Z now) (PrimFloat.mul f 1000%float))
  end.

(** [loadCustomerProfile], which catches its own errors. *)
Variable loadCustomerProfile : jsval -> Prog unit.

(** The head of [handleOAuthCallback]: the record read back from
    [K.PKCE] and checked against the [state] of the callback; it gives
    [pkceObj.verifier]. *)
Definition read_verifier (state : jsval) : Prog jsval :=
  pkce ← call (PrefGet K.PKCE);
  let pkceObj :=
    match pkce with
    | Some value => if str_truthy value then Some (safeJsonParse value) else Some JNull
    | None => Some JNull
    end in
  if negb (truthy (get_opt pkceObj "verifier")) then
    Fail (Error "Missing PKCE verifier (login session expired)")
  else if truthy (get_opt pkceObj "state") && truthy state
          && negb (strict_eq (get_opt pkceObj "state") state) then
    Fail (Error "State mismatch (possible stale login)")
  else Ret (get_opt pkceObj "verifier").

(** [oidc || (await fetchJson(OIDC_CONFIG_URL))], then [setOidc]. *)
Definition discover_oidc : Prog json :=
  oidcJson ← loaded_or_fetch oidc OIDC_CONFIG_URL;
  (if negb (truthy oidc) then setState "oidc" oidcJson else Ret tt);;
  Ret oidcJson.

(** The token endpoint of a discovery document. *)
Definition token_endpoint (oidcJson : json) : jsval :=
  get_opt (Some oidcJson) "token_endpoint".

(** What [handleOAuthCallback] does with the tokens. *)
Definition store_session (tokenJson : json) : Prog unit :=
  let access_token := get_opt (Some tokenJson) "access_token" in
  let id_token := get_opt (Some tokenJson) "id_token" in
  let refresh_token := get_opt (Some tokenJson) "refresh_token" in
  expires_in ←
    lift (ToNumber (or_else (get_opt (Some tokenJson) "expires_in") (Some (JNum 3600))));
  if negb (truthy access_token) then
    Fail (Error "Token exchange failed (missing access_token)")
  else
    now ← call DateNow;
    let expires_at := number_json (expiry now expires_in) in
    let authObj :=
      object [ ("access_token", access_token); ("id_token", id_token);
               ("refresh_token", refresh_token); ("expires_at", Some expires_at) ] in
    setState "auth" authObj;;
    call (PrefSet K.AUTH (JSON_stringify authObj));;
    call (PrefRemove K.PKCE);;
    payload ← lift (decodeJwt id_token);
    let email :=
      or_else (get_opt (Some payload) "email")
        (or_else (get_opt (Some payload) "email_address")
           (or_else (get_opt (Some payload) "preferred_username") (Some (JStr "")))) in
    (if truthy email then setState "userEmail" (js_or email JNull) else Ret tt);;
    loadCustomerProfile access_token;;
    setToast "Logged in";;
    setView "home".

(** [handleOAuthCallback({ code, state })]. *)
Definition handleOAuthCallback (code state : jsval) : Prog unit :=
  verifier ← read_verifier state;
  oidcJson ← discover_oidc;
  tokenJson ← httpPostForm (token_endpoint oidcJson) (token_form code verifier);
  store_session tokenJson.

(** [logout]. *)
Definition logout : Prog unit :=
  setState "auth" JNull;;
  setState "userEmail" (JStr "");;
  setState "userName" (JStr "");;
  setState "isNonVatCustomer" (JBool false);;
  setState "vatMode" (JStr "inc");;
  setState "orders" (JArr []);;
  setState "activeOrder" JNull;;
  call (PrefRemove K.AUTH);;
  call (PrefRemove K.PROFILE);;
  call (PrefRemove K.ORDERS_CACHE);;
  setToast "Logged out".

(** The effects that persist [vatMode] and [cartId] when they change. *)
Definition persist_vatMode (vatMode : string) : Prog unit :=
  call (PrefSet K.VAT_MODE vatMode).

Definition persist_cartId (cartId : string) : Prog unit :=
  if str_truthy cartId then call (PrefSet K.CART_ID cartId) else Ret tt.

(** A logout and the effects React then runs: [vatMode] went to ["inc"],
    [cartId] did not change. *)
Definition logout_and_effects (vatMode : string) : Prog unit :=
  logout;;
  if String.eqb vatMode "inc" then Ret tt else persist_vatMode "inc".

End Component.

End Session.

(** ** A reference web platform

    SHA-256 (FIPS 180-4), [atob], [decodeURIComponent] on ASCII, the
    [application/x-www-form-urlencoded] serialiser and [Number] on decimal
    integers, to run the session code on concrete inputs. *)

Module Web.
Import Session.
Local Open Scope N_scope.

Definition mask32 : N := 4294967295.
Definition add32 (a b : N) : N := N.land (a + b) mask32.
Definition rotr (n x : N) : N :=
  N.lor (N.shiftr x n) (N.land (N.shiftl x (32 - n)) mask32).
Definition not32 (x : N) : N := N.lxor x mask32.

Definition Ch (x y z : N) : N := N.lxor (N.land x y) (N.land (not32 x) z).
Definition Maj (x y z : N) : N :=
  N.lxor (N.lxor (N.land x y) (N.land x z)) (N.land y z).
Definition Sigma0 (x : N) : N := N.lxor (N.lxor (rotr 2 x) (rotr 13 x)) (rotr 22 x).
Definition Sigma1 (x : N) : N := N.lxor (N.lxor (rotr 6 x) (rotr 11 x)) (rotr 25 x).
Definition sigma0 (x : N) : N := N.lxor (N.lxor (rotr 7 x) (rotr 18 x)) (N.shiftr x 3).
Definition sigma1 (x : N) : N := N.lxor (N.lxor (rotr 17 x) (rotr 19 x)) (N.shiftr x 10).

(** The primes below [bound], by trial division. *)
Definition is_prime (n : nat) : bool :=
  forallb (fun d => negb (n mod d =? 0)%nat) (seq 2 (n - 2)).

Definition primes (bound : nat) : list N :=
  map N.of_nat (List.filter is_prime (seq 2 (bound - 2))).

(** The integer cube root, bit by bit from the top. *)
Definition cube_root (n : N) : N :=
  fold_left (fun x b => let y := x + N.shiftl 1 (N.of_nat b) in
                        if y * y * y <=? n then y else x)
            (rev (seq 0 44)) 0.

(** The first thirty-two bits of the fractional part of the cube roots of
    the first sixty-four primes, and of the square roots of the first eight. *)
Definition round_constants : list N :=
  map (fun p => N.land (cube_root (N.shiftl p 96)) mask32) (primes 312).

Definition initial_hash : list N :=
  map (fun p => N.land (N.sqrt (N.shiftl p 64)) mask32) (primes 20).

(** The message with its padding: a one bit, zeros, and the bit length on
    eight octets. *)
Definition padded (message : list N) : list N :=
  let len := length message in
  let zeros := ((119 - len mod 64) mod 64)%nat in
  let bits := 8 * N.of_nat len in
  (message ++ [128] ++ repeat 0 zeros
   ++ map (fun i => N.land (N.shiftr bits (8 * N.of_nat i)) 255) [7; 6; 5; 4; 3; 2; 1; 0]%nat)%list.

(** Big-endian words of a list of octets. *)
Fixpoint words (octets : list N) : list N :=
  match octets with
  | a :: b :: c :: d :: rest =>
      (N.shiftl a 24 + N.shiftl b 16 + N.shiftl c 8 + d) :: words rest
  | _ => []
  end.

(** The message schedule, extended by [n] words. *)
Fixpoint schedule (w : list N) (n : nat) : list N :=
  match n with
  | O => w
  | S n =>
      let t := length w in
      let at_ (i : nat) := nth (t - i) w 0 in
      schedule (w ++ [add32 (add32 (sigma1 (at_ 2%nat)) (at_ 7%nat))
                        (add32 (sigma0 (at_ 15%nat)) (at_ 16%nat))])%list n
  end.

Definition round (state : list N) (kw : N * N) : list N :=
  match state with
  | [a; b; c; d; e; f; g; h] =>
      let t1 := add32 (add32 (add32 h (Sigma1 e)) (add32 (Ch e f g) kw.1)) kw.2 in
      let t2 := add32 (Sigma0 a) (Maj a b c) in
      [add32 t1 t2; a; b; c; add32 d t1; e; f; g]
  | _ => state
  end.

Definition compress (hash block : list N) : list N :=
  let w := schedule (words block) 48 in
  let final := fold_left round (combine round_constants w) hash in
  map (fun p => add32 p.1 p.2) (combine hash final).

Fixpoint blocks (fuel : nat) (octets hash : list N) : list N :=
  match fuel, octets with
  | S fuel, _ :: _ => blocks fuel (skipn 64 octets) (compress hash (firstn 64 octets))
  | _, _ => hash
  end.

Definition octet (n : N) : Byte.byte :=
  match Byte.of_N n with
  | Some b => b
  | None => Byte.x00
  end.

Definition SHA256 (message : list Byte.byte) : list Byte.byte :=
  let octets := padded (map Byte.to_N message) in
  let hash := blocks (length octets) octets initial_hash in
  flat_map (fun h => map (fun i => octet (N.land (N.shiftr h (8 * N.of_nat i)) 255))
                         [3; 2; 1; 0]%nat) hash.

Local Open Scope nat_scope.

(** The value of a base64 digit. *)
Definition digit_value (c : ascii) : option nat :=
  String.index 0 (String c EmptyString) base64_alphabet.

Fixpoint digits (s : string) : option (list nat) :=
  match s with
  | EmptyString => Some []
  | String c rest =>
      if Reference.is_ws c then digits rest
      else
        match digit_value c, digits rest with
        | Some d, Some ds => Some (d :: ds)
        | _, _ => None
        end
  end.

Fixpoint octets_of (ds : list nat) : option (list ascii) :=
  match ds with
  | a :: b :: c :: d :: rest =>
      match octets_of rest with
      | Some tail =>
          Some (ascii_of_nat (a * 4 + b / 16)
                :: ascii_of_nat ((b mod 16) * 16 + c / 4)
                :: ascii_of_nat ((c mod 4) * 64 + d) :: tail)
      | None => None
      end
  | [a; b; c] =>
      Some [ascii_of_nat (a * 4 + b / 16); ascii_of_nat ((b mod 16) * 16 + c / 4)]
  | [a; b] => Some [ascii_of_nat (a * 4 + b / 16)]
  | [_] => None
  | [] => Some []
  end.

Definition InvalidCharacterError : JsError :=
  mkError "InvalidCharacterError" "The string to be decoded is not correctly encoded.".

(** [atob] by the book: the padding goes, then every digit gives six bits. *)
Definition decode_base64 (s : string) : result string :=
  let unpadded := strip_trailing "=" s in
  if 2 <? String.length s - String.length unpadded then Throw InvalidCharacterError
  else
    match digits unpadded with
    | Some ds =>
        match octets_of ds with
        | Some cs => Ok (string_of_list_ascii cs)
        | None => Throw InvalidCharacterError
        end
    | None => Throw InvalidCharacterError
    end.

Definition URIError : JsError := mkError "URIError" "URI malformed".

Definition hex_value (c : ascii) : option nat :=
  match String.index 0 (String c EmptyString) "0123456789abcdef" with
  | Some n => Some n
  | None => String.index 0 (String c EmptyString) "0123456789ABCDEF"
  end.

(** [decodeURIComponent] where every escape is an ASCII character. *)
Fixpoint decode_uri (s : string) : result string :=
  match s with
  | EmptyString => Ok EmptyString
  | String "%" (String h (String l rest)) =>
      match hex_value h, hex_value l, decode_uri rest with
      | Some x, Some y, Ok tail =>
          if x * 16 + y <? 128 then Ok (String (ascii_of_nat (x * 16 + y)) tail)
          else Throw URIError
      | _, _, _ => Throw URIError
      end
  | String "%" _ => Throw URIError
  | String c rest =>
      match decode_uri rest with
      | Ok tail => Ok (String c tail)
      | Throw e => Throw e
      end
  end.

Definition unreserved (c : ascii) : bool :=
  let n := nat_of_ascii c in
  ((48 <=? n) && (n <=? 57)) || ((65 <=? n) && (n <=? 90)) || ((97 <=? n) && (n <=? 122))
  || Ascii.eqb c "*" || Ascii.eqb c "-" || Ascii.eqb c "." || Ascii.eqb c "_".

Fixpoint form_encode (s : string) : string :=
  match s with
  | EmptyString => EmptyString
  | String c rest =>
      if unreserved c then String c (form_encode rest)
      else if Ascii.eqb c " " then String "+" (form_encode rest)
      else
        let n := nat_of_ascii c in
        String "%" (String (digit_in "0123456789ABCDEF" (n / 16))
                      (String (digit_in "0123456789ABCDEF" (n mod 16)) (form_encode rest)))
  end.

(** [URLSearchParams.prototype.toString]. *)
Definition serialize_form (params : list (string * string)) : string :=
  String.concat "&" (map (fun kv => form_encode kv.1 +:+ "=" +:+ form_encode kv.2) params).

(** [Number(s)] on a decimal integer; any other text gives [NaN]. *)
Definition to_number (s : string) : number :=
  match Reference.skip_ws s with
  | EmptyString => NInt 0
  | trimmed =>
      match Reference.read_int trimmed with
      | Some (n, rest) =>
          match Reference.skip_ws rest with
          | EmptyString => NInt n
          | _ => NFrac nan
          end
      | None => NFrac nan
      end
  end.

#[export] Instance api : WebApi := {|
  sha256 := SHA256;
  atob := decode_base64;
  decodeURIComponent := decode_uri;
  URLSearchParams_toString := serialize_form;
  StringToNumber := to_number;
|}.

End Web.

(** ** Sample inputs *)

Module Samples.
Import Reference.

Definition idle : Device := mkDevice [] ∅ ∅.

(** A deployment of the VAT endpoint and a complete submission. *)
Definition vat_env : Env := {[ "SHOPIFY_ADMIN_API_TOKEN" := "shpat_sample" ]}.

Definition vat_body : json :=
  JObj [ ("customerEmail", JStr "jo@example.com");
         ("businessName", JStr "Jo Fixings Ltd");
         ("country", JStr "Ireland");
         ("vatNumber", JStr "IE1234567T") ].

Definition vat_submission : Vat.Req := Vat.mkReq "POST" (Some vat_body).

Definition customer_node : json :=
  JObj [ ("id", JStr "gid://shopify/Customer/7001"); ("email", JStr "jo@example.com") ].

Definition customer_edge : json := JObj [("node", customer_node)].

Definition customers_found : json := JObj [("edges", JArr [customer_edge])].

Definition search_data : json := JObj [("customers", customers_found)].

Definition answer (data : json) : FetchResult :=
  Responded 200 (stringify (JObj [("data", data)])).

Definition metafields_data : json :=
  JObj [("metafieldsSet", JObj [("userErrors", JArr []); ("metafields", JArr [])])].

(** The tag call reports a user error. *)
Definition tag_data : json :=
  JObj [("tagsAdd",
         JObj [ ("userErrors",
                 JArr [JObj [("field", JNull); ("message", JStr "Tag is invalid")]]);
                ("node", JNull) ])].

Definition vat_upstream : list FetchResult :=
  [answer search_data; answer metafields_data; answer tag_data].

(** A deployment of the Storefront proxy and a query posted to it. *)
Definition netlify_env : Env := {[ "SHOPIFY_STOREFRONT_TOKEN" := "sf_sample" ]}.

Definition shop_query : json := JObj [("query", JStr "{ shop { name } }")].

Definition netlify_post : Netlify.Event :=
  Netlify.mkEvent "POST" (Some (stringify shop_query)).

Definition shop_answer : FetchResult :=
  answer (JObj [("shop", JObj [("name", JStr "Ace Fixings")])]).

(** A saved cart that has expired, and the answers of the Storefront API to
    the creation and the reading of a fresh one. *)
Definition old_cart : string := "gid://shopify/Cart/old".
Definition new_cart : json := JStr "gid://shopify/Cart/new".

Definition cart_created : FetchResult :=
  answer (JObj [("cartCreate",
                 JObj [("cart", JObj [("id", new_cart)]); ("userErrors", JArr [])])]).

Definition cart_read : FetchResult :=
  answer (JObj [("cart", JObj [("id", new_cart); ("totalQuantity", JNum 0)])]).

Definition network_down : FetchResult := Rejected (TypeError "Failed to fetch").

(** A view model for the samples: the response itself. *)
Definition sample_view (data : json) : result json := Ok data.

(** A phone about to log in: the discovery documents are loaded, the random
    source holds 112 octets, and the token endpoint will answer. *)
Definition oidc_doc : json :=
  JObj [ ("authorization_endpoint", JStr "https://shopify.com/authentication/1/oauth/authorize");
         ("token_endpoint", JStr "https://shopify.com/authentication/1/oauth/token") ].

Definition cust_doc : json :=
  JObj [("graphql_api", JStr "https://shopify.com/1/account/customer/api/2025-07/graphql")].

Definition sample_octets (from count : nat) : list Byte.byte :=
  map (fun i => Web.octet (N.of_nat (7 * i + 3) mod 256)) (seq from count).

Definition sample_rv : list Byte.byte := sample_octets 0 64.
Definition sample_rs : list Byte.byte := sample_octets 64 24.
Definition sample_rn : list Byte.byte := sample_octets 88 24.

Definition tokens : NativeResult :=
  NativeResponded 200
    (Some (JObj [ ("access_token", JStr "shcat_sample"); ("expires_in", JNum 3600) ])).

Definition phone : Device :=
  mkPhone [] ∅ ∅ [tokens] (sample_rv ++ sample_rs ++ sample_rn) 1767225600000 [].

(** The phone once [startLogin] has found the discovery documents loaded. *)
Definition phone_ready : Device :=
  mkPhone [] ∅
    (<["deepLinkHandledRef" := Some (JBool false)]> (<["error" := Some (JStr "")]> ∅))
    [tokens] (sample_rv ++ sample_rs ++ sample_rn) 1767225600000 [].

(** The store of a signed-in customer with a cart. *)
Definition signed_in : Device :=
  mkDevice []
    {[ Session.K.AUTH := "auth"; Session.K.PROFILE := "profile";
       Session.K.ORDERS_CACHE := "orders";
       Session.K.CART_ID := "gid://shopify/Cart/c1";
       Session.K.VAT_MODE := "ex" ]}
    ∅.

End Samples.

(** ** Bulk pricing ([src/App.jsx], component [App]) *)

Module Bulk.
Local Open Scope float_scope.

(** The table [bulkPricingTiers], keyed by the tier's first quantity. *)
Definition bulkPricingTiers (tier : string) : float :=
  if String.eqb tier "10" then 0.95
  else if String.eqb tier "25" then 0.90
  else if String.eqb tier "50" then 0.85
  else if String.eqb tier "100" then 0.80
  else nan.

(** [getBulkPrice(basePrice, quantity)]; the quantity is an integer count. *)
Definition getBulkPrice (basePrice : float) (quantity : Z) : float :=
  let discount :=
    if (100 <=? quantity)%Z then bulkPricingTiers "100"
    else if (50 <=? quantity)%Z then bulkPricingTiers "50"
    else if (25 <=? quantity)%Z then bulkPricingTiers "25"
    else if (10 <=? quantity)%Z then bulkPricingTiers "10"
    else 1 in
  basePrice * discount.

(** The first declaration of [getBulkDiscount]: a label, or [null]. It is
    shadowed by the later declaration of the same name in the same scope. *)
Definition getBulkDiscount_label (quantity : Z) : option string :=
  if (100 <=? quantity)%Z then Some "20%"
  else if (50 <=? quantity)%Z then Some "15%"
  else if (25 <=? quantity)%Z then Some "10%"
  else if (10 <=? quantity)%Z then Some "5%"
  else None.

(** The last declaration of [getBulkDiscount], the one in effect: a number. *)
Definition getBulkDiscount (quantity : Z) : float :=
  if (100 <=? quantity)%Z then 20
  else if (50 <=? quantity)%Z then 15
  else if (25 <=? quantity)%Z then 10
  else if (10 <=? quantity)%Z then 5
  else 0.

End Bulk.

(** ** Outcomes

    [outcomes Q p]: however the outside world answers its calls, [p] ends
    with a result, a value or a thrown error, that satisfies [Q]. *)
Inductive outcomes {A : Type} (Q : result A -> Prop) : Prog A -> Prop :=
| outcomes_ret (a : A) : Q (Ok a) -> outcomes Q (Ret a)
| outcomes_fail (e : JsError) : Q (Throw e) -> outcomes Q (Fail e)
| outcomes_vis {X : Type} (ev : eff X) (k : X -> Prog A) :
    (forall x : X, outcomes Q (k x)) -> outcomes Q (Vis ev k).

(** The result is a value, and it satisfies [Q]. *)
Definition returns {A : Type} (Q : A -> Prop) (r : result A) : Prop :=
  match r with
  | Ok a => Q a
  | Throw _ => False
  end.

(** If the result is a value, it satisfies [Q]. *)
Definition returns_only {A : Type} (Q : A -> Prop) (r : result A) : Prop :=
  match r with
  | Ok a => Q a
  | Throw _ => True
  end.

(** ** More sample answers *)

Module MoreSamples.
Import Samples.

(** [metafieldsSet] refuses the VAT number. *)
Definition metafield_errors : json :=
  JArr [JObj [("field", JNull); ("message", JStr "Value is invalid")]].

Definition metafields_refused : json :=
  JObj [("metafieldsSet", JObj [("userErrors", metafield_errors); ("metafields", JArr [])])].




End MoreSamples.

(** ** What a program leaves alone

    Calls that leave the state variable [name] of the component alone, that
    leave the preference [key] alone, and that write no preference at all. *)
Definition spares_state (name : string) (X : Type) (ev : eff X) : Prop :=
  match ev with
  | SetState n _ => n <> name
  | _ => True
  end.

Definition spares_pref (key : string) (X : Type) (ev : eff X) : Prop :=
  match ev with
  | PrefSet k _ | PrefRemove k => k <> key
  | _ => True
  end.

Definition writes_no_pref (X : Type) (ev : eff X) : Prop :=
  match ev with
  | PrefSet _ _ | PrefRemove _ => False
  | _ => True
  end.

(** ** The app ([src/App.jsx]): the cart's lines and its buttons *)

Module CartOps.
Import App.

Definition cartLinesUpdate_query : string := "
      mutation CartLinesUpdate($cartId:ID!, $lines:[CartLineUpdateInput!]!) {
        cartLinesUpdate(cartId:$cartId, lines:$lines) {
          cart { id }
          userErrors { message }
        }
      }
    ".

Definition cartLinesRemove_query : string := "
      mutation CartLinesRemove($cartId:ID!, $lineIds:[ID!]!) {
        cartLinesRemove(cartId:$cartId, lineIds:$lineIds) {
          cart { id }
          userErrors { message }
        }
      }
    ".

(** A line of the cart as [fetchCart] keeps it in the state: the id of the
    line and its quantity, an integer count. *)
Record Line : Type := mkLine {
  line_id : jsval;
  line_quantity : Z;
}.

(** An element of an array literal handed to [JSON.stringify]: [undefined]
    is written [null]. *)
Definition element (v : jsval) : json :=
  match v with
  | Some j => j
  | None => JNull
  end.

Section Component.
Context `{Platform}.
Variable cartId : string.
Variable cartView : json -> result json.

(** [cartAddLine(variantId, quantity = 1)]. *)
Definition cartAddLine (variantId quantity : jsval) : Prog unit :=
  let quantity := match quantity with None => Some (JNum 1) | Some _ => quantity end in
  id ← ensureCartId cartId cartView;
  data ← shopifyStorefront cartLinesAdd_query
    (JObj [ ("cartId", id);
            ("lines", JArr [object [("merchandiseId", variantId);
                                    ("quantity", quantity)]]) ]);
  let err :=
    get_opt (get_opt (get_opt (get_opt data "cartLinesAdd") "userErrors") "0") "message" in
  if truthy err then Fail (Error_of err)
  else fetchCart cartView id.

(** [cartUpdateLine(lineId, quantity)]. *)
Definition cartUpdateLine (lineId quantity : jsval) : Prog unit :=
  id ← ensureCartId cartId cartView;
  data ← shopifyStorefront cartLinesUpdate_query
    (JObj [ ("cartId", id);
            ("lines", JArr [object [("id", lineId); ("quantity", quantity)]]) ]);
  let err :=
    get_opt (get_opt (get_opt (get_opt data "cartLinesUpdate") "userErrors") "0") "message" in
  if truthy err then Fail (Error_of err)
  else fetchCart cartView id.

(** [cartRemoveLine(lineId)]. *)
Definition cartRemoveLine (lineId : jsval) : Prog unit :=
  id ← ensureCartId cartId cartView;
  data ← shopifyStorefront cartLinesRemove_query
    (JObj [ ("cartId", id); ("lineIds", JArr [element lineId]) ]);
  let err :=
    get_opt (get_opt (get_opt (get_opt data "cartLinesRemove") "userErrors") "0") "message" in
  if truthy err then Fail (Error_of err)
  else fetchCart cartView id.



Definition onRemove (line : Line) : Prog unit :=
  try_catch (cartRemoveLine (line_id line)) (fun e => setError (error_text e)).


Definition cartLinesRemove_request (id : json) (lineId : jsval) : Request :=
  storefront_request cartLinesRemove_query
    (JObj [ ("cartId", id); ("lineIds", JArr [element lineId]) ]).

Definition cartLineAdd_request (id : json) (variantId quantity : jsval) : Request :=
  storefront_request cartLinesAdd_query
    (JObj [ ("cartId", id);
            ("lines", JArr [object [("merchandiseId", variantId);
                                    ("quantity", quantity)]]) ]).

(** The requests that create and read a cart. *)
Definition cart_upkeep (r : Request) : Prop :=
  (exists id, r = cart_request id) \/ r = cartCreate_request.

End Component.
End CartOps.

(** ** Tokens: helpers of the statements *)

Module Token.

(** No character of [s] is [c]. *)
Fixpoint lacks (c : ascii) (s : string) : bool :=
  match s with
  | EmptyString => true
  | String x rest => negb (Ascii.eqb x c) && lacks c rest
  end.

(** The digits of [randomString]. *)
Definition base36_digits : list ascii :=
  list_ascii_of_string "0123456789abcdefghijklmnopqrstuvwxyz".

(** A JSON Web Token of three segments. *)
Definition jwt_of (header payload signature : string) : string :=
  header +:+ "." +:+ payload +:+ "." +:+ signature.

(** The store of a phone in the middle of a login, and the record in it. *)
Definition login_record : json :=
  Session.pkce_record "v3r1f13r" "st4te" "n0nce" 1767225600000.

Definition mid_login : Device :=
  mkDevice [] {[ Session.K.PKCE := Reference.stringify login_record ]} ∅.

End Token.

(** ** The app ([src/App.jsx]): the VAT-verification form

    The text of a toast is kept as the source file has it, in UTF-8. The
    console output is left out. *)

Module VatForm.
Import App.

(** The object [submitVatVerification] serialises. *)
Definition submission (customerEmail businessName country vatNumber : string) : json :=
  JObj [ ("customerEmail", JStr customerEmail);
         ("businessName", JStr businessName);
         ("country", JStr country);
         ("vatNumber", JStr vatNumber) ].

Section Component.
Context `{Platform}.

(** The state the closures capture: the e-mail address of the customer. *)
Variable userEmail : string.

(** The request [submitVatVerification] sends. *)
Definition submit_request (businessName country vatNumber : string) : Request :=
  {| url := "/api/submitVatVerification";
     method := "POST";
     req_headers := [("Content-Type", "application/json")];
     req_body := JSON_stringify (submission userEmail businessName country vatNumber) |}.

(** [submitVatVerification(businessName, country, vatNumber)]. *)
Definition submitVatVerification (businessName country vatNumber : string) : Prog bool :=
  try_catch
    (let customerEmail := userEmail in
     if negb (str_truthy customerEmail) then
       setToast "❌ Error: Customer email not found. Please log out and log in again.";;
       Ret false
     else
       '(status, text) ← fetch (submit_request businessName country vatNumber);
       result ← lift (JSON_parse text);
       if negb (status_ok status) then
         error ← lift (get (Some result) "error");
         reason ← lift (String_of
                          (or_else error
                             (Some (JStr "Failed to submit VAT verification"))));
         setToast ("❌ Error: " +:+ reason);;
         Ret false
       else
         setToast "✓ VAT verification submitted for review. Your team will verify and approve soon.";;
         setState "vatFormBusinessName" (JStr "");;
         setState "vatFormVatNumber" (JStr "");;
         setState "vatFormSubmitted" (JBool true);;
         Ret true)
    (fun err =>
       setToast ("❌ Error: "
                 +:+ (if str_truthy (emessage err) then emessage err
                      else "Failed to submit VAT verification"));;
       Ret false).

(** The [onClick] of the form's button. *)
Definition onSubmit (vatFormBusinessName vatFormCountry vatFormVatNumber : string)
  : Prog unit :=
  if negb (str_truthy vatFormBusinessName) || negb (str_truthy vatFormVatNumber) then
    setToast "❌ Please fill in all fields"
  else
    setState "vatFormLoading" (JBool true);;
    try_finally
      (_ ← submitVatVerification vatFormBusinessName vatFormCountry vatFormVatNumber;
       Ret tt)
      (setState "vatFormLoading" (JBool false)).

End Component.
End VatForm.

(** ** The app ([src/App.jsx]): the Customer Account API and the profile

    The console output is left out. *)

Module Account.
Import App Session.

Definition profile_query : string := "query { 
        customer { 
          firstName 
          lastName 
          emailAddress { emailAddress } 
          tags
        } 
      }".


(** What the calls below may do to the outside world: requests, state
    updates, and the writing of the one key [customer_shopify_id]. *)
Definition profile_call (X : Type) (ev : eff X) : Prop :=
  match ev with
  | Fetch _ | NativeHttp _ | SetState _ _ => True
  | PrefSet key _ => key = CUSTOMER_SHOPIFY_ID
  | PrefGet _ | PrefRemove _ | BrowserOpen _ | GetRandomValues _ | DateNow => False
  end.

Section Component.
Context `{Platform}.

(** What the engine contributes: [String.prototype.trim] and
    [String.prototype.toLowerCase], and the [TypeError] thrown on calling
    the missing method [name] of a value. *)
Variable trim : string -> string.
Variable toLowerCase : string -> string.
Variable not_a_function : string -> JsError.

(** The state the closures capture. *)
Variable isNative : bool.
Variable custApi : jsval.

(** The constant [graphqlUrl] of [customerApiGraphql]. *)
Definition graphqlUrl : jsval :=
  or_else (get_opt custApi "graphql_api")
    (or_else (get_opt custApi "graphql")
       (or_else (get_opt custApi "graphqlApi") (get_opt custApi "graphql_api_url"))).

(** The request [customerApiGraphql] sends, for the text of the URL and of
    the access token. *)
Definition customer_request (url token : string) (query : string) (variables : json)
  : Request :=
  {| url := url;
     method := "POST";
     req_headers :=
       [ ("Content-Type", "application/json");
         ("Authorization", token);
         ("X-Shopify-Customer-Access-Token", token) ];
     req_body := JSON_stringify (JObj [("query", JStr query); ("variables", variables)]) |}.

(** [customerApiGraphql(accessToken, query, variables)]: the URL and the
    header values are converted to strings when the request is made. *)
Definition customerApiGraphql (accessToken : jsval) (query : string) (variables : json)
  : Prog jsval :=
  if negb (truthy graphqlUrl) then
    Fail (Error "Customer Account API not discovered (missing graphql_api)")
  else
  url ← lift (String_of graphqlUrl);
  token ← lift (String_of accessToken);
  if isNative then
    r ← call (NativeHttp (customer_request url token query variables));
    match r with
    | NativeRejected e => Fail e
    | NativeResponded status data =>
        let json :=
          match data with
          | Some (JStr s) => Some (safeJsonParse s)
          | _ => data
          end in
        if negb (status =? 0)%Z && (400 <=? status)%Z then
          Fail (Error_of
                  (or_else (get_opt (get_opt (get_opt json "errors") "0") "message")
                     (match data with
                      | Some (JStr s) => Some (JStr s)
                      | _ => Some (JStr ("Customer API HTTP " +:+ string_of_Z status))
                      end)))
        else if truthy (get_opt (get_opt json "errors") "length") then
          Fail (Error_of
                  (or_else (get_opt (get_opt (get_opt json "errors") "0") "message")
                     (Some (JStr "Customer API error"))))
        else Ret (get_opt json "data")
    end
  else
    '(status, text) ← fetch (customer_request url token query variables);
    let json := safeJsonParse text in
    if negb (status_ok status) then
      Fail (Error_of
              (or_else (get_opt (get_opt (get_opt (Some json) "errors") "0") "message")
                 (or_else (Some (JStr text))
                    (Some (JStr ("Customer API HTTP " +:+ string_of_Z status))))))
    else if truthy (get_opt (get_opt (Some json) "errors") "length") then
      Fail (Error_of
              (or_else (get_opt (get_opt (get_opt (Some json) "errors") "0") "message")
                 (Some (JStr "Customer API error"))))
    else lift (get (Some json) "data").

(** [tags.some(tag => tag?.toLowerCase() === "vat-verified")] on the
    elements of an array: a tag that is neither a string nor [null] has no
    [toLowerCase] to call. *)
Fixpoint some_vat_verified (tags : list json) : result bool :=
  match tags with
  | [] => Ok false
  | JNull :: rest => some_vat_verified rest
  | JStr s :: rest =>
      if String.eqb (toLowerCase s) "vat-verified" then Ok true
      else some_vat_verified rest
  | _ :: _ => Throw (not_a_function "tag?.toLowerCase")
  end.

(** [setCompanyAccount({ id, name, verified, reverseCharge })]. *)
Definition setCompanyAccount (customerId fullName : string) (verified : bool) : Prog unit :=
  setState "companyAccount"
    (JObj [ ("id", JStr customerId); ("name", JStr fullName);
            ("verified", JBool verified); ("reverseCharge", JBool verified) ]).

(** [loadCustomerProfile(accessToken)]. The identifier [isNonVat] that its
    last statements read is declared nowhere: evaluating the object literal
    handed to [JSON.stringify] throws a [ReferenceError] before
    [Preferences.set] is called, and the [catch] returns [null]. *)
Definition loadCustomerProfile (accessToken : jsval) : Prog json :=
  try_catch
    (data ← customerApiGraphql accessToken profile_query (JObj []);
     let customer := get_opt data "customer" in
     let first := js_or (get_opt customer "firstName") (JStr "") in
     let last := js_or (get_opt customer "lastName") (JStr "") in
     let email := js_or (get_opt (get_opt customer "emailAddress") "emailAddress") (JStr "") in
     first_text ← lift (ToString first);
     last_text ← lift (ToString last);
     let fullName := trim (first_text +:+ " " +:+ last_text) in
     let tags := js_or (get_opt customer "tags") (JArr []) in
     customerId ←
       (if json_truthy email then
          match email with
          | JStr s => Ret ("gid://shopify/Customer/" +:+ hd "" (split "@" s))
          | _ => Fail (not_a_function "email.split")
          end
        else Ret "");
     (if str_truthy customerId then call (PrefSet CUSTOMER_SHOPIFY_ID customerId)
      else Ret tt);;
     setState "customerShopifyId" (JStr customerId);;
     isVatVerified ←
       match tags with
       | JArr items => lift (some_vat_verified items)
       | _ => Fail (not_a_function "tags.some")
       end;
     (if json_truthy email then setState "userEmail" email else Ret tt);;
     (if str_truthy fullName then setState "userName" (JStr fullName) else Ret tt);;
     (if isVatVerified : bool then
        setCompanyAccount customerId fullName true;;
        setState "vatMode" (JStr "ex");;
        setToast "✓ Tax exempt account verified - showing Ex-VAT prices"
      else
        setCompanyAccount customerId fullName false;;
        setState "isNonVatCustomer" (JBool false));;
     Fail (mkError "ReferenceError" "isNonVat is not defined"))
    (fun _ => Ret JNull).

(** The logged-in session, [auth]. *)
Variable auth : jsval.






End Component.
End Account.

(** ** The app ([src/App.jsx]): favourites, comparison and vendors *)

Module Catalog.

(** A product as [normalizeProduct] builds it: the id of the Storefront API
    (an [ID!], a string), the vendor (a string, empty when the API gave
    none), and its other members. *)
Record Product : Type := mkProduct {
  id : string;
  vendor : string;
  details : json;
}.

(** [p.id === product.id], and its negation. *)
Definition same_id (product p : Product) : bool := String.eqb (id p) (id product).
Definition other_id (product p : Product) : bool := negb (String.eqb (id p) (id product)).

(** [isFavorited(productId)], with the [favorites] of the state. *)
Definition isFavorited (favorites : list Product) (productId : string) : bool :=
  existsb (fun p => String.eqb (id p) productId) favorites.

(** The updater [toggleFavorite(product)] hands to [setFavorites]. *)
Definition toggleFavorite_updater (product : Product) (prev : list Product)
  : list Product :=
  let isFav := existsb (same_id product) prev in
  if isFav then List.filter (other_id product) prev
  else prev ++ [product].

(** [prev.slice(-n)]: the last [n] elements. *)
Definition slice_last (n : nat) (prev : list Product) : list Product :=
  skipn (length prev - n) prev.

(** The updater [toggleCompare(product)] hands to [setCompareProducts]. *)
Definition toggleCompare_updater (product : Product) (prev : list Product)
  : list Product :=
  match List.find (same_id product) prev with
  | Some _ => List.filter (other_id product) prev
  | None => slice_last 2 prev ++ [product]
  end.

(** [new Set(values)] then [Array.from]: the values in the order of their
    first occurrence. *)
Fixpoint distinct (seen values : list string) : list string :=
  match values with
  | [] => []
  | x :: rest =>
      if existsb (String.eqb x) seen then distinct seen rest
      else x :: distinct (x :: seen) rest
  end.

(** [array.sort()] on strings: the sorted arrangement, strings comparing
    by their sequences of code units. *)
Fixpoint insert_sorted (x : string) (sorted : list string) : list string :=
  match sorted with
  | [] => [x]
  | y :: rest => if String.leb x y then x :: sorted else y :: insert_sorted x rest
  end.

Definition sort (values : list string) : list string :=
  fold_right insert_sorted [] values.

(** [getAllVendors(products)]. *)
Definition getAllVendors (products : list Product) : list string :=
  let vendors := distinct [] (List.filter str_truthy (map vendor products)) in
  sort vendors.

End Catalog.

(** ** The app ([src/App.jsx]): going back *)

Module Navigation.
Import App.

(** [goBackOne], with the view the ref holds and whether a collection is
    open. *)
Definition goBackOne (v : string) (hasCollection : bool) : Prog unit :=
  setError "";;
  setState "search" (JStr "");;
  if String.eqb v "product" then setView "collection"
  else if String.eqb v "collection" then
    setView "home";;
    setState "activeProduct" JNull
  else if String.eqb v "cart" then
    setView (if hasCollection then "collection" else "home")
  else if String.eqb v "orderDetail" then setView "orders"
  else if String.eqb v "orders" then setView "home"
  else if String.eqb v "account" then setView "home"
  else Ret tt.

(** The screens [goBackOne] knows. *)
Definition screens : list string :=
  ["product"; "collection"; "cart"; "orderDetail"; "orders"; "account"].

(** The view on a device that showed [v] before the last calls. *)
Definition shown (v : string) (d : Device) : string :=
  match ui d !! "view" with
  | Some (Some (JStr s)) => s
  | _ => v
  end.

End Navigation.

(** A call that opens no page in the browser. *)
Definition opens_nothing (X : Type) (ev : eff X) : Prop :=
  match ev with
  | BrowserOpen _ => False
  | _ => True
  end.

(** ** The registration endpoint ([api/registerCustomer])

    What the handler writes to the console has no bearing on its replies and
    requests; the template literals it writes are evaluated all the same,
    and those that can throw are kept as conversions whose text is dropped.
    The file's helper [graphqlRequest] is the one of the
    VAT endpoint, statement for statement, and [Vat.graphqlRequest] stands
    for both; a request is a [Vat.Req]. *)

Module Register.

(** What the handler leaves in [res]: the headers it set, the status, and
    the JSON body ([None] when the response is ended without one). *)
Record Reply : Type := mkReply {
  headers : list (string * string);
  status : Z;
  json_body : jsval;
}.

Definition cors : list (string * string) :=
  [ ("Access-Control-Allow-Origin", "*");
    ("Access-Control-Allow-Methods", "POST, OPTIONS");
    ("Access-Control-Allow-Headers", "Content-Type") ].

(** [res.status(code).json(obj)], after the three [setHeader]s. *)
Definition respond (code : Z) (obj : json) : Reply := mkReply cors code (Some obj).

Definition searchQuery : string := "
      query SearchCustomers($query: String!) {
        customers(first: 1, query: $query) {
          edges {
            node {
              id
              email
              firstName
              lastName
            }
          }
        }
      }
    ".

Definition createMutation : string := "
        mutation CreateCustomer($input: CustomerInput!) {
          customerCreate(input: $input) {
            customer {
              id
              email
            }
            userErrors {
              field
              message
            }
          }
        }
      ".

Definition metafieldMutation : string := "
        mutation SetMetafields($metafields: [MetafieldsSetInput!]!) {
          metafieldsSet(metafields: $metafields) {
            metafields {
              id
              key
              value
            }
            userErrors {
              field
              message
            }
          }
        }
      ".

Definition tagMutation : string := "
          mutation AddTag($id: ID!, $tags: [String!]!) {
            tagsAdd(id: $id, tags: $tags) {
              userErrors {
                field
                message
              }
            }
          }
        ".

Definition inviteMutation : string := "
        mutation SendInvite($customerId: ID!) {
          customerSendAccountInviteEmail(customerId: $customerId) {
            customer {
              id
            }
            userErrors {
              field
              message
            }
          }
        }
      ".

Section Handler.
Context `{Platform}.

(** What the engine contributes: [String.prototype.trim], and the
    [TypeError] thrown on calling the missing method [name] of a value. *)
Variable trim : string -> string.
Variable not_a_function : string -> JsError.

Definition shopDomain (env : Env) : string :=
  str_or (env !! "SHOPIFY_DOMAIN")
    (str_or (env !! "SHOP_DOMAIN") "ace-fixings.myshopify.com").

Definition apiVersion (env : Env) : string :=
  str_or (env !! "SHOPIFY_API_VERSION") "2024-01".

Definition adminToken (env : Env) : string :=
  str_or (env !! "SHOPIFY_ADMIN_API_TOKEN") "".

(** [{ query: `email:${email}` }], for the text of the e-mail. *)
Definition search_variables (email : string) : json :=
  JObj [("query", JStr ("email:" +:+ email))].

(** The texts [items.join(sep)] joins: [null] and [undefined] give the
    empty string, any other element goes as [String(v)]. *)
Fixpoint texts (items : list jsval) : result (list string) :=
  match items with
  | [] => Ok []
  | x :: rest =>
      match (match x with
             | None | Some JNull => Ok ""
             | Some j => ToString j
             end) with
      | Throw e => Throw e
      | Ok text =>
          match texts rest with
          | Throw e => Throw e
          | Ok more => Ok (text :: more)
          end
      end
  end.

(** [items.join(sep)]. *)
Definition join (sep : string) (items : list jsval) : result string :=
  match texts items with
  | Throw e => Throw e
  | Ok parts => Ok (String.concat sep parts)
  end.

(** The one address of [customerInput.addresses]. *)
Definition address_input (address : jsval) : json :=
  object [ ("address1", get_opt address "address1");
           ("address2", Some (js_or (get_opt address "address2") (JStr "")));
           ("city", Some (js_or (get_opt address "city") (JStr "")));
           ("province", Some (js_or (get_opt address "province") (JStr "")));
           ("zip", Some (js_or (get_opt address "zip") (JStr "")));
           ("country", Some (js_or (get_opt address "country") (JStr "Ireland"))) ].

Definition customerInput (email firstName lastName phone address vatNumber : jsval)
  : json :=
  object ([ ("email", email);
            ("firstName", Some (js_or firstName (JStr "")));
            ("lastName", Some (js_or lastName (JStr "")));
            ("phone", Some (js_or phone JNull));
            ("tags", Some (if truthy vatNumber then JArr [JStr "No Vat Customers"]
                           else JArr [])) ]
          ++ (if truthy address && truthy (get_opt address "address1")
              then [("addresses", Some (JArr [address_input address]))]
              else [])).

Definition create_variables (email firstName lastName phone address vatNumber : jsval)
  : json :=
  JObj [("input", customerInput email firstName lastName phone address vatNumber)].

(** [errors.map(e => e.message)]. *)
Fixpoint map_message (items : list json) : result (list jsval) :=
  match items with
  | [] => Ok []
  | e :: rest =>
      match get (Some e) "message" with
      | Throw err => Throw err
      | Ok m =>
          match map_message rest with
          | Throw err => Throw err
          | Ok ms => Ok (m :: ms)
          end
      end
  end.

(** [errors.map(e => e.message).join(", ")]: only an array has [map]. *)
Definition messages (errors : jsval) : result string :=
  match errors with
  | Some (JArr items) =>
      match map_message items with
      | Throw err => Throw err
      | Ok ms => join ", " ms
      end
  | _ => Throw (not_a_function "errors.map")
  end.

(** The business name added to the metafields when [firstName] is there:
    [`${firstName} ${lastName || ""}`.trim()]. *)
Definition business_name (firstName lastName : jsval) : result (option string) :=
  if truthy firstName then
    match String_of firstName with
    | Throw e => Throw e
    | Ok first =>
        match ToString (js_or lastName (JStr "")) with
        | Throw e => Throw e
        | Ok last => Ok (Some (trim (first +:+ " " +:+ last)))
        end
    end
  else Ok None.

Definition metafields_variables (customerId vatNumber : jsval) (name : option string)
  : json :=
  JObj [("metafields",
         JArr (Vat.metafield customerId "tax_vat_number" vatNumber
               :: match name with
                  | Some name =>
                      [Vat.metafield customerId "business_name" (Some (JStr name))]
                  | None => []
                  end))].

Definition invite_variables (customerId : jsval) : json :=
  object [("customerId", customerId)].

Definition success_body (customerId : jsval) (isNewCustomer : bool) : json :=
  object [ ("success", Some (JBool true));
           ("customerId", customerId);
           ("isNewCustomer", Some (JBool isNewCustomer));
           ("message",
            Some (JStr (if isNewCustomer
                        then "Account created! Check your email for login instructions."
                        else "Account updated successfully."))) ].

(** Step 1 of the handler: the customer found or created, with
    [isNewCustomer]; or the reply the handler returns at once when the
    creation reports user errors. *)
Definition find_or_create (env : Env) (email_text : string)
    (email firstName lastName phone address vatNumber : jsval)
  : Prog (Reply + jsval * bool) :=
  searchResponse ← Vat.graphqlRequest (shopDomain env) (adminToken env) (apiVersion env)
    searchQuery (search_variables email_text);
  found ← lift (gt_zero (get_opt (get_opt (get_opt (Some searchResponse) "customers")
                                    "edges") "length"));
  if found : bool then
    customers ← lift (get (Some searchResponse) "customers");
    edges ← lift (get customers "edges");
    first ← lift (get edges "0");
    node ← lift (get first "node");
    customerId ← lift (get node "id");
    _ ← lift (String_of customerId);
    Ret (inr (customerId, false))
  else
    createResponse ← Vat.graphqlRequest (shopDomain env) (adminToken env) (apiVersion env)
      createMutation (create_variables email firstName lastName phone address vatNumber);
    let errors := get_opt (get_opt (Some createResponse) "customerCreate") "userErrors" in
    refused ← lift (gt_zero (get_opt errors "length"));
    if refused : bool then
      text ← lift (messages errors);
      Ret (inl (respond 400 (JObj [("error", JStr text)])))
    else
      let customerId :=
        get_opt (get_opt (get_opt (Some createResponse) "customerCreate") "customer")
          "id" in
      _ ← lift (String_of customerId);
      Ret (inr (customerId, true)).

(** Step 2: the metafields, and the tag of a customer that existed. *)
Definition add_vat_details (env : Env) (customerId vatNumber firstName lastName : jsval)
    (isNewCustomer : bool) : Prog unit :=
  if truthy vatNumber then
    name ← lift (business_name firstName lastName);
    metafieldResponse ←
      Vat.graphqlRequest (shopDomain env) (adminToken env) (apiVersion env)
        metafieldMutation (metafields_variables customerId vatNumber name);
    _ ← lift (gt_zero (get_opt (get_opt (get_opt (Some metafieldResponse) "metafieldsSet")
                                  "userErrors") "length"));
    if negb isNewCustomer then
      _ ← Vat.graphqlRequest (shopDomain env) (adminToken env) (apiVersion env)
        tagMutation (Vat.tag_variables customerId);
      Ret tt
    else Ret tt
  else Ret tt.

(** Step 3: the invitation of a new customer. *)
Definition send_invite (env : Env) (customerId : jsval) (isNewCustomer : bool)
  : Prog unit :=
  if isNewCustomer then
    try_catch
      (_ ← Vat.graphqlRequest (shopDomain env) (adminToken env) (apiVersion env)
         inviteMutation (invite_variables customerId);
       Ret tt)
      (fun _ => Ret tt)
  else Ret tt.

Definition handler (env : Env) (req : Vat.Req) : Prog Reply :=
  if String.eqb (Vat.req_method req) "OPTIONS" then
    Ret (mkReply cors 200 None)
  else if negb (String.eqb (Vat.req_method req) "POST") then
    Ret (respond 405 (JObj [("error", JStr "Method not allowed")]))
  else
    try_catch
      (email ← lift (destructure (Vat.body req) "email" "req.body");
       firstName ← lift (destructure (Vat.body req) "firstName" "req.body");
       lastName ← lift (destructure (Vat.body req) "lastName" "req.body");
       phone ← lift (destructure (Vat.body req) "phone" "req.body");
       address ← lift (destructure (Vat.body req) "address" "req.body");
       vatNumber ← lift (destructure (Vat.body req) "vatNumber" "req.body");
       _ ← lift (destructure (Vat.body req) "password" "req.body");
       if negb (truthy email) then
         Ret (respond 400 (JObj [("error", JStr "Email is required")]))
       else if negb (str_truthy (adminToken env)) then
         Ret (respond 500 (JObj [("error", JStr "Server configuration error")]))
       else
         email_text ← lift (String_of email);
         found ← find_or_create env email_text email firstName lastName phone address
                   vatNumber;
         match found with
         | inl reply => Ret reply
         | inr (customerId, isNewCustomer) =>
             if negb (truthy customerId) then
               Ret (respond 500 (JObj [("error", JStr "Failed to create/find customer")]))
             else
               _ ← add_vat_details env customerId vatNumber firstName lastName
                     isNewCustomer;
               _ ← send_invite env customerId isNewCustomer;
               Ret (respond 200 (success_body customerId isNewCustomer))
         end)
      (fun err =>
         Ret (respond 500
                (JObj [("error", JStr (if str_truthy (emessage err) then emessage err
                                       else "Registration failed"))]))).

(** The requests of a registration, as the body of the request and the
    customer's id determine them. *)
Definition admin_request (env : Env) (query : string) (variables : json) : Request :=
  Vat.graphql_request (shopDomain env) (adminToken env) (apiVersion env) query variables.

Definition search_request (env : Env) (body : jsval) : Request :=
  admin_request env searchQuery (search_variables (text_of (get_opt body "email"))).

Definition create_request (env : Env) (body : jsval) : Request :=
  admin_request env createMutation
    (create_variables (get_opt body "email") (get_opt body "firstName")
       (get_opt body "lastName") (get_opt body "phone") (get_opt body "address")
       (get_opt body "vatNumber")).

Definition metafields_request (env : Env) (body : jsval) (customerId : jsval) : Request :=
  admin_request env metafieldMutation
    (metafields_variables customerId (get_opt body "vatNumber")
       (if truthy (get_opt body "firstName") then
          Some (trim (text_of (get_opt body "firstName") +:+ " "
                      +:+ text_of (Some (js_or (get_opt body "lastName") (JStr "")))))
        else None)).

Definition tag_request (env : Env) (customerId : jsval) : Request :=
  admin_request env tagMutation (Vat.tag_variables customerId).

Definition invite_request (env : Env) (customerId : jsval) : Request :=
  admin_request env inviteMutation (invite_variables customerId).

(** The courses a registration can take: the requests it makes, in order,
    with the status it ends with where the requests settle it. *)
Definition course (env : Env) (req : Vat.Req) (rs : list Request) (code : Z) : Prop :=
  let body := Vat.body req in
  (rs = [] /\ In code [200; 400; 405; 500]
   /\ (code = 200 -> Vat.req_method req = "OPTIONS"))
  \/ (rs = [search_request env body] /\ In code [200; 500])
  \/ (exists customerId,
        (rs = [search_request env body; metafields_request env body customerId]
         /\ code = 500)
        \/ (rs = [search_request env body; metafields_request env body customerId;
                  tag_request env customerId]
            /\ In code [200; 500]))
  \/ (rs = [search_request env body; create_request env body] /\ In code [400; 500])
  \/ (exists customerId,
        (rs = [search_request env body; create_request env body;
               invite_request env customerId]
         /\ code = 200)
        \/ (rs = [search_request env body; create_request env body;
                  metafields_request env body customerId]
            /\ code = 500)
        \/ (rs = [search_request env body; create_request env body;
                  metafields_request env body customerId; invite_request env customerId]
            /\ code = 200)).

(** What holds of the end of a registration: a reply with the CORS headers,
    after one of the courses. *)
Definition lawful (env : Env) (req : Vat.Req) (rs : list Request) (r : result Reply)
  : Prop :=
  match r with
  | Ok reply => headers reply = cors /\ course env req rs (status reply)
  | Throw _ => False
  end.

End Handler.
End Register.

(** ** A sample registration *)

Module RegisterSamples.
Import Samples.

Definition register_env : Env := {[ "SHOPIFY_ADMIN_API_TOKEN" := "shpat_sample" ]}.

Definition register_body : json :=
  JObj [ ("email", JStr "jo@example.com");
         ("firstName", JStr "Jo");
         ("phone", JStr "12345");
         ("vatNumber", JStr "IE1234567T") ].

Definition registration : Vat.Req := Vat.mkReq "POST" (Some register_body).

(** The search finds no customer. *)
Definition nobody : json := JObj [("customers", JObj [("edges", JArr [])])].

(** [customerCreate] refuses the customer. *)
Definition create_errors : list json :=
  [ JObj [("field", JArr [JStr "email"]); ("message", JStr "Email has already been taken")];
    JObj [("field", JArr [JStr "phone"]); ("message", JStr "Phone is invalid")] ].

Definition create_refused : json :=
  JObj [("customerCreate",
         JObj [("customer", JNull); ("userErrors", JArr create_errors)])].

End RegisterSamples.

(** ** What a program sends

    [sends Q p]: in every world, the requests [p] makes, in order, and the
    result it ends with satisfy [Q]. *)
Definition sends {A : Type} (Q : list Request -> result A -> Prop) (p : Prog A) : Prop :=
  forall (W : World) (w : W_state W),
    Q (requests (run W p w).1.2) (run W p w).1.1.

(** * Properties *)

(** ** Programs and their runs *)

Module ProgFacts.

Lemma traces_inv {A : Type} (p : Prog A) (t : list step) (r : result A) :
  traces p t r ->
  match p with
  | Ret a => t = [] /\ r = Ok a
  | Fail e => t = [] /\ r = Throw e
  | Vis ev k => exists x t', t = Step ev x :: t' /\ traces (k x) t' r
  end.
Proof.
  destruct 1; eauto.
Qed.

(** A run in a world is one of the traces of the program. *)
Lemma run_traces {A : Type} (W : World) (p : Prog A) :
  forall w, traces p (run W p w).1.2 (run W p w).1.1.
Proof.
  induction p as [a | e | X ev k IH]; intros w; simpl.
  - constructor.
  - constructor.
  - destruct (W_answer W X ev w) as [x w1].
    specialize (IH x w1).
    destruct (run W (k x) w1) as [[r t] w2]. simpl in *.
    now constructor.
Qed.

Lemma run_bind {A B : Type} (W : World) (p : Prog A) (f : A -> Prog B) :
  forall w,
    run W (bind p f) w =
    match run W p w with
    | (Ok a, t, w1) => let '(r, t', w2) := run W (f a) w1 in (r, (t ++ t')%list, w2)
    | (Throw e, t, w1) => (Throw e, t, w1)
    end.
Proof.
  induction p as [a | e | X ev k IH]; intros w; simpl.
  - destruct (run W (f a) w) as [[r t] w2]. reflexivity.
  - reflexivity.
  - destruct (W_answer W X ev w) as [x w1]. rewrite IH.
    destruct (run W (k x) w1) as [[[a | e] t] w2]; simpl.
    + destruct (run W (f a) w2) as [[r t'] w3]. reflexivity.
    + reflexivity.
Qed.

Lemma run_try_catch {A : Type} (W : World) (p : Prog A) (h : JsError -> Prog A) :
  forall w,
    run W (try_catch p h) w =
    match run W p w with
    | (Ok a, t, w1) => (Ok a, t, w1)
    | (Throw e, t, w1) => let '(r, t', w2) := run W (h e) w1 in (r, (t ++ t')%list, w2)
    end.
Proof.
  induction p as [a | e | X ev k IH]; intros w; simpl.
  - reflexivity.
  - destruct (run W (h e) w) as [[r t] w2]. reflexivity.
  - destruct (W_answer W X ev w) as [x w1]. rewrite IH.
    destruct (run W (k x) w1) as [[[a | e] t] w2]; simpl.
    + reflexivity.
    + destruct (run W (h e) w2) as [[r t'] w3]. reflexivity.
Qed.

Lemma run_try_finally {A : Type} (W : World) (p : Prog A) (f : Prog unit) :
  forall w,
    run W (try_finally p f) w =
    match run W p w with
    | (r, t, w1) =>
        match run W f w1 with
        | (Ok _, t', w2) => (r, (t ++ t')%list, w2)
        | (Throw e, t', w2) => (Throw e, (t ++ t')%list, w2)
        end
    end.
Proof.
  induction p as [a | e | X ev k IH]; intros w; simpl.
  - rewrite run_bind. destruct (run W f w) as [[[u | e] t] w2]; simpl;
      rewrite ?app_nil_r; reflexivity.
  - rewrite run_bind. destruct (run W f w) as [[[u | e'] t] w2]; simpl;
      rewrite ?app_nil_r; reflexivity.
  - destruct (W_answer W X ev w) as [x w1]. rewrite IH.
    destruct (run W (k x) w1) as [[r t] w2].
    destruct (run W f w2) as [[[u | e] t'] w3]; reflexivity.
Qed.

(** With the same answers from upstream, a program that only makes
    requests makes the same calls and ends the same way. *)
Lemma traces_deterministic {A : Type} (p : Prog A) :
  calls is_fetch p ->
  forall t1 r1 t2 r2,
    traces p t1 r1 -> traces p t2 r2 ->
    responses t1 = responses t2 ->
    t1 = t2 /\ r1 = r2.
Proof.
  induction 1 as [a | e | X ev k Hev Hk IH]; intros t1 r1 t2 r2 H1 H2 Hresp.
  - apply traces_inv in H1, H2. destruct H1 as [-> ->], H2 as [-> ->]. auto.
  - apply traces_inv in H1, H2. destruct H1 as [-> ->], H2 as [-> ->]. auto.
  - apply traces_inv in H1, H2.
    destruct H1 as (x1 & t1' & -> & H1), H2 as (x2 & t2' & -> & H2).
    destruct ev; try contradiction. simpl in Hresp.
    injection Hresp as -> Hresp.
    destruct (IH x2 t1' r1 t2' r2 H1 H2 Hresp) as [-> ->]. auto.
Qed.

Section Calls.
Context (P : forall X : Type, eff X -> Prop).

Lemma calls_bind {A B : Type} (p : Prog A) (f : A -> Prog B) :
  calls P p -> (forall a, calls P (f a)) -> calls P (bind p f).
Proof.
  induction 1; intros Hf; simpl; auto; constructor; auto.
Qed.

Lemma calls_try_catch {A : Type} (p : Prog A) (h : JsError -> Prog A) :
  calls P p -> (forall e, calls P (h e)) -> calls P (try_catch p h).
Proof.
  induction 1; intros Hh; simpl; auto; constructor; auto.
Qed.

Lemma calls_try_finally {A : Type} (p : Prog A) (f : Prog unit) :
  calls P p -> calls P f -> calls P (try_finally p f).
Proof.
  induction 1; intros Hf; simpl.
  - apply calls_bind; auto. intros; constructor.
  - apply calls_bind; auto. intros; constructor.
  - constructor; auto.
Qed.

Lemma calls_lift {A : Type} (r : result A) : calls P (lift r).
Proof.
  destruct r; constructor.
Qed.

Lemma calls_fetch (r : Request) : P _ (Fetch r) -> calls P (fetch r).
Proof.
  intros Hr. constructor; auto. intros [status text|e]; constructor.
Qed.

Lemma calls_call {X : Type} (ev : eff X) : P X ev -> calls P (call ev).
Proof.
  intros Hev. constructor; auto. intros; constructor.
Qed.

(** What holds of every call of a program holds of every call of a run. *)
Lemma calls_traces {A : Type} (p : Prog A) (t : list step) (r : result A) :
  calls P p -> traces p t r ->
  Forall (fun s => match s with Step ev _ => P _ ev end) t.
Proof.
  intros Hp Ht. induction Ht as [a | e | X ev k x t r Ht IH].
  - constructor.
  - constructor.
  - apply traces_inv in Ht as Ht'.
    assert (Hv : P X ev /\ forall x, calls P (k x)).
    { clear -Hp.
      refine (match Hp in calls _ q
                    return match q with
                           | Vis ev k => P _ ev /\ forall x, calls P (k x)
                           | _ => True
                           end
              with
              | calls_vis _ _ _ Hev Hk => conj Hev Hk
              | _ => I
              end). }
    destruct Hv as [Hev Hk]. constructor; auto.
Qed.

End Calls.

(** What holds of every request of a program holds of the requests of a run. *)
Lemma requests_traces {A : Type} (Q : Request -> Prop) (p : Prog A) t r :
  calls (requests_satisfy Q) p -> traces p t r -> Forall Q (requests t).
Proof.
  intros Hp Ht. pose proof (calls_traces _ p t r Hp Ht) as Hall.
  clear -Hall. induction Hall as [| [X ev x] t Hs _ IH]; simpl.
  - constructor.
  - destruct ev; simpl in *; auto.
Qed.

(** A program that makes no request leaves none in a run. *)
Lemma no_requests_traces {A : Type} (p : Prog A) t r :
  calls (requests_satisfy (fun _ => False)) p -> traces p t r -> requests t = [].
Proof.
  intros Hp Ht. pose proof (requests_traces _ p t r Hp Ht) as Hall.
  destruct (requests t); auto. inversion Hall; contradiction.
Qed.

Lemma calls_weaken (P Q : forall X : Type, eff X -> Prop) {A : Type} (p : Prog A) :
  (forall X ev, P X ev -> Q X ev) -> calls P p -> calls Q p.
Proof.
  intros HPQ. induction 1; constructor; auto.
Qed.

Lemma only_requests_fetch (Q : Request -> Prop) {A : Type} (p : Prog A) :
  calls (only_requests Q) p -> calls is_fetch p.
Proof.
  apply calls_weaken. intros X []; simpl; auto.
Qed.

Lemma only_requests_satisfy (Q : Request -> Prop) {A : Type} (p : Prog A) :
  calls (only_requests Q) p -> calls (requests_satisfy Q) p.
Proof.
  apply calls_weaken. intros X []; simpl; auto.
Qed.

Lemma requests_app (t t' : list step) :
  requests (t ++ t') = (requests t ++ requests t')%list.
Proof.
  induction t as [| [X ev x] t IH]; simpl; auto.
  destruct ev; simpl; rewrite ?IH; reflexivity.
Qed.

End ProgFacts.

(** One step of a proof that every call of a program satisfies a property. *)
Ltac calls_step :=
  match goal with
  | |- calls _ (try_catch _ _) => apply ProgFacts.calls_try_catch
  | |- calls _ (try_finally _ _) => apply ProgFacts.calls_try_finally
  | |- calls _ (bind _ _) => apply ProgFacts.calls_bind
  | |- calls _ (mbind _ _) => unfold mbind, Prog_bind
  | |- calls _ (lift _) => apply ProgFacts.calls_lift
  | |- calls _ (fetch _) => apply ProgFacts.calls_fetch
  | |- calls _ (call _) => apply ProgFacts.calls_call
  | |- calls _ (Ret _) => constructor
  | |- calls _ (Fail _) => constructor
  | |- calls _ (if ?b then _ else _) => destruct b
  | |- calls _ (match ?x with _ => _ end) => destruct x
  | |- forall _, _ => intro
  end.

(** ** The outcomes of a program *)

Module OutcomeFacts.

Lemma outcomes_run {A : Type} (Q : result A -> Prop) (p : Prog A) (W : World) :
  outcomes Q p -> forall w, Q (run W p w).1.1.
Proof.
  induction 1 as [a Ha | e He | X ev k _ IH]; intros w; simpl; auto.
  destruct (W_answer W X ev w) as [x w1]. specialize (IH x w1).
  destruct (run W (k x) w1) as [[r t] w2]. exact IH.
Qed.

Lemma outcomes_traces {A : Type} (Q : result A -> Prop) (p : Prog A) t r :
  outcomes Q p -> traces p t r -> Q r.
Proof.
  intros Hp Ht. induction Ht as [a | e | X ev k x t r Ht IH].
  - inversion Hp; auto.
  - inversion Hp; auto.
  - apply IH.
    refine (match Hp in outcomes _ q
                  return match q with
                         | Vis ev k => forall x, outcomes Q (k x)
                         | _ => True
                         end
            with
            | outcomes_vis _ _ _ Hk => Hk
            | _ => I
            end x).
Qed.

(** Whatever holds of every result holds of the outcomes of any program. *)
Lemma outcomes_any {A : Type} (Q : result A -> Prop) (p : Prog A) :
  (forall r, Q r) -> outcomes Q p.
Proof.
  intros HQ. induction p; constructor; auto.
Qed.

Lemma outcomes_weaken {A : Type} (Q Q' : result A -> Prop) (p : Prog A) :
  (forall r, Q r -> Q' r) -> outcomes Q p -> outcomes Q' p.
Proof.
  intros HQ. induction 1; constructor; auto.
Qed.

Lemma outcomes_bind {A B : Type} (Q : result B -> Prop) (p : Prog A) (f : A -> Prog B) :
  outcomes (fun r => match r with
                     | Ok a => outcomes Q (f a)
                     | Throw e => Q (Throw e)
                     end) p ->
  outcomes Q (bind p f).
Proof.
  induction 1; simpl; auto; constructor; auto.
Qed.

Lemma outcomes_try_catch {A : Type} (Q : result A -> Prop) (p : Prog A)
    (h : JsError -> Prog A) :
  outcomes (fun r => match r with
                     | Ok a => Q (Ok a)
                     | Throw e => outcomes Q (h e)
                     end) p ->
  outcomes Q (try_catch p h).
Proof.
  induction 1; simpl; auto; constructor; auto.
Qed.

Lemma outcomes_try_finally {A : Type} (Q : result A -> Prop) (p : Prog A)
    (f : Prog unit) :
  outcomes (fun r => outcomes (fun u => match u with
                                        | Ok _ => Q r
                                        | Throw e => Q (Throw e)
                                        end) f) p ->
  outcomes Q (try_finally p f).
Proof.
  induction 1 as [a Ha | e He | X ev k _ IH]; simpl.
  - apply outcomes_bind. eapply outcomes_weaken; [ | exact Ha ].
    intros [u | e]; auto. constructor; auto.
  - apply outcomes_bind. eapply outcomes_weaken; [ | exact He ].
    intros [u | e']; auto. constructor; auto.
  - constructor; auto.
Qed.

Lemma outcomes_lift {A : Type} (Q : result A -> Prop) (r : result A) :
  Q r -> outcomes Q (lift r).
Proof.
  destruct r; constructor; auto.
Qed.

Lemma outcomes_fetch (Q : result (Z * string) -> Prop) (r : Request) :
  (forall status text, Q (Ok (status, text))) -> (forall e, Q (Throw e)) ->
  outcomes Q (fetch r).
Proof.
  intros Hok Hthrow. constructor. intros [status text | e]; constructor; auto.
Qed.

Lemma outcomes_call {X : Type} (Q : result X -> Prop) (ev : eff X) :
  (forall x, Q (Ok x)) -> outcomes Q (call ev).
Proof.
  intros Hx. constructor. intros x. constructor; auto.
Qed.

End OutcomeFacts.

(** One step of a proof about the outcomes of a program. *)
Ltac outcomes_step :=
  match goal with
  | |- outcomes _ (try_catch _ _) => apply OutcomeFacts.outcomes_try_catch
  | |- outcomes _ (try_finally _ _) => apply OutcomeFacts.outcomes_try_finally
  | |- outcomes _ (bind _ _) => apply OutcomeFacts.outcomes_bind
  | |- outcomes _ (mbind _ _) => unfold mbind, Prog_bind
  | |- outcomes _ (lift ?r) => apply OutcomeFacts.outcomes_lift; destruct r
  | |- outcomes _ (fetch _) => apply OutcomeFacts.outcomes_fetch
  | |- outcomes _ (call _) => apply OutcomeFacts.outcomes_call
  | |- outcomes _ (Ret _) => constructor
  | |- outcomes _ (Fail _) => constructor
  | |- outcomes _ (if ?b then _ else _) => destruct b eqn:?
  | |- outcomes _ (match ?x with _ => _ end) => destruct x eqn:?
  | |- forall _, _ => intro
  end.


(** ** The requests of a program *)

Module SendFacts.

Lemma sends_ret {A : Type} (Q : list Request -> result A -> Prop) (a : A) :
  Q [] (Ok a) -> sends Q (Ret a).
Proof.
  intros HQ W w. exact HQ.
Qed.

Lemma sends_fail {A : Type} (Q : list Request -> result A -> Prop) (e : JsError) :
  Q [] (Throw e) -> sends Q (Fail e).
Proof.
  intros HQ W w. exact HQ.
Qed.

Lemma sends_lift {A : Type} (Q : list Request -> result A -> Prop) (r : result A) :
  Q [] r -> sends Q (lift r).
Proof.
  destruct r; [ apply sends_ret | apply sends_fail ].
Qed.

Lemma sends_bind {A B : Type} (Q : list Request -> result B -> Prop)
    (p : Prog A) (f : A -> Prog B) :
  sends (fun rs r => match r with
                     | Ok a => sends (fun rs' => Q (rs ++ rs')%list) (f a)
                     | Throw e => Q rs (Throw e)
                     end) p ->
  sends Q (bind p f).
Proof.
  intros Hp W w. specialize (Hp W w). rewrite ProgFacts.run_bind.
  destruct (run W p w) as [[[a | e] t] w1]; cbn [fst snd] in *; [ | exact Hp ].
  specialize (Hp W w1).
  destruct (run W (f a) w1) as [[r t'] w2]; cbn [fst snd] in *.
  rewrite ProgFacts.requests_app. exact Hp.
Qed.

Lemma sends_try_catch {A : Type} (Q : list Request -> result A -> Prop)
    (p : Prog A) (h : JsError -> Prog A) :
  sends (fun rs r => match r with
                     | Ok a => Q rs (Ok a)
                     | Throw e => sends (fun rs' => Q (rs ++ rs')%list) (h e)
                     end) p ->
  sends Q (try_catch p h).
Proof.
  intros Hp W w. specialize (Hp W w). rewrite ProgFacts.run_try_catch.
  destruct (run W p w) as [[[a | e] t] w1]; cbn [fst snd] in *; [ exact Hp | ].
  specialize (Hp W w1).
  destruct (run W (h e) w1) as [[r t'] w2]; cbn [fst snd] in *.
  rewrite ProgFacts.requests_app. exact Hp.
Qed.

End SendFacts.

(** ** Reading values and calling the Admin API *)

Module AdminFacts.
Import Vat.

Section WithPlatform.
Context `{Platform}.

Lemma graphqlRequest_calls (Q : Request -> Prop) domain token version query variables :
  (forall r, url r = admin_url domain version -> method r = "POST" -> Q r) ->
  calls (only_requests Q) (graphqlRequest domain token version query variables).
Proof.
  intros HQ. unfold graphqlRequest.
  repeat calls_step; simpl; auto.
Qed.

Lemma classic_null (j : json) : j = JNull \/ j <> JNull.
Proof.
  destruct j; auto; right; discriminate.
Qed.

Lemma supplies_get (j : json) (k : string) :
  j <> JNull -> get (Some j) k = Ok (get_opt (Some j) k).
Proof.
  destruct j; simpl; congruence.
Qed.

Lemma supplies_destructure (j : json) (k source : string) :
  j <> JNull -> destructure (Some j) k source = Ok (get_opt (Some j) k).
Proof.
  destruct j; simpl; congruence.
Qed.

Lemma get_of_get_opt (v : jsval) (k : string) (x : json) :
  get_opt v k = Some x -> get v k = Ok (Some x).
Proof.
  destruct v as [[] |]; simpl; intros Hx; rewrite ?Hx;
    first [ reflexivity | discriminate ].
Qed.

Lemma length_truthy (x : json) (more : list json) :
  truthy (get_opt (Some (JArr (x :: more))) "length") = true.
Proof.
  cbn. apply negb_true_iff, Z.eqb_neq. lia.
Qed.

Lemma run_graphqlRequest domain token version query variables fr rest store state :
  run device (graphqlRequest domain token version query variables)
      (mkDevice (fr :: rest) store state)
  = (graphql_answer fr,
     [Step (Fetch (graphql_request domain token version query variables)) fr],
     mkDevice rest store state).
Proof.
  unfold graphqlRequest. cbn. destruct (graphql_answer fr); reflexivity.
Qed.

Lemma run_graphqlRequest_in (W : World) (w : W_state W)
    domain token version query variables :
  run W (graphqlRequest domain token version query variables) w
  = (graphql_answer
       (W_answer W _ (Fetch (graphql_request domain token version query variables)) w).1,
     [Step (Fetch (graphql_request domain token version query variables))
        (W_answer W _ (Fetch (graphql_request domain token version query variables)) w).1],
     (W_answer W _ (Fetch (graphql_request domain token version query variables)) w).2).
Proof.
  unfold graphqlRequest. cbn.
  destruct (W_answer W _ _ w) as [fr w1]. cbn.
  destruct (graphql_answer fr); reflexivity.
Qed.

(** A handler whose [catch] always replies never throws. *)
Lemma try_catch_returns {A : Type} (p : Prog A) (h : JsError -> Prog A) :
  (forall e, exists a, h e = Ret a) ->
  forall t r, traces (try_catch p h) t r -> exists a, r = Ok a.
Proof.
  intros Hh. induction p as [a | e | X ev k IH]; intros t r Ht; simpl in Ht.
  - apply ProgFacts.traces_inv in Ht as [_ ->]. eauto.
  - destruct (Hh e) as [a Ha]. rewrite Ha in Ht.
    apply ProgFacts.traces_inv in Ht as [_ ->]. eauto.
  - apply ProgFacts.traces_inv in Ht as (x & t' & _ & Ht). eauto.
Qed.

Lemma sends_graphqlRequest (Q : list Request -> result json -> Prop)
    domain token version query variables :
  (forall fr, Q [Vat.graphql_request domain token version query variables]
                (Vat.graphql_answer fr)) ->
  sends Q (Vat.graphqlRequest domain token version query variables).
Proof.
  intros HQ W w. rewrite run_graphqlRequest_in. cbn [fst snd requests].
  apply HQ.
Qed.

End WithPlatform.
End AdminFacts.

(** One step of a proof about what a program sends. *)
Ltac sends_step :=
  match goal with
  | |- sends _ (try_catch _ _) => apply SendFacts.sends_try_catch
  | |- sends _ (bind _ _) => apply SendFacts.sends_bind
  | |- sends _ (mbind _ _) => unfold mbind, Prog_bind
  | |- sends _ (Vat.graphqlRequest _ _ _ _ _) =>
      apply AdminFacts.sends_graphqlRequest;
      let fr := fresh "fr" in
      intros fr; cbv beta; destruct (Vat.graphql_answer fr)
  | |- sends _ (lift ?r) => apply SendFacts.sends_lift; destruct r
  | |- sends _ (Ret _) => apply SendFacts.sends_ret
  | |- sends _ (Fail _) => apply SendFacts.sends_fail
  | |- sends _ (if ?b then _ else _) => destruct b eqn:?
  | |- sends _ (match ?x with _ => _ end) => destruct x eqn:?
  end.

(** Finds the alternative of a disjunction that [tac] proves. *)
Ltac pick tac :=
  match goal with
  | |- _ \/ _ => first [ left; pick tac | right; pick tac ]
  | |- exists _, _ => eexists; pick tac
  | |- _ => solve [ tac ]
  end.

(** ** The VAT-verification endpoint *)

Module VatFacts.
Import Vat.

Section WithPlatform.
Context `{Platform}.

(** The endpoint only makes requests, each a POST to the Admin API of the shop. *)
Lemma vat_handler_calls (env : Env) (req : Req) :
  calls (only_requests
           (fun r => url r = admin_url (shopDomain env) (apiVersion env)
                     /\ method r = "POST"))
        (handler env req).
Proof.
  unfold handler.
  repeat first [ apply AdminFacts.graphqlRequest_calls; auto | calls_step ].
Qed.

Lemma vat_handler_fetch_only (env : Env) (req : Req) :
  calls is_fetch (handler env req).
Proof.
  eapply ProgFacts.only_requests_fetch, vat_handler_calls.
Qed.

(** Validation is atomic: a request that is not a POST, or whose body does
    not supply all four fields, is answered without any call: 405 for another
    method, 400 when the body is a value lacking a field, and 500 when there
    is no body at all (reading a field of it throws). No request reaches
    Shopify and the world is left as it was. *)
Theorem vat_invalid_request_rejected_without_requests
    (env : Env) (req : Req) (W : World) (w : W_state W) :
  req_method req <> "POST" \/ complete (body req) = false ->
  exists reply : Reply,
    run W (handler env req) w = (Ok reply, [], w)
    /\ status reply = rejection_status req
    /\ requests (run W (handler env req) w).1.2 = [].
Proof.
  intros Hinvalid. unfold handler, rejection_status.
  destruct (String.eqb_spec (req_method req) "POST") as [Hpost | Hother];
    cbn [negb].
  - destruct Hinvalid as [Hne | Hincomplete]; [ contradiction | ].
    destruct (body req) as [j |] eqn:Hbody.
    + destruct (AdminFacts.classic_null j) as [-> | Hj].
      * cbn. eauto.
      * rewrite !(AdminFacts.supplies_destructure j) by assumption.
        cbn [mbind Prog_bind bind lift].
        unfold complete, required_fields, supplies in Hincomplete.
        cbn [forallb] in Hincomplete.
        destruct (truthy (get_opt (Some j) "customerEmail"));
        destruct (truthy (get_opt (Some j) "businessName"));
        destruct (truthy (get_opt (Some j) "country"));
        destruct (truthy (get_opt (Some j) "vatNumber"));
        try discriminate; cbn [negb orb try_catch run];
        (exists (mkReply 400 (JObj [("error", JStr "Missing required fields")])));
        destruct j; try congruence; auto.
    + cbn. eauto.
  - cbn. eauto.
Qed.

Lemma complete_fields (j : json) :
  complete (Some j) = true ->
  j <> JNull
  /\ truthy (get_opt (Some j) "customerEmail") = true
  /\ truthy (get_opt (Some j) "businessName") = true
  /\ truthy (get_opt (Some j) "country") = true
  /\ truthy (get_opt (Some j) "vatNumber") = true.
Proof.
  unfold complete, required_fields, supplies. cbn [forallb].
  rewrite !andb_true_iff. intros (H1 & H2 & H3 & H4 & _).
  repeat split; auto. intros ->. discriminate.
Qed.

(** The handler of a complete submission, once its fields are read. *)
Ltac read_submission Hpost Hbody Hcomplete :=
  let Hb := fresh "Hb" in
  let He := fresh "He" in
  let Hn := fresh "Hn" in
  let Hc := fresh "Hc" in
  let Hv := fresh "Hv" in
  apply complete_fields in Hcomplete as (Hb & He & Hn & Hc & Hv);
  unfold handler; rewrite Hpost, Hbody; cbn [String.eqb Ascii.eqb Bool.eqb negb];
  rewrite !(AdminFacts.supplies_destructure _ _ _ Hb);
  cbn [mbind Prog_bind bind lift];
  rewrite He, Hn, Hc, Hv; cbn [negb orb].

(** Without the admin token a complete submission is answered 500 before
    anything is sent. *)
Lemma vat_without_token (env : Env) (req : Req) (b : json) (W : World) (w : W_state W) :
  req_method req = "POST" ->
  body req = Some b ->
  complete (Some b) = true ->
  str_truthy (str_or (env !! "SHOPIFY_ADMIN_API_TOKEN") "") = false ->
  run W (handler env req) w
  = (Ok (mkReply 500 (JObj [("error", JStr "Missing admin API token")])), [], w).
Proof.
  intros Hpost Hbody Hcomplete Htoken.
  read_submission Hpost Hbody Hcomplete.
  rewrite Htoken. reflexivity.
Qed.

(** A complete submission whose e-mail has no text is answered 500 before
    anything is sent. *)
Lemma vat_without_text (env : Env) (req : Req) (b : json) (e : JsError)
    (W : World) (w : W_state W) :
  req_method req = "POST" ->
  body req = Some b ->
  complete (Some b) = true ->
  str_truthy (str_or (env !! "SHOPIFY_ADMIN_API_TOKEN") "") = true ->
  String_of (get_opt (Some b) "customerEmail") = Throw e ->
  run W (handler env req) w
  = (Ok (mkReply 500
           (JObj [("error", JStr (if str_truthy (emessage e) then emessage e
                                  else "Internal server error"))])),
     [], w).
Proof.
  intros Hpost Hbody Hcomplete Htoken Hemail.
  read_submission Hpost Hbody Hcomplete.
  rewrite Htoken, Hemail. reflexivity.
Qed.

(** Whatever Shopify answers, a complete submission whose e-mail has a text
    sends its requests in order: the search, then the metafields of the
    customer found, then the tag, and it may stop after any of them. *)
Lemma vat_requests_in_order (env : Env) (req : Req) (b : json) (email : string)
    (W : World) (w : W_state W) :
  req_method req = "POST" ->
  body req = Some b ->
  complete (Some b) = true ->
  str_truthy (str_or (env !! "SHOPIFY_ADMIN_API_TOKEN") "") = true ->
  String_of (get_opt (Some b) "customerEmail") = Ok email ->
  exists customerId : jsval,
    let metafields :=
      VatWire.metafields env customerId (get_opt (Some b) "vatNumber")
        (get_opt (Some b) "businessName") (get_opt (Some b) "country") in
    In (requests (run W (handler env req) w).1.2)
       [ [VatWire.search env email];
         [VatWire.search env email; metafields];
         [VatWire.search env email; metafields; VatWire.tag env customerId] ].
Proof.
  intros Hpost Hbody Hcomplete Htoken Hemail.
  assert (Hsends : sends
            (fun rs _ =>
               exists customerId : jsval,
                 In rs
                   [ [VatWire.search env email];
                     [VatWire.search env email;
                      VatWire.metafields env customerId (get_opt (Some b) "vatNumber")
                        (get_opt (Some b) "businessName") (get_opt (Some b) "country")];
                     [VatWire.search env email;
                      VatWire.metafields env customerId (get_opt (Some b) "vatNumber")
                        (get_opt (Some b) "businessName") (get_opt (Some b) "country");
                      VatWire.tag env customerId] ])
            (handler env req)).
  { read_submission Hpost Hbody Hcomplete.
    rewrite Htoken, Hemail. cbn [negb lift bind].
    repeat first
      [ progress cbv beta iota
      | progress cbn [app negb]
      | sends_step ].
    all: first [ exists None; left; reflexivity
               | eexists; right; left; reflexivity
               | eexists; right; right; left; reflexivity ]. }
  exact (Hsends W w).
Qed.

(** C2, amended: take a POST whose body supplies the four fields and whose
    e-mail has a text. Without the admin token it is answered 500 and
    nothing is sent. With the token, the customer is first searched by
    e-mail. When the search answers with no edge the reply is 404 and
    nothing else is sent. When it answers with a customer whose id has a
    text, the three metafields [vat_number], [business_name] and
    [business_country] are set for that customer; when that call reports no
    error the tag ["No Vat Customers"] is added, and whether or not the tag
    call reports user errors the reply is 200 with [success: true]. And
    whatever Shopify answers, the requests made are the search alone, the
    search and the metafields, or all three in this order. *)
Theorem vat_submission_flow (env : Env) (req : Req) (b : json) (email : string) :
  req_method req = "POST" ->
  body req = Some b ->
  complete (Some b) = true ->
  String_of (get_opt (Some b) "customerEmail") = Ok email ->
  (str_truthy (str_or (env !! "SHOPIFY_ADMIN_API_TOKEN") "") = false ->
   forall (W : World) (w : W_state W),
     run W (handler env req) w
     = (Ok (mkReply 500 (JObj [("error", JStr "Missing admin API token")])), [], w))
  /\
  (str_truthy (str_or (env !! "SHOPIFY_ADMIN_API_TOKEN") "") = true ->
   (forall (fr1 : FetchResult) (d1 : json) (rest : list FetchResult)
           (store : gmap string string) (state : gmap string jsval),
      graphql_answer fr1 = Ok d1 ->
      truthy (get_opt (get_opt (get_opt (Some d1) "customers") "edges") "length") = false ->
      run device (handler env req) (mkDevice (fr1 :: rest) store state)
      = (Ok (mkReply 404
               (JObj [("error",
                       JStr ("Customer with email " +:+ email +:+ " not found"))])),
         [Step (Fetch (VatWire.search env email)) fr1],
         mkDevice rest store state))
   /\
   (forall (fr1 fr2 fr3 : FetchResult) (d1 d2 d3 customers edge node : json)
           (more : list json) (id_text : string) (tag_refused : bool)
           (rest : list FetchResult)
           (store : gmap string string) (state : gmap string jsval),
      graphql_answer fr1 = Ok d1 ->
      get_opt (Some d1) "customers" = Some customers ->
      get_opt (Some customers) "edges" = Some (JArr (edge :: more)) ->
      get_opt (Some edge) "node" = Some node ->
      node <> JNull ->
      let customerId := get_opt (Some node) "id" in
      String_of customerId = Ok id_text ->
      graphql_answer fr2 = Ok d2 ->
      truthy (get_opt (Some d2) "errors") = false ->
      reports_userErrors (get_opt (Some d2) "metafieldsSet") = Ok false ->
      graphql_answer fr3 = Ok d3 ->
      reports_userErrors (get_opt (Some d3) "tagsAdd") = Ok tag_refused ->
      run device (handler env req) (mkDevice (fr1 :: fr2 :: fr3 :: rest) store state)
      = (Ok (mkReply 200
               (JObj [ ("success", JBool true);
                       ("message",
                        JStr "VAT verification submitted successfully. Your application will be reviewed shortly.") ])),
         [ Step (Fetch (VatWire.search env email)) fr1;
           Step (Fetch (VatWire.metafields env customerId (get_opt (Some b) "vatNumber")
                          (get_opt (Some b) "businessName") (get_opt (Some b) "country")))
                fr2;
           Step (Fetch (VatWire.tag env customerId)) fr3 ],
         mkDevice rest store state))
   /\
   (forall (W : World) (w : W_state W),
      exists customerId : jsval,
        let metafields :=
          VatWire.metafields env customerId (get_opt (Some b) "vatNumber")
            (get_opt (Some b) "businessName") (get_opt (Some b) "country") in
        In (requests (run W (handler env req) w).1.2)
           [ [VatWire.search env email];
             [VatWire.search env email; metafields];
             [VatWire.search env email; metafields; VatWire.tag env customerId] ])).
Proof.
  intros Hpost Hbody Hcomplete Hemail.
  split; [ | intros Htoken; split; [ | split ] ].
  - intros Htoken W w. now apply (vat_without_token env req b).
  - intros fr1 d1 rest store state Hd1 Hnone.
    read_submission Hpost Hbody Hcomplete.
    rewrite Htoken, Hemail. cbn [mbind Prog_bind negb lift bind].
    rewrite ProgFacts.run_try_catch.
    unfold mbind, Prog_bind. rewrite ProgFacts.run_bind.
    rewrite AdminFacts.run_graphqlRequest, Hd1, Hnone. reflexivity.
  - intros fr1 fr2 fr3 d1 d2 d3 customers edge node more id_text tag_refused
      rest store state Hd1 Hcust Hedges Hnode Hnonnull customerId Hid
      Hd2 Herrors Huser Hd3 Htag.
    read_submission Hpost Hbody Hcomplete.
    rewrite Htoken, Hemail. cbn [mbind Prog_bind negb lift bind].
    rewrite ProgFacts.run_try_catch.
    unfold mbind, Prog_bind. rewrite ProgFacts.run_bind.
    rewrite AdminFacts.run_graphqlRequest, Hd1.
    rewrite Hcust, Hedges, AdminFacts.length_truthy. cbn [negb].
    rewrite (AdminFacts.get_of_get_opt _ _ _ Hcust). cbn [lift bind].
    rewrite (AdminFacts.get_of_get_opt _ _ _ Hedges). cbn [lift bind].
    replace (get (Some (JArr (edge :: more))) "0") with (Ok (Some edge)) by reflexivity.
    cbn [lift bind].
    rewrite (AdminFacts.get_of_get_opt _ _ _ Hnode). cbn [lift bind].
    rewrite (AdminFacts.supplies_get node) by assumption. cbn [lift bind].
    fold customerId. rewrite Hid. cbn [lift bind].
    rewrite ProgFacts.run_bind, AdminFacts.run_graphqlRequest, Hd2.
    rewrite Herrors. unfold reports_userErrors in Huser, Htag. rewrite Huser.
    cbn [lift bind].
    rewrite ProgFacts.run_bind, AdminFacts.run_graphqlRequest, Hd3.
    rewrite Htag. reflexivity.
  - intros W w. now apply (vat_requests_in_order env req b email).
Qed.

Lemma vat_handler_replies (env : Env) (req : Req) t r :
  traces (handler env req) t r -> exists reply, r = Ok reply.
Proof.
  unfold handler. destruct (negb _).
  - intros Ht. apply ProgFacts.traces_inv in Ht as [_ ->]. eauto.
  - apply AdminFacts.try_catch_returns. eauto.
Qed.

End WithPlatform.

Import Samples.

Lemma vat_invalid_request_witness :
  exists reply : Reply,
    run device (handler (H := Reference.platform) vat_env (mkReq "POST" (Some (JObj []))))
        idle
    = (Ok reply, [], idle)
    /\ status reply = 400
    /\ requests
         (run device
            (handler (H := Reference.platform) vat_env (mkReq "POST" (Some (JObj []))))
            idle).1.2 = [].
Proof.
  apply (vat_invalid_request_rejected_without_requests
           (H := Reference.platform) vat_env (mkReq "POST" (Some (JObj []))) device idle).
  right. reflexivity.
Defined.

(** C3: a request that is not a POST, or whose body lacks one of the four
    fields, is to be answered 405 or 400 without any request to Shopify. A
    POST without any body lacks every field and makes no request, but it is
    answered 500 with the text of a [TypeError], not 400: the fields are read
    off [req.body] before it is known to be there. *)
Lemma vat_absent_body_answered_500 :
  req_method (mkReq "POST" None) = "POST"
  /\ complete (body (mkReq "POST" None)) = false
  /\ run device (handler (H := Reference.platform) vat_env (mkReq "POST" None)) idle
     = (Ok (mkReply 500
              (JObj [("error",
                      JStr "Cannot destructure property 'customerEmail' of 'req.body' as it is undefined.")])),
        [], idle).
Proof.
  repeat split.
Qed.

(** A complete submission on the sample deployment, to which Shopify
    answers with the customer, accepts the metafields and reports a user
    error on the tag. *)
Lemma vat_submission_flow_witness :
  run device (handler (H := Reference.platform) vat_env vat_submission)
      (mkDevice vat_upstream ∅ ∅)
  = (Ok (mkReply 200
           (JObj [ ("success", JBool true);
                   ("message",
                    JStr "VAT verification submitted successfully. Your application will be reviewed shortly.") ])),
     [ Step (Fetch (VatWire.search (H := Reference.platform) vat_env "jo@example.com"))
            (answer search_data);
       Step (Fetch (VatWire.metafields (H := Reference.platform) vat_env
                      (Some (JStr "gid://shopify/Customer/7001"))
                      (Some (JStr "IE1234567T")) (Some (JStr "Jo Fixings Ltd"))
                      (Some (JStr "Ireland"))))
            (answer metafields_data);
       Step (Fetch (VatWire.tag (H := Reference.platform) vat_env
                      (Some (JStr "gid://shopify/Customer/7001"))))
            (answer tag_data) ],
     idle).
Proof.
  refine (proj1 (proj2 (proj2 (vat_submission_flow (H := Reference.platform)
                   vat_env vat_submission vat_body "jo@example.com" _ _ _ _) _))
                (answer search_data) (answer metafields_data) (answer tag_data)
                search_data metafields_data tag_data
                customers_found customer_edge customer_node []
                "gid://shopify/Customer/7001" true [] ∅ ∅
                _ _ _ _ _ _ _ _ _ _ _);
    first [ reflexivity | discriminate ].
Defined.

(** Without the admin token a complete submission is answered 500 and no
    search is made. With the token, the same happens to a complete
    submission whose e-mail is an object that has no text. *)
Lemma vat_submission_without_token :
  req_method vat_submission = "POST"
  /\ complete (body vat_submission) = true
  /\ run device (handler (H := Reference.platform) ∅ vat_submission)
         (mkDevice vat_upstream ∅ ∅)
     = (Ok (mkReply 500 (JObj [("error", JStr "Missing admin API token")])),
        [], mkDevice vat_upstream ∅ ∅)
  /\ complete
       (Some (JObj [ ("customerEmail", JObj [("toString", JNum 1)]);
                     ("businessName", JStr "B"); ("country", JStr "GB");
                     ("vatNumber", JStr "GB1") ])) = true
  /\ run device
       (handler (H := Reference.platform) vat_env
          (mkReq "POST"
             (Some (JObj [ ("customerEmail", JObj [("toString", JNum 1)]);
                           ("businessName", JStr "B"); ("country", JStr "GB");
                           ("vatNumber", JStr "GB1") ]))))
       (mkDevice vat_upstream ∅ ∅)
     = (Ok (mkReply 500
              (JObj [("error", JStr "Cannot convert object to primitive value")])),
        [], mkDevice vat_upstream ∅ ∅).
Proof.
  repeat split.
Qed.

End VatFacts.

(** ** The Storefront proxy *)

Module NetlifyFacts.
Import Netlify.

Section WithPlatform.
Context `{Platform}.

(** The proxy only makes requests, each a POST to its endpoint. *)
Lemma netlify_handler_calls (env : Env) (event : Event) :
  calls (only_requests (fun r => url r = endpoint env /\ method r = "POST"))
        (handler env event).
Proof.
  unfold handler.
  repeat first [ calls_step | progress (simpl; auto) ].
Qed.

Lemma netlify_handler_replies (env : Env) (event : Event) t r :
  traces (handler env event) t r -> exists reply, r = Ok reply.
Proof.
  unfold handler. apply AdminFacts.try_catch_returns. eauto.
Qed.

(** The run of a POST the proxy forwards: one request, then the reply. *)
Lemma forwardable_run (env : Env) (event : Event) (b : json) (W : World) (w : W_state W) :
  forwardable env event b ->
  exists reply,
    run W (handler env event) w
    = (Ok reply,
       [Step (Fetch (forwarded env b)) (W_answer W _ (Fetch (forwarded env b)) w).1],
       (W_answer W _ (Fetch (forwarded env b)) w).2).
Proof.
  intros (Hpost & Hparse & Hquery & Htoken).
  assert (Hb : b <> JNull) by (intros ->; discriminate).
  unfold handler. rewrite Hpost, Hparse.
  cbn [String.eqb Ascii.eqb Bool.eqb negb].
  rewrite !(AdminFacts.supplies_destructure b) by assumption.
  cbn [mbind Prog_bind bind lift].
  rewrite Hquery, Htoken. cbn [negb].
  match goal with
  | |- context [fetch ?r] => change r with (forwarded env b)
  end.
  unfold mbind, Prog_bind. cbn [fetch bind try_catch run].
  destruct (W_answer W FetchResult (Fetch (forwarded env b)) w)
    as [[status text | e] w1]; cbn [fst snd].
  - cbn. destruct (negb (status_ok status)); cbn; eauto.
  - cbn. eauto.
Qed.


End WithPlatform.
End NetlifyFacts.

(** ** The two proxies together *)

Module ProxyFacts.
Import Samples.

(** C1, amended: each endpoint posts every request it makes to one fixed
    GraphQL endpoint of the shop. The VAT endpoint posts to the Admin API,
    [/admin/api/<version>/graphql.json], and a complete submission whose
    e-mail has a text, with the admin token set, starts with the customer
    search. The Storefront proxy posts to [/api/<version>/graphql.json], the
    Storefront API, and a POST it forwards produces exactly one such
    request. *)
Theorem proxies_post_to_their_endpoints `{Platform}
    (env : Env) (W : World) (w : W_state W) :
  (forall req : Vat.Req,
     Forall (fun r => url r = "https://" +:+ Vat.shopDomain env +:+ "/admin/api/"
                              +:+ Vat.apiVersion env +:+ "/graphql.json"
                      /\ method r = "POST")
            (requests (run W (Vat.handler env req) w).1.2))
  /\ (forall (req : Vat.Req) (b : json) (email : string),
        Vat.req_method req = "POST" ->
        Vat.body req = Some b ->
        Vat.complete (Some b) = true ->
        str_truthy (str_or (env !! "SHOPIFY_ADMIN_API_TOKEN") "") = true ->
        String_of (get_opt (Some b) "customerEmail") = Ok email ->
        exists more,
          requests (run W (Vat.handler env req) w).1.2
          = VatWire.search env email :: more)
  /\ (forall event : Netlify.Event,
        Forall (fun r => url r = "https://" +:+ str_or (env !! "SHOP_DOMAIN") "acefixings.com"
                                 +:+ "/api/"
                                 +:+ str_or (env !! "SHOPIFY_API_VERSION") "2025-07"
                                 +:+ "/graphql.json"
                         /\ method r = "POST")
               (requests (run W (Netlify.handler env event) w).1.2))
  /\ (forall (event : Netlify.Event) (b : json),
        Netlify.forwardable env event b ->
        requests (run W (Netlify.handler env event) w).1.2 = [Netlify.forwarded env b]).
Proof.
  repeat split.
  - intros req.
    eapply ProgFacts.requests_traces;
      [ apply ProgFacts.only_requests_satisfy, VatFacts.vat_handler_calls
      | apply ProgFacts.run_traces ].
  - intros req b email Hpost Hbody Hcomplete Htoken Hemail.
    destruct (VatFacts.vat_requests_in_order env req b email W w
                Hpost Hbody Hcomplete Htoken Hemail) as (customerId & Hin).
    cbv zeta in Hin. cbn [In] in Hin.
    destruct Hin as [<- | [<- | [<- | []]]]; eauto.
  - intros event.
    eapply ProgFacts.requests_traces;
      [ apply ProgFacts.only_requests_satisfy, NetlifyFacts.netlify_handler_calls
      | apply ProgFacts.run_traces ].
  - intros event b Hforward.
    destruct (NetlifyFacts.forwardable_run env event b W w Hforward) as [reply ->].
    reflexivity.
Qed.

(** The Storefront proxy forwards a query to the Storefront API, which is
    not the Admin API endpoint of the shop. *)
Lemma netlify_posts_to_storefront_api :
  Netlify.forwardable (H := Reference.platform) netlify_env netlify_post shop_query
  /\ map url
       (requests
          (run device (Netlify.handler (H := Reference.platform) netlify_env netlify_post)
               (mkDevice [shop_answer] ∅ ∅)).1.2)
     = ["https://acefixings.com/api/2025-07/graphql.json"]
  /\ "https://acefixings.com/api/2025-07/graphql.json"
     <> Vat.admin_url "acefixings.com" "2025-07".
Proof.
  repeat split. discriminate.
Qed.



End ProxyFacts.

(** ** The app: cart and reorder *)

Module AppFacts.
Import App Samples.



Section WithPlatform.
Context `{Platform} `{WebApi}.
Variable not_a_function : string -> JsError.
Variable cartId : string.
Variable cartView : json -> result json.




Lemma shopifyStorefront_calls (Q : Request -> Prop) query variables :
  Q (storefront_request query variables) ->
  calls (requests_satisfy Q) (shopifyStorefront query variables).
Proof.
  intros HQ. unfold shopifyStorefront.
  repeat first [ calls_step | progress (simpl; auto) ].
Qed.








End WithPlatform.

Import MoreSamples.


End AppFacts.


(** ** The app: tokens, PKCE and the session *)

Module SessionFacts.
Import App Session Samples.

(** A string without the separator is one segment. *)
Lemma split_length (sep : ascii) (s : string) : (1 <= length (split sep s))%nat.
Proof.
  induction s as [| c rest IH]; simpl.
  - lia.
  - destruct (Ascii.eqb c sep); simpl; [ lia | ].
    destruct (split sep rest); simpl in *; lia.
Qed.

(** *** The challenge encoding *)

Lemma replace_all_cons (x y c : ascii) (s : string) :
  replace_all x y (String c s) = String (if Ascii.eqb c x then y else c) (replace_all x y s).
Proof.
  reflexivity.
Qed.

Lemma strip_trailing_cons (c : ascii) (s : string) :
  c <> "="%char ->
  strip_trailing "=" (String c s) = String c (strip_trailing "=" s).
Proof.
  intros Hc. simpl.
  destruct (strip_trailing "=" s); [ | reflexivity ].
  apply Ascii.eqb_neq in Hc. rewrite Hc. reflexivity.
Qed.

(** Digit by digit, the replacements turn the base64 alphabet into the
    URL-safe one, in which no digit is the padding character. *)
Lemma digit_to_url (n : nat) :
  (n < 64)%nat ->
  to_url (digit_in base64_alphabet n) = digit_in base64url_alphabet n
  /\ digit_in base64url_alphabet n <> "="%char.
Proof.
  intros Hn.
  do 64 (destruct n as [| n]; [ split; [ reflexivity | discriminate ] | ]).
  lia.
Qed.

Lemma code_bounded (b : Byte.byte) : (N.to_nat (Byte.to_N b) < 256)%nat.
Proof.
  pose proof (Byte.to_N_bounded b). lia.
Qed.

Lemma code_of_char (b : Byte.byte) :
  nat_of_ascii (ascii_of_byte b) = N.to_nat (Byte.to_N b).
Proof.
  destruct b; reflexivity.
Qed.

Lemma sextets_bounded (a b c : nat) :
  (a < 256)%nat -> (b < 256)%nat -> (c < 256)%nat ->
  (sextet1 a < 64 /\ sextet2 a b < 64 /\ sextet3 b c < 64 /\ sextet4 c < 64)%nat.
Proof.
  intros Ha Hb Hc. unfold sextet1, sextet2, sextet3, sextet4.
  pose proof (Nat.mod_upper_bound a 4). pose proof (Nat.mod_upper_bound b 16).
  pose proof (Nat.mod_upper_bound c 64).
  assert (a / 4 < 64)%nat by (apply Nat.Div0.div_lt_upper_bound; lia).
  assert (b / 16 < 16)%nat by (apply Nat.Div0.div_lt_upper_bound; lia).
  assert (c / 64 < 4)%nat by (apply Nat.Div0.div_lt_upper_bound; lia).
  lia.
Qed.

Lemma binary_string_cons (b : Byte.byte) (octets : list Byte.byte) :
  binary_string (b :: octets) = String (ascii_of_byte b) (binary_string octets).
Proof.
  reflexivity.
Qed.

Lemma binary_string_nil : binary_string [] = EmptyString.
Proof.
  reflexivity.
Qed.

(** One digit of [btoa], replaced and kept by the stripping. *)
Lemma url_digit (n : nat) (s : string) :
  (n < 64)%nat ->
  strip_trailing "="
    (replace_all "/" "_" (replace_all "+" "-" (String (digit_in base64_alphabet n) s)))
  = String (digit_in base64url_alphabet n)
      (strip_trailing "=" (replace_all "/" "_" (replace_all "+" "-" s))).
Proof.
  intros Hn. destruct (digit_to_url n Hn) as [Hurl Hpad].
  rewrite !replace_all_cons. fold (to_url (digit_in base64_alphabet n)).
  rewrite Hurl. apply strip_trailing_cons, Hpad.
Qed.

(** The replacements and the stripping applied to [btoa] give the base64url
    encoding without padding. *)
Lemma btoa_url_nopad (octets : list Byte.byte) :
  strip_trailing "="
    (replace_all "/" "_" (replace_all "+" "-" (btoa (binary_string octets))))
  = base64url_nopad octets.
Proof.
  remember (length octets) as n eqn:Hlen.
  revert octets Hlen.
  induction n as [n IH] using lt_wf_ind. intros octets Hlen.
  destruct octets as [| a [| b [| c rest]]].
  - reflexivity.
  - destruct (sextets_bounded _ 0 0 (code_bounded a)) as (H1 & H2 & _); [ lia | lia | ].
    rewrite !binary_string_cons, ?binary_string_nil. cbn [btoa base64url_nopad].
    rewrite code_of_char, !url_digit by assumption. reflexivity.
  - destruct (sextets_bounded _ _ 0 (code_bounded a) (code_bounded b)) as (H1 & H2 & H3 & _);
      [ lia | ].
    rewrite !binary_string_cons, ?binary_string_nil. cbn [btoa base64url_nopad].
    rewrite !code_of_char, !url_digit by assumption. reflexivity.
  - destruct (sextets_bounded _ _ _ (code_bounded a) (code_bounded b) (code_bounded c))
      as (H1 & H2 & H3 & H4).
    rewrite !binary_string_cons, ?binary_string_nil. cbn [btoa base64url_nopad].
    rewrite !code_of_char, !url_digit by assumption.
    do 4 f_equal. apply (IH (length rest)); [ simpl in Hlen; lia | reflexivity ].
Qed.

Section WithPlatform.
Context `{Platform} `{WebApi}.

(** C10: on an input that is not a string, or a string of fewer than two
    dot-separated segments, [decodeJwt] returns [null] and does not throw;
    so it does on [null], on [undefined] and on the empty string. *)
Theorem decodeJwt_null_on_malformed (jwt : jsval) :
  (forall s, jwt <> Some (JStr s))
  \/ (exists s, jwt = Some (JStr s) /\ (length (split "." s) < 2)%nat) ->
  decodeJwt jwt = Ok JNull
  /\ decodeJwt (Some JNull) = Ok JNull
  /\ decodeJwt None = Ok JNull
  /\ decodeJwt (Some (JStr "")) = Ok JNull.
Proof.
  intros Hshape. repeat split.
  destruct Hshape as [Hother | (s & -> & Hshort)].
  - destruct jwt as [[] |]; try reflexivity. now destruct (Hother s).
  - unfold decodeJwt. destruct (negb (str_truthy s)); [ reflexivity | ].
    apply Nat.ltb_lt in Hshort. rewrite Hshort. reflexivity.
Qed.

(** [sha256Base64Url] computes the base64url encoding without padding of
    the SHA-256 hash of its input. *)
Lemma sha256Base64Url_spec (input : string) :
  sha256Base64Url input = base64url_nopad (sha256 (utf8 input)).
Proof.
  unfold sha256Base64Url. apply btoa_url_nopad.
Qed.

Lemma base36_truthy (octets : list Byte.byte) :
  octets <> [] -> str_truthy (base36 octets) = true.
Proof.
  destruct octets; [ contradiction | reflexivity ].
Qed.

(** Random octets as the device hands them out. *)
Lemma device_random (d : Device) (octets rest : list Byte.byte) (n : nat) :
  entropy d = (octets ++ rest)%list -> length octets = n ->
  device_answer _ (GetRandomValues n) d
  = (octets,
     mkPhone (upstream d) (prefs d) (ui d) (native d) rest (clock d) (opened d)).
Proof.
  intros Hentropy <-. cbn. rewrite Hentropy, <- app_assoc.
  rewrite take_app_length, drop_app_length. reflexivity.
Qed.

Section Flow.
Variable oidc custApi : jsval.
Variable loadCustomerProfile : jsval -> Prog unit.

(** The run of the second block of [startLogin] on a device, for a
    discovery document whose authorization endpoint has the text
    [endpoint]. *)
Lemma run_authorize (oidcJson : json) (endpoint : string) (d : Device)
    (rv rs rn more : list Byte.byte) :
  entropy d = (rv ++ rs ++ rn ++ more)%list ->
  length rv = 64%nat -> length rs = 24%nat -> length rn = 24%nat ->
  String_of (get_opt (Some oidcJson) "authorization_endpoint") = Ok endpoint ->
  let stored := JSON_stringify (pkce_record (base36 rv) (base36 rs) (base36 rn) (clock d)) in
  let page :=
    endpoint +:+ "?"
    +:+ URLSearchParams_toString
          [ ("client_id", CUSTOMER_ACCOUNTS_CLIENT_ID);
            ("response_type", "code");
            ("redirect_uri", REDIRECT_URI);
            ("scope", "openid email customer-account-api:full");
            ("state", base36 rs);
            ("nonce", base36 rn);
            ("code_challenge", base64url_nopad (sha256 (utf8 (base36 rv))));
            ("code_challenge_method", "S256") ] in
  run device (authorize oidcJson) d
  = (Ok tt,
     [ Step (GetRandomValues 64) rv; Step (GetRandomValues 24) rs;
       Step (GetRandomValues 24) rn; Step DateNow (clock d);
       Step (PrefSet K.PKCE stored) tt; Step (BrowserOpen page) tt ],
     mkPhone (upstream d) (<[K.PKCE := stored]> (prefs d)) (ui d) (native d) more
       (clock d) (opened d ++ [page])).
Proof.
  intros Hentropy Hv Hs Hn Hendpoint stored page.
  unfold authorize, randomString, mbind, Prog_bind, call.
  cbn [bind run device W_answer W_state].
  rewrite (device_random d rv (rs ++ rn ++ more) 64 Hentropy Hv).
  cbn [bind run device W_answer W_state].
  rewrite (device_random (mkPhone _ _ _ _ (rs ++ rn ++ more) _ _) rs (rn ++ more) 24
             eq_refl Hs).
  cbn [bind run device W_answer W_state].
  rewrite (device_random (mkPhone _ _ _ _ (rn ++ more) _ _) rn more 24 eq_refl Hn).
  unfold authorization_url. rewrite Hendpoint.
  cbn. rewrite sha256Base64Url_spec. reflexivity.
Qed.

(** The run of the head of [handleOAuthCallback] on a device whose store
    holds the record of a login. *)
Lemma run_read_verifier (d : Device) (st : jsval) (verifier state nonce : string) (now : Z) :
  let stored := JSON_stringify (pkce_record verifier state nonce now) in
  prefs d !! K.PKCE = Some stored ->
  str_truthy stored = true ->
  JSON_parse stored = Ok (pkce_record verifier state nonce now) ->
  str_truthy verifier = true ->
  truthy st = false \/ st = Some (JStr state) ->
  run device (read_verifier st) d
  = (Ok (Some (JStr verifier)), [Step (PrefGet K.PKCE) (Some stored)], d).
Proof.
  intros stored Hstored Htruthy Hparse Hverifier Hstate.
  unfold read_verifier, mbind, Prog_bind, call.
  cbn [bind run device W_answer W_state device_answer].
  rewrite Hstored. fold stored. rewrite Htruthy.
  unfold safeJsonParse. rewrite Hparse.
  cbn [pkce_record get_opt member assoc String.eqb Ascii.eqb Bool.eqb truthy json_truthy].
  unfold str_truthy in Hverifier. rewrite Hverifier. cbn [negb].
  destruct Hstate as [Hfalsy | ->].
  - rewrite Hfalsy, andb_false_r. reflexivity.
  - cbn [strict_eq]. rewrite String.eqb_refl, !andb_false_r. reflexivity.
Qed.

(** On a device a form whose values have a text is posted through the
    native plugin, first. *)
Lemma run_httpPostForm_native {A : Type} (url : jsval) (form : list (string * jsval))
    (address body : string) (k : json -> Prog A) (d : Device) :
  form_body form = Ok body ->
  String_of url = Ok address ->
  exists answer rest,
    (run device (bind (httpPostForm true url form) k) d).1.2
    = Step (NativeHttp (form_request address body)) answer :: rest.
Proof.
  intros Hbody Haddress.
  unfold httpPostForm, mbind, Prog_bind, call. rewrite Hbody, Haddress.
  cbn [lift bind run].
  destruct (W_answer device NativeResult (NativeHttp (form_request address body)) d)
    as [answer d1].
  match goal with
  | |- context [run device ?p d1] => destruct (run device p d1) as [[r t] d2]
  end.
  cbn. eauto.
Qed.

(** C4: on a device, in a login whose discovery gave [oidcJson], the
    verifier is the base-36 rendering of sixty-four random octets; it is
    stored in the record under the PKCE key; the page opened in the browser
    is the authorization endpoint with the query of eight parameters, among
    them as [code_challenge] the base64url encoding without padding of the
    SHA-256 hash of that verifier, with [code_challenge_method] [S256]; and
    when the callback comes back (with the state of the login, or none) to a
    store that still holds the record, the token exchange posts to the token
    endpoint the form of five parameters whose [code_verifier] is that
    verifier. *)
Theorem pkce_challenge_and_verifier
    (d d0 later later0 : Device) (oidcJson oidcJson' : json) (t0 t1 : list step)
    (rv rs rn more : list Byte.byte) (code st : jsval)
    (authorization_endpoint token_url code_text : string) :
  let verifier := base36 rv in
  let state := base36 rs in
  let nonce := base36 rn in
  let record :=
    JObj [ ("verifier", JStr verifier);
           ("state", JStr state);
           ("nonce", JStr nonce);
           ("redirect", JStr "shop.90779713878.app://callback");
           ("created_at", JNum (clock d0)) ] in
  let login := run device (startLogin true oidc custApi) d in
  let callback := run device (handleOAuthCallback true oidc loadCustomerProfile code st) later in
  run device (setError "";; discover true oidc custApi) d = (Ok oidcJson, t0, d0) ->
  String_of (get_opt (Some oidcJson) "authorization_endpoint") = Ok authorization_endpoint ->
  entropy d0 = (rv ++ rs ++ rn ++ more)%list ->
  length rv = 64%nat -> length rs = 24%nat -> length rn = 24%nat ->
  JSON_parse (JSON_stringify record) = Ok record ->
  str_truthy (JSON_stringify record) = true ->
  prefs later !! K.PKCE = Some (JSON_stringify record) ->
  truthy st = false \/ st = Some (JStr state) ->
  String_of code = Ok code_text ->
  run device (discover_oidc true oidc) later = (Ok oidcJson', t1, later0) ->
  String_of (get_opt (Some oidcJson') "token_endpoint") = Ok token_url ->
  login.1.1 = Ok tt
  /\ prefs login.2 !! K.PKCE = Some (JSON_stringify record)
  /\ opened login.2
     = (opened d0
        ++ [ authorization_endpoint +:+ "?"
             +:+ URLSearchParams_toString
                   [ ("client_id", "edc5278a-8942-4645-a802-bdfa625f8dbd");
                     ("response_type", "code");
                     ("redirect_uri", "shop.90779713878.app://callback");
                     ("scope", "openid email customer-account-api:full");
                     ("state", state);
                     ("nonce", nonce);
                     ("code_challenge", base64url_nopad (sha256 (utf8 verifier)));
                     ("code_challenge_method", "S256") ] ])%list
  /\ (exists answer rest,
        callback.1.2
        = (Step (PrefGet K.PKCE) (Some (JSON_stringify record)) :: t1
           ++ Step (NativeHttp
                      {| url := token_url;
                         method := "POST";
                         req_headers :=
                           [("Content-Type", "application/x-www-form-urlencoded")];
                         req_body :=
                           URLSearchParams_toString
                             [ ("grant_type", "authorization_code");
                               ("client_id", "edc5278a-8942-4645-a802-bdfa625f8dbd");
                               ("redirect_uri", "shop.90779713878.app://callback");
                               ("code", code_text);
                               ("code_verifier", verifier) ] |})
                   answer
           :: rest)%list).
Proof.
  intros verifier state nonce record login callback
    Hdiscover Hendpoint Hentropy Hv Hs Hn Hparse Htruthy Hstored Hstate Hcode
    Hdiscover' Htoken.
  change record with (pkce_record verifier state nonce (clock d0)) in *.
  assert (Hlogin : login
    = (Ok tt,
       (t0 ++ [ Step (GetRandomValues 64) rv; Step (GetRandomValues 24) rs;
                Step (GetRandomValues 24) rn; Step DateNow (clock d0);
                Step (PrefSet K.PKCE
                        (JSON_stringify (pkce_record verifier state nonce (clock d0)))) tt;
                Step (BrowserOpen
                        (authorization_endpoint +:+ "?"
                         +:+ URLSearchParams_toString
                               [ ("client_id", CUSTOMER_ACCOUNTS_CLIENT_ID);
                                 ("response_type", "code");
                                 ("redirect_uri", REDIRECT_URI);
                                 ("scope", "openid email customer-account-api:full");
                                 ("state", state);
                                 ("nonce", nonce);
                                 ("code_challenge",
                                  base64url_nopad (sha256 (utf8 verifier)));
                                 ("code_challenge_method", "S256") ])) tt ])%list,
       mkPhone (upstream d0)
         (<[K.PKCE := JSON_stringify (pkce_record verifier state nonce (clock d0))]>
            (prefs d0))
         (ui d0) (native d0) more (clock d0)
         (opened d0
          ++ [ authorization_endpoint +:+ "?"
               +:+ URLSearchParams_toString
                     [ ("client_id", CUSTOMER_ACCOUNTS_CLIENT_ID);
                       ("response_type", "code");
                       ("redirect_uri", REDIRECT_URI);
                       ("scope", "openid email customer-account-api:full");
                       ("state", state);
                       ("nonce", nonce);
                       ("code_challenge", base64url_nopad (sha256 (utf8 verifier)));
                       ("code_challenge_method", "S256") ] ]))).
  { unfold mbind, Prog_bind in Hdiscover. rewrite ProgFacts.run_bind in Hdiscover.
    destruct (run device (setError "") d) as [[[[] | e] ts] ds] eqn:Hset;
      cbv beta iota in Hdiscover; [ | discriminate Hdiscover ].
    destruct (run device (discover true oidc custApi) ds) as [[[oj | e] td] dd] eqn:Hd;
      cbv beta iota in Hdiscover; [ | discriminate Hdiscover ].
    injection Hdiscover as -> <- ->.
    unfold login, startLogin. cbn [negb]. unfold mbind, Prog_bind.
    rewrite ProgFacts.run_bind, Hset, ProgFacts.run_try_catch, ProgFacts.run_bind, Hd.
    rewrite (run_authorize oidcJson authorization_endpoint d0 rv rs rn more
               Hentropy Hv Hs Hn Hendpoint).
    rewrite <- app_assoc. reflexivity. }
  rewrite Hlogin. cbn [fst snd prefs opened].
  repeat split.
  - apply lookup_insert_eq.
  - unfold callback, handleOAuthCallback, mbind, Prog_bind.
    rewrite ProgFacts.run_bind.
    rewrite (run_read_verifier later st verifier state nonce (clock d0)
               Hstored Htruthy Hparse
               (base36_truthy rv ltac:(intros ->; discriminate)) Hstate).
    rewrite ProgFacts.run_bind, Hdiscover'.
    assert (Hform : form_body (token_form code (Some (JStr verifier)))
                    = Ok (URLSearchParams_toString
                            [ ("grant_type", "authorization_code");
                              ("client_id", CUSTOMER_ACCOUNTS_CLIENT_ID);
                              ("redirect_uri", REDIRECT_URI);
                              ("code", code_text);
                              ("code_verifier", verifier) ])).
    { unfold form_body, token_form. cbn [form_pairs String_of ToString].
      rewrite Hcode. reflexivity. }
    destruct (run_httpPostForm_native (token_endpoint oidcJson')
                (token_form code (Some (JStr verifier))) token_url _
                (store_session loadCustomerProfile) later0 Hform Htoken)
      as (answer & rest & Hpost).
    destruct (run device _ later0) as [[r t] d2]. cbn in Hpost. subst t.
    cbn. eauto.
Qed.

End Flow.

End WithPlatform.

Lemma decodeJwt_null_witness :
  decodeJwt (H := Reference.platform) (H0 := Web.api) (Some (JStr "not-a-token")) = Ok JNull.
Proof.
  refine (proj1 (decodeJwt_null_on_malformed
                   (H := Reference.platform) (H0 := Web.api) (Some (JStr "not-a-token")) _)).
  right. exists "not-a-token". split; [ reflexivity | vm_compute; lia ].
Defined.

(** A login on the sample phone, then its callback. *)
Lemma pkce_login_witness :
  let verifier := base36 sample_rv in
  let state := base36 sample_rs in
  let nonce := base36 sample_rn in
  let record :=
    JObj [ ("verifier", JStr verifier);
           ("state", JStr state);
           ("nonce", JStr nonce);
           ("redirect", JStr "shop.90779713878.app://callback");
           ("created_at", JNum (clock phone_ready)) ] in
  let login :=
    run device
      (startLogin (H := Reference.platform) (H0 := Web.api) true
         (Some oidc_doc) (Some cust_doc))
      phone in
  let callback :=
    run device
      (handleOAuthCallback (H := Reference.platform) (H0 := Web.api) true (Some oidc_doc)
         (fun _ => Ret tt) (Some (JStr "authcode")) (Some (JStr state)))
      login.2 in
  login.1.1 = Ok tt
  /\ prefs login.2 !! K.PKCE = Some (JSON_stringify (Platform := Reference.platform) record)
  /\ opened login.2
     = (opened phone_ready
        ++ [ "https://shopify.com/authentication/1/oauth/authorize" +:+ "?"
             +:+ URLSearchParams_toString (WebApi := Web.api)
                   [ ("client_id", "edc5278a-8942-4645-a802-bdfa625f8dbd");
                     ("response_type", "code");
                     ("redirect_uri", "shop.90779713878.app://callback");
                     ("scope", "openid email customer-account-api:full");
                     ("state", state);
                     ("nonce", nonce);
                     ("code_challenge",
                      base64url_nopad (sha256 (WebApi := Web.api) (utf8 verifier)));
                     ("code_challenge_method", "S256") ] ])%list
  /\ (exists answer rest,
        callback.1.2
        = (Step (PrefGet K.PKCE)
             (Some (JSON_stringify (Platform := Reference.platform) record))
           :: []
           ++ Step (NativeHttp
                      {| url := "https://shopify.com/authentication/1/oauth/token";
                         method := "POST";
                         req_headers :=
                           [("Content-Type", "application/x-www-form-urlencoded")];
                         req_body :=
                           URLSearchParams_toString (WebApi := Web.api)
                             [ ("grant_type", "authorization_code");
                               ("client_id", "edc5278a-8942-4645-a802-bdfa625f8dbd");
                               ("redirect_uri", "shop.90779713878.app://callback");
                               ("code", "authcode");
                               ("code_verifier", verifier) ] |})
                   answer
           :: rest)%list).
Proof.
  apply (pkce_challenge_and_verifier
           (H := Reference.platform) (H0 := Web.api)
           (Some oidc_doc) (Some cust_doc) (fun _ => Ret tt)
           phone phone_ready
           (run device
              (startLogin (H := Reference.platform) (H0 := Web.api) true
                 (Some oidc_doc) (Some cust_doc))
              phone).2
           (run device
              (startLogin (H := Reference.platform) (H0 := Web.api) true
                 (Some oidc_doc) (Some cust_doc))
              phone).2
           oidc_doc oidc_doc
           [ Step (SetState "error" (Some (JStr ""))) tt;
             Step (SetState "deepLinkHandledRef" (Some (JBool false))) tt ]
           [] sample_rv sample_rs sample_rn []
           (Some (JStr "authcode")) (Some (JStr (base36 sample_rs)))
           "https://shopify.com/authentication/1/oauth/authorize"
           "https://shopify.com/authentication/1/oauth/token" "authcode");
    try (vm_compute; reflexivity).
  right. reflexivity.
Defined.

(** The example of RFC 7636, appendix B. *)
Example rfc7636_challenge :
  sha256Base64Url (H0 := Web.api) "dBjftJeZ4CVP-mB92K27uhbUJU1p1r_wW1gFWFOEjXk"
  = "E9Melhoa2OwvFrEMTJguCHaoeK1t8URWbuGJSstw-cM".
Proof.
  vm_compute. reflexivity.
Qed.

(** C5, amended: a logout, with the effects React runs after it, ends
    normally and leaves the [Preferences] store without the auth token, the
    customer profile and the orders cache; the cart id and the customer id
    stay as they were. Logout itself removes these three keys and writes
    nothing. *)
Theorem logout_removes_session_keys_only (d : Device) (vatMode : string) :
  let after := (run device (logout_and_effects vatMode) d).2 in
  (run device (logout_and_effects vatMode) d).1.1 = Ok tt
  /\ prefs after !! K.AUTH = None
  /\ prefs after !! K.PROFILE = None
  /\ prefs after !! K.ORDERS_CACHE = None
  /\ prefs after !! K.CART_ID = prefs d !! K.CART_ID
  /\ prefs after !! CUSTOMER_SHOPIFY_ID = prefs d !! CUSTOMER_SHOPIFY_ID
  /\ prefs (run device logout d).2
     = delete K.ORDERS_CACHE (delete K.PROFILE (delete K.AUTH (prefs d))).
Proof.
  unfold logout_and_effects, persist_vatMode.
  destruct (String.eqb vatMode "inc"); cbn; repeat split;
    repeat first
      [ rewrite lookup_insert_ne by discriminate
      | rewrite lookup_delete_eq
      | rewrite lookup_delete_ne by discriminate
      | reflexivity ].
Qed.

(** A saved cart id outlives logout. *)
Lemma logout_keeps_cart_id :
  (run device (logout_and_effects "ex") signed_in).1.1 = Ok tt
  /\ prefs (run device (logout_and_effects "ex") signed_in).2 !! K.AUTH = None
  /\ prefs (run device (logout_and_effects "ex") signed_in).2 !! K.CART_ID
     = Some "gid://shopify/Cart/c1"
  /\ prefs (run device logout signed_in).2 !! K.CART_ID
     = Some "gid://shopify/Cart/c1".
Proof.
  repeat split.
Qed.

End SessionFacts.

Module BulkFacts.
Import Bulk.
Local Open Scope float_scope.

Ltac tiers q :=
  unfold getBulkPrice, getBulkDiscount;
  destruct (Z.leb_spec 100 q); [ | destruct (Z.leb_spec 50 q);
    [ | destruct (Z.leb_spec 25 q); [ | destruct (Z.leb_spec 10 q) ] ] ].

Lemma getBulkDiscount_values (q : Z) :
  (q < 10)%Z /\ getBulkDiscount q = 0 \/
  (10 <= q < 25)%Z /\ getBulkDiscount q = 5 \/
  (25 <= q < 50)%Z /\ getBulkDiscount q = 10 \/
  (50 <= q < 100)%Z /\ getBulkDiscount q = 15 \/
  (100 <= q)%Z /\ getBulkDiscount q = 20.
Proof.
  tiers q; intuition (auto with zarith).
Qed.

Lemma getBulkDiscount_mono (q q' : Z) :
  (q <= q')%Z -> PrimFloat.leb (getBulkDiscount q) (getBulkDiscount q') = true.
Proof.
  intros Hle.
  destruct (getBulkDiscount_values q) as [[Hq ->]|[[Hq ->]|[[Hq ->]|[[Hq ->]|[Hq ->]]]]];
  destruct (getBulkDiscount_values q') as [[Hq' ->]|[[Hq' ->]|[[Hq' ->]|[[Hq' ->]|[Hq' ->]]]]];
  solve [ reflexivity | lia ].
Qed.

Lemma getBulkPrice_formula (basePrice : float) (q : Z) :
  getBulkPrice basePrice q = basePrice * (1 - getBulkDiscount q / 100).
Proof.
  tiers q; unfold bulkPricingTiers; simpl String.eqb; cbv iota.
  - replace (1 - 20 / 100) with 0.80 by reflexivity. reflexivity.
  - replace (1 - 15 / 100) with 0.85 by reflexivity. reflexivity.
  - replace (1 - 10 / 100) with 0.90 by reflexivity. reflexivity.
  - replace (1 - 5 / 100) with 0.95 by reflexivity. reflexivity.
  - replace (1 - 0 / 100) with 1 by reflexivity. reflexivity.
Qed.

(** C8: the bulk price is the base price times one minus the discount
    percentage of the numeric [getBulkDiscount] (the declaration in effect),
    in binary64 arithmetic; the discount is 0, 5, 10, 15 or 20 according to
    the tier of the quantity, and it never decreases as the quantity grows. *)
Theorem bulk_pricing_consistent_and_monotone (basePrice : float) (q : Z) :
  getBulkPrice basePrice q = basePrice * (1 - getBulkDiscount q / 100)
  /\ ((q < 10)%Z /\ getBulkDiscount q = 0 \/
      (10 <= q < 25)%Z /\ getBulkDiscount q = 5 \/
      (25 <= q < 50)%Z /\ getBulkDiscount q = 10 \/
      (50 <= q < 100)%Z /\ getBulkDiscount q = 15 \/
      (100 <= q)%Z /\ getBulkDiscount q = 20)
  /\ (forall q' : Z, (q <= q')%Z ->
        PrimFloat.leb (getBulkDiscount q) (getBulkDiscount q') = true).
Proof.
  split; [ apply getBulkPrice_formula | split ].
  - apply getBulkDiscount_values.
  - intros q'. apply getBulkDiscount_mono.
Qed.

Example getBulkPrice_12_at_10 : getBulkPrice 10 12 = 9.5.
Proof. reflexivity. Qed.

End BulkFacts.

(** ** The Storefront proxy: replies and rejections *)

Module NetlifyEdge.
Import Netlify.

Section WithPlatform.
Context `{Platform}.

(** Whatever the event and whatever Shopify does, the proxy returns a reply
    and never throws; the reply is JSON and carries the CORS headers; and the
    only success status it ever replies is 200 (an upstream status is relayed
    only when it is not a 2xx). *)
Theorem netlify_always_replies_with_cors_headers
    (env : Env) (event : Event) (W : World) (w : W_state W) :
  exists r : Reply,
    (run W (handler env event) w).1.1 = Ok r
    /\ headers r = [ ("Content-Type", "application/json");
                     ("Access-Control-Allow-Origin", "*");
                     ("Access-Control-Allow-Headers", "Content-Type");
                     ("Access-Control-Allow-Methods", "POST, OPTIONS") ]
    /\ (status_ok (statusCode r) = true -> statusCode r = 200).
Proof.
  set (Q := fun r : Reply =>
              headers r = [ ("Content-Type", "application/json");
                            ("Access-Control-Allow-Origin", "*");
                            ("Access-Control-Allow-Headers", "Content-Type");
                            ("Access-Control-Allow-Methods", "POST, OPTIONS") ]
              /\ (status_ok (statusCode r) = true -> statusCode r = 200)).
  assert (Hall : outcomes (returns Q) (handler env event)).
  { unfold handler.
    repeat first
      [ outcomes_step
      | progress (cbn [returns Q reply headers statusCode]; try split; auto;
                  try (intros; reflexivity); try (intros Hok; discriminate Hok)) ].
    match goal with
    | Hs : status_ok _ = true, Hn : negb (status_ok _) = true |- _ =>
        cbn [reply statusCode] in Hs; rewrite Hs in Hn; discriminate Hn
    end. }
  pose proof (OutcomeFacts.outcomes_run _ _ W Hall w) as Hr.
  destruct ((run W (handler env event) w).1.1) as [r | e]; [ | contradiction ].
  exists r. destruct Hr. auto.
Qed.

(** The proxy contacts Shopify at most once per invocation, and only for a
    POST whose body parses to a value carrying a query, on a deployment with
    the Storefront token: any other event is answered without a request. *)
Theorem netlify_contacts_shopify_only_for_a_forwardable_post
    (env : Env) (event : Event) (W : World) (w : W_state W) :
  requests (run W (handler env event) w).1.2 = []
  \/ exists b : json,
       forwardable env event b
       /\ requests (run W (handler env event) w).1.2 = [forwarded env b].
Proof.
  destruct (String.eqb (httpMethod event) "OPTIONS") eqn:Hoptions.
  { left. unfold handler. rewrite Hoptions. reflexivity. }
  destruct (String.eqb (httpMethod event) "POST") eqn:Hpost.
  2: { left. unfold handler. rewrite Hoptions, Hpost. reflexivity. }
  destruct (JSON_parse (str_or (body event) "{}")) as [b | e] eqn:Hparse.
  2: { left. unfold handler. rewrite Hoptions, Hpost, Hparse. reflexivity. }
  destruct (AdminFacts.classic_null b) as [-> | Hb].
  { left. unfold handler. rewrite Hoptions, Hpost, Hparse. reflexivity. }
  destruct (truthy (get_opt (Some b) "query")) eqn:Hquery.
  2: { left. unfold handler. rewrite Hoptions, Hpost, Hparse.
       cbn [negb]. rewrite !(AdminFacts.supplies_destructure b) by assumption.
       cbn [mbind Prog_bind bind lift]. rewrite Hquery. reflexivity. }
  destruct (str_truthy (str_or (env !! "SHOPIFY_STOREFRONT_TOKEN") "")) eqn:Htoken.
  2: { left. unfold handler. rewrite Hoptions, Hpost, Hparse.
       cbn [negb]. rewrite !(AdminFacts.supplies_destructure b) by assumption.
       cbn [mbind Prog_bind bind lift]. rewrite Hquery, Htoken. reflexivity. }
  right. exists b.
  assert (Hforward : forwardable env event b).
  { repeat split; auto. now apply String.eqb_eq. }
  split; [ exact Hforward | ].
  destruct (NetlifyFacts.forwardable_run env event b W w Hforward) as [r ->].
  reflexivity.
Qed.

(** What the proxy replies to a POST it forwards: Shopify's answer, parsed
    (or wrapped as [raw] when it is not JSON), under status 200 when Shopify
    answered with a 2xx; Shopify's own status, with the answer as [details],
    otherwise; and 500 with the error's message when the request failed. *)
Theorem netlify_relays_the_upstream_answer
    (env : Env) (event : Event) (b : json) (W : World) (w : W_state W) :
  forwardable env event b ->
  (run W (handler env event) w).1.1
  = Ok match (W_answer W _ (Fetch (forwarded env b)) w).1 with
       | Responded status text =>
           let parsed := match JSON_parse text with
                         | Ok v => v
                         | Throw _ => JObj [("raw", JStr text)]
                         end in
           if status_ok status then reply 200 parsed
           else reply status
                  (JObj [ ("ok", JBool false);
                          ("error", JStr ("Shopify HTTP " +:+ string_of_Z status));
                          ("details", parsed) ])
       | Rejected e =>
           reply 500 (JObj [ ("ok", JBool false);
                             ("error", JStr (App.error_text e)) ])
       end.
Proof.
  intros (Hpost & Hparse & Hquery & Htoken).
  assert (Hb : b <> JNull) by (intros ->; discriminate).
  unfold handler. rewrite Hpost, Hparse.
  cbn [String.eqb Ascii.eqb Bool.eqb negb].
  rewrite !(AdminFacts.supplies_destructure b) by assumption.
  cbn [mbind Prog_bind bind lift].
  rewrite Hquery, Htoken. cbn [negb].
  match goal with
  | |- context [fetch ?r] => change r with (forwarded env b)
  end.
  unfold mbind, Prog_bind. cbn [fetch bind try_catch run].
  destruct (W_answer W FetchResult (Fetch (forwarded env b)) w)
    as [[status text | e] w1]; cbn [fst snd].
  - cbn. destruct (status_ok status); reflexivity.
  - reflexivity.
Qed.

End WithPlatform.

Import Samples MoreSamples.

Lemma netlify_relays_witness :
  (run device (handler (H := Reference.platform) netlify_env netlify_post)
       (mkDevice [Responded 429 "Throttled"] ∅ ∅)).1.1
  = Ok (reply (H := Reference.platform) 429
          (JObj [ ("ok", JBool false);
                  ("error", JStr "Shopify HTTP 429");
                  ("details", JObj [("raw", JStr "Throttled")]) ])).
Proof.
  apply (netlify_relays_the_upstream_answer (H := Reference.platform)
           netlify_env netlify_post shop_query device
           (mkDevice [Responded 429 "Throttled"] ∅ ∅)).
  repeat split.
Defined.

End NetlifyEdge.

(** ** The VAT-verification endpoint: failures *)

Module VatEdge.
Import Vat.

Section WithPlatform.
Context `{Platform}.

(** Whatever the request and whatever Shopify does, the endpoint answers and
    never throws, with one of five statuses: 200, 400, 404, 405 or 500. *)
Theorem vat_handler_answers_with_a_known_status
    (env : Env) (req : Req) (W : World) (w : W_state W) :
  exists reply : Reply,
    (run W (handler env req) w).1.1 = Ok reply
    /\ In (status reply) [200; 400; 404; 405; 500].
Proof.
  assert (Hall : outcomes (returns (fun reply => In (status reply) [200; 400; 404; 405; 500]))
                   (handler env req)).
  { unfold handler, graphqlRequest.
    repeat first [ outcomes_step | progress (cbn [returns status In]; auto 8) ]. }
  pose proof (OutcomeFacts.outcomes_run _ _ W Hall w) as Hr.
  destruct ((run W (handler env req) w).1.1) as [reply | e]; [ | contradiction ].
  exists reply. auto.
Qed.

(** When the customer search is answered with a status that is not a 2xx,
    a complete submission whose e-mail has a text is answered 500 with the
    text [Shopify API error <status>: <body>], and nothing else is sent: no
    metafield is written and no tag is added. *)
Theorem vat_search_failure_is_answered_500
    (env : Env) (req : Req) (b : json) (email : string) (W : World) (w : W_state W)
    (upstream_status : Z) (text : string) :
  req_method req = "POST" ->
  body req = Some b ->
  complete (Some b) = true ->
  str_truthy (str_or (env !! "SHOPIFY_ADMIN_API_TOKEN") "") = true ->
  String_of (get_opt (Some b) "customerEmail") = Ok email ->
  (W_answer W _ (Fetch (VatWire.search env email)) w).1
  = Responded upstream_status text ->
  status_ok upstream_status = false ->
  (run W (handler env req) w).1.1
  = Ok (mkReply 500
          (JObj [("error",
                  JStr ("Shopify API error " +:+ string_of_Z upstream_status
                        +:+ ": " +:+ text))]))
  /\ requests (run W (handler env req) w).1.2 = [VatWire.search env email].
Proof.
  intros Hpost Hbody Hcomplete Htoken Hemail Hanswer Hstatus.
  apply VatFacts.complete_fields in Hcomplete as (Hb & He & Hn & Hc & Hv).
  unfold handler. rewrite Hpost, Hbody. cbn [String.eqb Ascii.eqb Bool.eqb negb].
  rewrite !(AdminFacts.supplies_destructure b) by assumption.
  cbn [mbind Prog_bind bind lift].
  rewrite He, Hn, Hc, Hv, Htoken, Hemail. cbn [mbind Prog_bind negb orb lift bind].
  rewrite ProgFacts.run_try_catch.
  unfold mbind, Prog_bind. rewrite ProgFacts.run_bind, AdminFacts.run_graphqlRequest_in.
  change (graphql_request (shopDomain env) (str_or (env !! "SHOPIFY_ADMIN_API_TOKEN") "")
            (apiVersion env) searchQuery (search_variables email))
    with (VatWire.search env email).
  rewrite Hanswer. cbn [graphql_answer]. rewrite Hstatus. cbn. auto.
Qed.

(** When [metafieldsSet] reports user errors, a submission for a customer
    that was found, with an e-mail and an id that have a text, is answered
    500 with the text [Metafield update failed: <the user errors>], and the
    tag is not added: the search and the metafields call are the only
    requests. *)
Theorem vat_metafield_user_errors_stop_before_the_tag
    (env : Env) (req : Req) (b d1 d2 customers edge node userErrors : json)
    (email id_text : string)
    (more : list json) (fr1 fr2 : FetchResult) (rest : list FetchResult)
    (store : gmap string string) (state : gmap string jsval) :
  req_method req = "POST" ->
  body req = Some b ->
  complete (Some b) = true ->
  str_truthy (str_or (env !! "SHOPIFY_ADMIN_API_TOKEN") "") = true ->
  String_of (get_opt (Some b) "customerEmail") = Ok email ->
  graphql_answer fr1 = Ok d1 ->
  get_opt (Some d1) "customers" = Some customers ->
  get_opt (Some customers) "edges" = Some (JArr (edge :: more)) ->
  get_opt (Some edge) "node" = Some node ->
  node <> JNull ->
  String_of (get_opt (Some node) "id") = Ok id_text ->
  graphql_answer fr2 = Ok d2 ->
  truthy (get_opt (Some d2) "errors") = false ->
  get_opt (get_opt (Some d2) "metafieldsSet") "userErrors" = Some userErrors ->
  gt_zero (get_opt (Some userErrors) "length") = Ok true ->
  run device (handler env req) (mkDevice (fr1 :: fr2 :: rest) store state)
  = (Ok (mkReply 500
           (JObj [("error",
                   JStr ("Metafield update failed: " +:+ JSON_stringify userErrors))])),
     [ Step (Fetch (VatWire.search env email)) fr1;
       Step (Fetch (VatWire.metafields env (get_opt (Some node) "id")
                      (get_opt (Some b) "vatNumber") (get_opt (Some b) "businessName")
                      (get_opt (Some b) "country")))
            fr2 ],
     mkDevice rest store state).
Proof.
  intros Hpost Hbody Hcomplete Htoken Hemail Hd1 Hcust Hedges Hnode Hnonnull Hid
    Hd2 Herrors Huser Hlength.
  apply VatFacts.complete_fields in Hcomplete as (Hb & He & Hn & Hc & Hv).
  unfold handler. rewrite Hpost, Hbody. cbn [String.eqb Ascii.eqb Bool.eqb negb].
  rewrite !(AdminFacts.supplies_destructure b) by assumption.
  cbn [mbind Prog_bind bind lift].
  rewrite He, Hn, Hc, Hv, Htoken, Hemail. cbn [mbind Prog_bind negb orb lift bind].
  rewrite ProgFacts.run_try_catch.
  unfold mbind, Prog_bind. rewrite ProgFacts.run_bind.
  rewrite AdminFacts.run_graphqlRequest, Hd1.
  rewrite Hcust, Hedges, AdminFacts.length_truthy. cbn [negb].
  rewrite (AdminFacts.get_of_get_opt _ _ _ Hcust). cbn [lift bind].
  rewrite (AdminFacts.get_of_get_opt _ _ _ Hedges). cbn [lift bind].
  replace (get (Some (JArr (edge :: more))) "0") with (Ok (Some edge)) by reflexivity.
  cbn [lift bind].
  rewrite (AdminFacts.get_of_get_opt _ _ _ Hnode). cbn [lift bind].
  rewrite (AdminFacts.supplies_get node) by assumption. cbn [lift bind].
  rewrite Hid. cbn [lift bind].
  rewrite ProgFacts.run_bind, AdminFacts.run_graphqlRequest, Hd2.
  rewrite Herrors, Huser, Hlength.
  assert (Htruthy : json_truthy userErrors = true).
  { destruct userErrors as [| | | s | | |]; try discriminate Hlength; auto.
    destruct s; [ discriminate Hlength | reflexivity ]. }
  cbn. rewrite Htruthy. reflexivity.
Qed.

End WithPlatform.

Import Samples MoreSamples.

Lemma vat_search_failure_witness :
  (run device (handler (H := Reference.platform) vat_env vat_submission)
       (mkDevice [Responded 401 "Unauthorized"] ∅ ∅)).1.1
  = Ok (mkReply 500 (JObj [("error", JStr "Shopify API error 401: Unauthorized")]))
  /\ requests
       (run device (handler (H := Reference.platform) vat_env vat_submission)
            (mkDevice [Responded 401 "Unauthorized"] ∅ ∅)).1.2
     = [VatWire.search (H := Reference.platform) vat_env "jo@example.com"].
Proof.
  apply (vat_search_failure_is_answered_500 (H := Reference.platform)
           vat_env vat_submission vat_body "jo@example.com" device
           (mkDevice [Responded 401 "Unauthorized"] ∅ ∅) 401 "Unauthorized");
    reflexivity.
Defined.

Lemma vat_metafield_user_errors_witness :
  run device (handler (H := Reference.platform) vat_env vat_submission)
      (mkDevice [answer search_data; answer metafields_refused; answer tag_data] ∅ ∅)
  = (Ok (mkReply 500
           (JObj [("error",
                   JStr ("Metafield update failed: "
                         +:+ Reference.stringify metafield_errors))])),
     [ Step (Fetch (VatWire.search (H := Reference.platform) vat_env "jo@example.com"))
            (answer search_data);
       Step (Fetch (VatWire.metafields (H := Reference.platform) vat_env
                      (Some (JStr "gid://shopify/Customer/7001"))
                      (Some (JStr "IE1234567T")) (Some (JStr "Jo Fixings Ltd"))
                      (Some (JStr "Ireland"))))
            (answer metafields_refused) ],
     mkDevice [answer tag_data] ∅ ∅).
Proof.
  refine (vat_metafield_user_errors_stop_before_the_tag (H := Reference.platform)
            vat_env vat_submission vat_body search_data metafields_refused
            customers_found customer_edge customer_node metafield_errors
            "jo@example.com" "gid://shopify/Customer/7001" []
            (answer search_data) (answer metafields_refused) [answer tag_data] ∅ ∅
            _ _ _ _ _ _ _ _ _ _ _ _ _ _ _);
    first [ reflexivity | discriminate ].
Defined.

End VatEdge.

(** ** Runs on a device *)

Module DeviceFacts.

(** A program that never sets the state variable [name] leaves it as it was. *)
Lemma device_spares_state {A : Type} (name : string) (p : Prog A) :
  calls (spares_state name) p ->
  forall d, ui (run device p d).2 !! name = ui d !! name.
Proof.
  induction 1 as [a | e | X ev k Hev Hk IH]; intros d; simpl; auto.
  specialize (IH (device_answer X ev d).1 (device_answer X ev d).2).
  destruct (device_answer X ev d) as [x d1] eqn:Hanswer. cbn [fst snd] in IH.
  destruct (run device (k x) d1) as [[r t] d2]. cbn [snd] in *. rewrite IH.
  destruct ev; cbn in Hanswer, Hev;
    try (injection Hanswer as <- <-; reflexivity).
  - destruct (upstream d); injection Hanswer as <- <-; reflexivity.
  - injection Hanswer as <- <-. cbn. now apply lookup_insert_ne.
  - destruct (native d); injection Hanswer as <- <-; reflexivity.
Qed.

(** A program that never writes the preference [key] leaves it as it was. *)
Lemma device_spares_pref {A : Type} (key : string) (p : Prog A) :
  calls (spares_pref key) p ->
  forall d, prefs (run device p d).2 !! key = prefs d !! key.
Proof.
  induction 1 as [a | e | X ev k Hev Hk IH]; intros d; simpl; auto.
  specialize (IH (device_answer X ev d).1 (device_answer X ev d).2).
  destruct (device_answer X ev d) as [x d1] eqn:Hanswer. cbn [fst snd] in IH.
  destruct (run device (k x) d1) as [[r t] d2]. cbn [snd] in *. rewrite IH.
  destruct ev; cbn in Hanswer, Hev;
    try (injection Hanswer as <- <-; reflexivity).
  - destruct (upstream d); injection Hanswer as <- <-; reflexivity.
  - injection Hanswer as <- <-. cbn. now apply lookup_insert_ne.
  - injection Hanswer as <- <-. cbn. now apply lookup_delete_ne.
  - destruct (native d); injection Hanswer as <- <-; reflexivity.
Qed.

(** A program that writes no preference leaves the store as it was. *)
Lemma device_writes_no_pref {A : Type} (p : Prog A) :
  calls writes_no_pref p ->
  forall d, prefs (run device p d).2 = prefs d.
Proof.
  induction 1 as [a | e | X ev k Hev Hk IH]; intros d; simpl; auto.
  specialize (IH (device_answer X ev d).1 (device_answer X ev d).2).
  destruct (device_answer X ev d) as [x d1] eqn:Hanswer. cbn [fst snd] in IH.
  destruct (run device (k x) d1) as [[r t] d2]. cbn [snd] in *. rewrite IH.
  destruct ev; cbn in Hanswer, Hev; try contradiction;
    try (injection Hanswer as <- <-; reflexivity).
  - destruct (upstream d); injection Hanswer as <- <-; reflexivity.
  - destruct (native d); injection Hanswer as <- <-; reflexivity.
Qed.

End DeviceFacts.

(** ** The cart: reading, creating, and the quantity buttons *)

Module CartFacts.
Import App CartOps.

(** Closes a goal on the requests of a trace put together from pieces. *)
Ltac sent :=
  cbn [fst snd];
  repeat (rewrite ?ProgFacts.requests_app; cbn [requests app]);
  repeat match goal with
         | Hsent : requests _ = _ |- _ => rewrite Hsent
         end;
  rewrite ?app_nil_r; cbn [app]; auto.

Section WithPlatform.
Context `{Platform}.
Variable cartId : string.
Variable cartView : json -> result json.

(** [shopifyStorefront] sends its one request, whatever the answer. *)
Lemma shopifyStorefront_sends (W : World) (w : W_state W) query variables :
  requests (run W (shopifyStorefront query variables) w).1.2
  = [storefront_request query variables].
Proof.
  unfold shopifyStorefront, mbind, Prog_bind. cbn [fetch bind run].
  destruct (W_answer W _ _ w) as [[status text | e] w1]; cbn [bind run fst snd].
  - destruct (negb (status_ok status)); [ reflexivity | ].
    destruct (truthy _); [ reflexivity | ].
    destruct (get _ _); reflexivity.
  - reflexivity.
Qed.

(** [fetchCart] sends one request, the reading of the cart, whether it
    returns or throws. *)
Lemma fetchCart_sends (W : World) (w : W_state W) (id : json) :
  requests (run W (fetchCart cartView id) w).1.2 = [cart_request id].
Proof.
  unfold fetchCart, setError, setState, call, mbind, Prog_bind.
  cbn [bind run].
  destruct (W_answer W _ (SetState "loadingCart" (Some (JBool true))) w) as [[] w1].
  destruct (W_answer W _ (SetState "error" (Some (JStr ""))) w1) as [[] w2].
  rewrite ProgFacts.run_try_finally, ProgFacts.run_bind.
  pose proof (shopifyStorefront_sends W w2 cart_query (JObj [("id", id)])) as Hsent.
  destruct (run W (shopifyStorefront cart_query (JObj [("id", id)])) w2)
    as [[[data | e] t] w3]; cbn [fst snd] in Hsent.
  - destruct (negb (truthy _)).
    + cbn [run]. destruct (W_answer W _ _ w3) as [[] w4].
      sent.
    + destruct (cartView _) as [view | e]; cbn [lift bind run].
      * destruct (W_answer W _ _ w3) as [[] w4]. cbn [run].
        destruct (W_answer W _ _ w4) as [[] w5].
        sent.
      * destruct (W_answer W _ _ w3) as [[] w4].
        sent.
  - cbn [run]. destruct (W_answer W _ _ w3) as [[] w4].
    sent.
Qed.

(** [createCart] sends one request, and what it returns is a truthy id. *)
Lemma createCart_sends (W : World) (w : W_state W) :
  requests (run W createCart w).1.2 = [cartCreate_request]
  /\ returns_only (fun id => json_truthy id = true) (run W createCart w).1.1.
Proof.
  unfold createCart, mbind, Prog_bind. rewrite ProgFacts.run_bind.
  pose proof (shopifyStorefront_sends W w cartCreate_query (JObj [("input", JObj [])]))
    as Hsent.
  destruct (run W (shopifyStorefront cartCreate_query (JObj [("input", JObj [])])) w)
    as [[[data | e] t] w1]; cbn [fst snd] in Hsent.
  - destruct (truthy (get_opt (get_opt (get_opt (get_opt data "cartCreate")
                                          "userErrors") "0") "message")).
    + cbn. rewrite app_nil_r. auto.
    + destruct (get_opt (get_opt (get_opt data "cartCreate") "cart") "id")
        as [id |] eqn:Hid; cbn.
      * destruct (json_truthy id) eqn:Htruthy; cbn; rewrite app_nil_r; auto.
      * rewrite app_nil_r. auto.
  - cbn. auto.
Qed.

(** Creating and reading a fresh cart: two requests when it returns. *)
Lemma freshCart_sends (W : World) (w : W_state W) :
  match run W (freshCart cartView) w with
  | (Ok id, t, _) =>
      json_truthy id = true /\ requests t = [cartCreate_request; cart_request id]
  | (Throw _, _, _) => True
  end.
Proof.
  unfold freshCart, mbind, Prog_bind. rewrite ProgFacts.run_bind.
  destruct (createCart_sends W w) as [Hsent Hid].
  destruct (run W createCart w) as [[[newId | e] t] w1]; cbn [fst snd] in *; auto.
  unfold setState at 1. unfold call. cbn [bind run].
  destruct (W_answer W _ (SetState "cartId" (Some newId)) w1) as [[] w2].
  rewrite ProgFacts.run_bind.
  pose proof (fetchCart_sends W w2 newId) as Hread.
  destruct (run W (fetchCart cartView newId) w2) as [[[[] | e] t2] w3];
    cbn [fst snd] in *; auto.
  split; [ exact Hid | sent ].
Qed.

(** [ensureCartId] returns a cart it has just read. When it returns, its
    result is a truthy id, and the requests it made are one of three
    sequences: the reading of the saved cart, which is then the result; the
    creation of a cart and its reading, when no cart was saved; or the
    reading of the saved cart (which failed), the creation of a cart and its
    reading. In the last two the result is the id of the cart created. *)
Theorem ensureCartId_returns_the_cart_it_read
    (W : World) (w : W_state W) (id : json) (t : list step) (w' : W_state W) :
  run W (ensureCartId cartId cartView) w = (Ok id, t, w') ->
  json_truthy id = true
  /\ (id = JStr cartId /\ requests t = [cart_request id]
      \/ cartId = "" /\ requests t = [cartCreate_request; cart_request id]
      \/ requests t = [cart_request (JStr cartId); cartCreate_request; cart_request id]).
Proof.
  unfold ensureCartId. destruct (str_truthy cartId) eqn:Hsaved.
  - rewrite ProgFacts.run_try_catch. unfold mbind, Prog_bind.
    rewrite ProgFacts.run_bind.
    pose proof (fetchCart_sends W w (JStr cartId)) as Hread.
    destruct (run W (fetchCart cartView (JStr cartId)) w) as [[[[] | e] t1] w1];
      cbn [fst snd] in Hread.
    + cbn. intros [= <- <- <-]. split; [ exact Hsaved | ].
      left. split; [ reflexivity | sent ].
    + pose proof (freshCart_sends W w1) as Hfresh.
      destruct (run W (freshCart cartView) w1) as [[[newId | e'] t2] w2];
        intros [= <- <- <-].
      destruct Hfresh as [Htruthy Hsent]. split; [ exact Htruthy | ].
      right. right. sent.
  - pose proof (freshCart_sends W w) as Hfresh.
    intros Hrun. rewrite Hrun in Hfresh. destruct Hfresh as [Htruthy Hsent].
    split; [ exact Htruthy | ].
    right. left. split; [ | exact Hsent ].
    unfold str_truthy in Hsaved. apply negb_false_iff, String.eqb_eq in Hsaved.
    exact Hsaved.
Qed.

(** C6, amended: when the saved cart cannot be read, [ensureCartId] drops
    the error and goes on: it asks for a cart to be created, with one
    request. When that throws, it throws the same. Otherwise the id created
    is truthy, it is stored as [cartId], the cart under it is read with one
    request, and the result is the new id, or what the reading throws; the
    error of the saved cart is not seen again. The trace is the failed
    reading, the creation, the storing and the reading, in that order. *)
Theorem ensureCartId_recovers_with_fresh_cart
    (W : World) (w : W_state W) (e : JsError) (t : list step) (w1 : W_state W) :
  str_truthy cartId = true ->
  run W (fetchCart cartView (JStr cartId)) w = (Throw e, t, w1) ->
  let created := run W createCart w1 in
  requests created.1.2 = [cartCreate_request]
  /\ match created.1.1 with
     | Throw failure =>
         run W (ensureCartId cartId cartView) w
         = (Throw failure, (t ++ created.1.2)%list, created.2)
     | Ok newId =>
         let stored := (W_answer W _ (SetState "cartId" (Some newId)) created.2).2 in
         let read := run W (fetchCart cartView newId) stored in
         json_truthy newId = true
         /\ requests read.1.2 = [cart_request newId]
         /\ run W (ensureCartId cartId cartView) w
            = (match read.1.1 with
               | Ok _ => Ok newId
               | Throw failure => Throw failure
               end,
               (t ++ created.1.2
                  ++ Step (SetState "cartId" (Some newId)) tt :: read.1.2)%list,
               read.2)
         /\ requests (run W (ensureCartId cartId cartView) w).1.2
            = [cart_request (JStr cartId); cartCreate_request; cart_request newId]
     end.
Proof.
  intros Hsaved Hfails created.
  pose proof (fetchCart_sends W w (JStr cartId)) as Hfirst.
  rewrite Hfails in Hfirst. cbn [fst snd] in Hfirst.
  destruct (createCart_sends W w1) as [Hsent Hid]. fold created in Hsent, Hid.
  split; [ exact Hsent | ].
  assert (Hrun : run W (ensureCartId cartId cartView) w
                 = (let '(r, t', w2) := run W (freshCart cartView) w1 in
                    (r, (t ++ t')%list, w2))).
  { unfold ensureCartId. rewrite Hsaved.
    rewrite ProgFacts.run_try_catch. unfold mbind, Prog_bind.
    rewrite ProgFacts.run_bind, Hfails. reflexivity. }
  rewrite Hrun. unfold freshCart, mbind, Prog_bind. rewrite ProgFacts.run_bind.
  fold created. destruct created as [[[newId | failure] t1] w2]; cbn [fst snd] in *.
  - unfold setState, call. cbn [bind run].
    destruct (W_answer W _ (SetState "cartId" (Some newId)) w2) as [[] w3].
    cbn [snd]. rewrite !ProgFacts.run_bind.
    pose proof (fetchCart_sends W w3 newId) as Hread.
    destruct (run W (fetchCart cartView newId) w3) as [[[[] | failure] t2] w4];
      cbn [fst snd run] in *; rewrite ?app_nil_r;
      (split; [ exact Hid | split; [ exact Hread | split; [ reflexivity | sent ] ] ]).
  - reflexivity.
Qed.

(** On a device, [fetchCart] clears the error and, whether it returns or
    throws, leaves [loadingCart] false; it sends one request, the reading of
    the cart, and touches no preference. *)
Theorem fetchCart_always_clears_the_loading_flag (id : json) (d : Device) :
  ui (run device (fetchCart cartView id) d).2 !! "loadingCart" = Some (Some (JBool false))
  /\ ui (run device (fetchCart cartView id) d).2 !! "error" = Some (Some (JStr ""))
  /\ prefs (run device (fetchCart cartView id) d).2 = prefs d
  /\ requests (run device (fetchCart cartView id) d).1.2 = [cart_request id].
Proof.
  split; [ | split; [ | split; [ | apply fetchCart_sends ] ] ].
  - unfold fetchCart, setError, setState, call, mbind, Prog_bind.
    cbn [bind run device W_answer device_answer].
    rewrite ProgFacts.run_try_finally.
    match goal with
    | |- context [run device ?p ?d2] => destruct (run device p d2) as [[r t] d3]
    end.
    cbn. apply lookup_insert_eq.
  - unfold fetchCart, mbind, Prog_bind.
    unfold setState at 1. unfold setError, setState at 1. unfold call.
    cbn [bind run device W_answer device_answer].
    match goal with
    | |- context [run device ?p ?d2] =>
        pose proof (DeviceFacts.device_spares_state "error" p) as Hkeep;
        specialize (Hkeep ltac:(unfold shopifyStorefront, setState;
                                repeat first [ calls_step | progress (simpl; auto) ];
                                discriminate) d2);
        destruct (run device p d2) as [[r t] d3]
    end.
    cbn in Hkeep |- *. refine (eq_trans Hkeep _). apply lookup_insert_eq.
  - apply DeviceFacts.device_writes_no_pref.
    unfold fetchCart, shopifyStorefront, setError, setState.
    repeat first [ calls_step | progress (simpl; auto) ].
Qed.

Section Upkeep.
Variable Q : Request -> Prop.
Hypothesis upkeep : forall r, cart_upkeep r -> Q r.

Lemma fetchCart_upkeep (id : json) :
  calls (requests_satisfy Q) (fetchCart cartView id).
Proof.
  unfold fetchCart, setError, setState.
  repeat first
    [ apply AppFacts.shopifyStorefront_calls; apply upkeep; left; eexists; reflexivity
    | calls_step
    | progress (simpl; auto) ].
Qed.

Lemma ensureCartId_upkeep :
  calls (requests_satisfy Q) (ensureCartId cartId cartView).
Proof.
  unfold ensureCartId, freshCart, createCart, setState.
  repeat first
    [ apply fetchCart_upkeep
    | apply AppFacts.shopifyStorefront_calls; apply upkeep; right; reflexivity
    | calls_step
    | progress (simpl; auto) ].
Qed.



End Upkeep.



(** What [ensureCartId] returns is a truthy id. *)
Lemma ensureCartId_truthy (W : World) (w : W_state W) :
  returns_only (fun id => json_truthy id = true) (run W (ensureCartId cartId cartView) w).1.1.
Proof.
  apply OutcomeFacts.outcomes_run.
  unfold ensureCartId, freshCart.
  assert (Hcreate : outcomes (returns_only (fun id => json_truthy id = true)) createCart).
  { unfold createCart.
    apply OutcomeFacts.outcomes_bind. apply OutcomeFacts.outcomes_any. intros [data | e]; cbn; auto.
    destruct (truthy _); [ constructor; cbn; auto | ].
    destruct (get_opt (get_opt (get_opt data "cartCreate") "cart") "id") as [id |];
      cbn; [ | constructor; cbn; auto ].
    destruct (json_truthy id) eqn:Htruthy; cbn; constructor; cbn; auto. }
  assert (Hfresh : outcomes (returns_only (fun id => json_truthy id = true))
                     (newId ← createCart; setState "cartId" newId;; fetchCart cartView newId;; Ret newId)).
  { unfold mbind, Prog_bind. apply OutcomeFacts.outcomes_bind.
    eapply OutcomeFacts.outcomes_weaken; [ | exact Hcreate ].
    intros [id | e]; cbv beta iota delta [returns_only]; auto. intros Htruthy.
    apply OutcomeFacts.outcomes_bind. unfold setState.
    apply OutcomeFacts.outcomes_call. intros [].
    apply OutcomeFacts.outcomes_bind. apply OutcomeFacts.outcomes_any.
    intros [[] | e]; cbv beta iota delta [returns_only]; auto.
    constructor. exact Htruthy. }
  destruct (str_truthy cartId) eqn:Hsaved; [ | exact Hfresh ].
  apply OutcomeFacts.outcomes_try_catch. unfold mbind, Prog_bind.
  apply OutcomeFacts.outcomes_bind. apply OutcomeFacts.outcomes_any.
  intros [[] | e]; cbv beta iota; [ constructor; exact Hsaved | exact Hfresh ].
Qed.

(** The requests of [ensureCartId] create and read carts. *)
Lemma ensureCartId_sends_upkeep (W : World) (w : W_state W) :
  Forall cart_upkeep (requests (run W (ensureCartId cartId cartView) w).1.2).
Proof.
  eapply ProgFacts.requests_traces; [ | apply ProgFacts.run_traces ].
  apply ensureCartId_upkeep. auto.
Qed.

(** The common shape of the three mutations of the cart's lines. *)
Lemma mutation_then_reading (W : World) (w : W_state W)
    (query : string) (variables : json -> json) (payload : string) :
  match run W (id ← ensureCartId cartId cartView;
               data ← shopifyStorefront query (variables id);
               let err :=
                 get_opt (get_opt (get_opt (get_opt data payload) "userErrors") "0")
                   "message" in
               if truthy err then Fail (Error_of err)
               else fetchCart cartView id) w with
  | (Ok _, t, _) =>
      exists (id : json) (before : list Request),
        json_truthy id = true
        /\ Forall cart_upkeep before
        /\ requests t
           = (before ++ [storefront_request query (variables id); cart_request id])%list
  | (Throw _, _, _) => True
  end.
Proof.
  unfold mbind, Prog_bind. rewrite ProgFacts.run_bind.
  pose proof (ensureCartId_truthy W w) as Htruthy.
  pose proof (ensureCartId_sends_upkeep W w) as Hupkeep.
  destruct (run W (ensureCartId cartId cartView) w) as [[[id | e] t1] w1];
    cbn [fst snd returns_only] in *; auto.
  rewrite ProgFacts.run_bind.
  pose proof (shopifyStorefront_sends W w1 query (variables id)) as Hsent.
  destruct (run W (shopifyStorefront query (variables id)) w1) as [[[data | e] t2] w2];
    cbn [fst snd] in *; auto.
  destruct (truthy _); [ cbn; auto | ].
  pose proof (fetchCart_sends W w2 id) as Hread.
  destruct (run W (fetchCart cartView id) w2) as [[[[] | e] t3] w3];
    cbn [fst snd] in *; auto.
  exists id, (requests t1). repeat split; auto. sent.
Qed.

(** Adding, updating and removing a line of the cart. When one of them
    returns, the requests it made end with its mutation, sent for a truthy
    cart id, followed by the reading of that same cart; everything before
    creates or reads a cart. A mutation is thus never sent without a cart, and
    a success always shows the cart as Shopify has it after the mutation. *)
Theorem cart_mutations_end_with_a_reading_of_the_cart
    (variantId quantity lineId : jsval) (W : World) (w : W_state W) :
  match run W (cartAddLine cartId cartView variantId quantity) w with
  | (Ok _, t, _) =>
      exists (id : json) (before : list Request),
        json_truthy id = true /\ Forall cart_upkeep before
        /\ requests t
           = (before ++ [ cartLineAdd_request id variantId
                            (match quantity with
                             | None => Some (JNum 1)
                             | Some _ => quantity
                             end);
                          cart_request id ])%list
  | (Throw _, _, _) => True
  end
  /\ match run W (cartUpdateLine cartId cartView lineId quantity) w with
     | (Ok _, t, _) =>
         exists (id : json) (before : list Request),
           json_truthy id = true /\ Forall cart_upkeep before
           /\ requests t
              = (before ++ [ storefront_request cartLinesUpdate_query
                               (JObj [ ("cartId", id);
                                       ("lines", JArr [object [("id", lineId);
                                                               ("quantity", quantity)]]) ]);
                             cart_request id ])%list
     | (Throw _, _, _) => True
     end
  /\ match run W (cartRemoveLine cartId cartView lineId) w with
     | (Ok _, t, _) =>
         exists (id : json) (before : list Request),
           json_truthy id = true /\ Forall cart_upkeep before
           /\ requests t
              = (before ++ [cartLinesRemove_request id lineId; cart_request id])%list
     | (Throw _, _, _) => True
     end.
Proof.
  split; [ | split ].
  - exact (mutation_then_reading W w cartLinesAdd_query
             (fun id => JObj [ ("cartId", id);
                               ("lines", JArr [object [("merchandiseId", variantId);
                                                       ("quantity",
                                                        match quantity with
                                                        | None => Some (JNum 1)
                                                        | Some _ => quantity
                                                        end)]]) ])
             "cartLinesAdd").
  - exact (mutation_then_reading W w cartLinesUpdate_query
             (fun id => JObj [ ("cartId", id);
                               ("lines", JArr [object [("id", lineId);
                                                       ("quantity", quantity)]]) ])
             "cartLinesUpdate").
  - exact (mutation_then_reading W w cartLinesRemove_query
             (fun id => JObj [ ("cartId", id); ("lineIds", JArr [element lineId]) ])
             "cartLinesRemove").
Qed.

End WithPlatform.

Import Samples.

(** The saved cart cannot be fetched (the network is down), then the network
    is back: [ensureCartId] does not throw, it returns a fresh cart. *)
Lemma ensureCartId_swallows_fetch_error :
  run device (fetchCart (H := Reference.platform) sample_view (JStr old_cart))
      (mkDevice [network_down; cart_created; cart_read] ∅ ∅)
  = (Throw (TypeError "Failed to fetch"),
     [ Step (SetState "loadingCart" (Some (JBool true))) tt;
       Step (SetState "error" (Some (JStr ""))) tt;
       Step (Fetch (cart_request (H := Reference.platform) (JStr old_cart))) network_down;
       Step (SetState "loadingCart" (Some (JBool false))) tt ],
     mkDevice [cart_created; cart_read] ∅
       (<["loadingCart" := Some (JBool false)]>
          (<["error" := Some (JStr "")]> (<["loadingCart" := Some (JBool true)]> ∅))))
  /\ (run device (ensureCartId (H := Reference.platform) old_cart sample_view)
          (mkDevice [network_down; cart_created; cart_read] ∅ ∅)).1.1
     = Ok new_cart
  /\ requests
       (run device (ensureCartId (H := Reference.platform) old_cart sample_view)
            (mkDevice [network_down; cart_created; cart_read] ∅ ∅)).1.2
     = [ cart_request (H := Reference.platform) (JStr old_cart);
         cartCreate_request (H := Reference.platform);
         cart_request (H := Reference.platform) new_cart ].
Proof.
  repeat split.
Qed.

(** The same run, step by step: the creation answers with the new cart. *)
Lemma ensureCartId_recovers_witness :
  let after_failure :=
    mkDevice [cart_created; cart_read] ∅
      (<["loadingCart" := Some (JBool false)]>
         (<["error" := Some (JStr "")]> (<["loadingCart" := Some (JBool true)]> ∅))) in
  let created := run device (createCart (H := Reference.platform)) after_failure in
  requests created.1.2 = [cartCreate_request (H := Reference.platform)]
  /\ created.1.1 = Ok new_cart
  /\ (run device (ensureCartId (H := Reference.platform) old_cart sample_view)
          (mkDevice [network_down; cart_created; cart_read] ∅ ∅)).1.1
     = Ok new_cart.
Proof.
  intros after_failure created.
  pose proof (ensureCartId_recovers_with_fresh_cart (H := Reference.platform)
                old_cart sample_view device
                (mkDevice [network_down; cart_created; cart_read] ∅ ∅)
                (TypeError "Failed to fetch")
                [ Step (SetState "loadingCart" (Some (JBool true))) tt;
                  Step (SetState "error" (Some (JStr ""))) tt;
                  Step (Fetch (cart_request (H := Reference.platform) (JStr old_cart)))
                       network_down;
                  Step (SetState "loadingCart" (Some (JBool false))) tt ]
                after_failure eq_refl eq_refl) as [Hsent _].
  split; [ exact Hsent | ].
  split; vm_compute; reflexivity.
Defined.

(** The saved cart has expired: a fresh one is created, read and returned. *)
Lemma ensureCartId_returns_witness :
  json_truthy new_cart = true
  /\ (new_cart = JStr old_cart
      /\ requests
           (run device (ensureCartId (H := Reference.platform) old_cart sample_view)
                (mkDevice [network_down; cart_created; cart_read] ∅ ∅)).1.2
         = [cart_request (H := Reference.platform) new_cart]
      \/ old_cart = ""
         /\ requests
              (run device (ensureCartId (H := Reference.platform) old_cart sample_view)
                   (mkDevice [network_down; cart_created; cart_read] ∅ ∅)).1.2
            = [ cartCreate_request (H := Reference.platform);
                cart_request (H := Reference.platform) new_cart ]
      \/ requests
           (run device (ensureCartId (H := Reference.platform) old_cart sample_view)
                (mkDevice [network_down; cart_created; cart_read] ∅ ∅)).1.2
         = [ cart_request (H := Reference.platform) (JStr old_cart);
             cartCreate_request (H := Reference.platform);
             cart_request (H := Reference.platform) new_cart ]).
Proof.
  apply (ensureCartId_returns_the_cart_it_read (H := Reference.platform)
           old_cart sample_view device
           (mkDevice [network_down; cart_created; cart_read] ∅ ∅) new_cart
           (run device (ensureCartId (H := Reference.platform) old_cart sample_view)
                (mkDevice [network_down; cart_created; cart_read] ∅ ∅)).1.2
           (run device (ensureCartId (H := Reference.platform) old_cart sample_view)
                (mkDevice [network_down; cart_created; cart_read] ∅ ∅)).2).
  vm_compute. reflexivity.
Defined.

End CartFacts.

(** ** Tokens: decoding, random strings and the login callback *)

Module TokenFacts.
Import App Session Token.

(** *** Decoding what was encoded *)

Lemma append_cons (c : ascii) (s t : string) : String c s +:+ t = String c (s +:+ t).
Proof.
  reflexivity.
Qed.

Lemma append_nil (t : string) : "" +:+ t = t.
Proof.
  reflexivity.
Qed.

(** The padding [base64UrlDecode] adds depends on the length modulo 4. *)
Lemma pad_four (n : nat) :
  ((4 - (4 + n) mod 4) mod 4 = (4 - n mod 4) mod 4)%nat.
Proof.
  replace (4 + n)%nat with (n + 1 * 4)%nat by lia.
  rewrite Nat.Div0.mod_add. reflexivity.
Qed.

(** Digit by digit, the replacements of [base64UrlDecode] turn the URL-safe
    alphabet back into the base64 alphabet. *)
Lemma digit_from_url (n : nat) :
  (n < 64)%nat ->
  (let c := digit_in base64url_alphabet n in
   let c := if Ascii.eqb c "-" then "+"%char else c in
   if Ascii.eqb c "_" then "/"%char else c)
  = digit_in base64_alphabet n.
Proof.
  intros Hn.
  do 64 (destruct n as [| n]; [ reflexivity | ]).
  lia.
Qed.

Lemma from_url_digit (n : nat) (s : string) :
  (n < 64)%nat ->
  replace_all "_" "/" (replace_all "-" "+" (String (digit_in base64url_alphabet n) s))
  = String (digit_in base64_alphabet n) (replace_all "_" "/" (replace_all "-" "+" s)).
Proof.
  intros Hn. rewrite !SessionFacts.replace_all_cons.
  f_equal. exact (digit_from_url n Hn).
Qed.

(** Padded and with its two replacements undone, the base64url encoding
    without padding is the text [btoa] gives for the same octets. *)
Lemma padded_is_btoa (octets : list Byte.byte) :
  let str := base64url_nopad octets in
  replace_all "_" "/"
    (replace_all "-" "+"
       (str +:+ repeat_char "=" ((4 - String.length str mod 4) mod 4)%nat))
  = btoa (binary_string octets).
Proof.
  remember (length octets) as n eqn:Hlen.
  revert octets Hlen.
  induction n as [n IH] using lt_wf_ind. intros octets Hlen.
  destruct octets as [| a [| b [| c rest]]].
  - reflexivity.
  - destruct (SessionFacts.sextets_bounded _ 0 0 (SessionFacts.code_bounded a))
      as (H1 & H2 & _); [ lia | lia | ].
    rewrite !SessionFacts.binary_string_cons, ?SessionFacts.binary_string_nil.
    cbn [btoa base64url_nopad String.length Nat.modulo Nat.divmod
           Nat.sub fst snd repeat_char].
    rewrite !append_cons, append_nil.
    rewrite SessionFacts.code_of_char, !from_url_digit by assumption. reflexivity.
  - destruct (SessionFacts.sextets_bounded _ _ 0 (SessionFacts.code_bounded a)
                (SessionFacts.code_bounded b)) as (H1 & H2 & H3 & _); [ lia | ].
    rewrite !SessionFacts.binary_string_cons, ?SessionFacts.binary_string_nil.
    cbn [btoa base64url_nopad String.length Nat.modulo Nat.divmod
           Nat.sub fst snd repeat_char].
    rewrite !append_cons, append_nil.
    rewrite !SessionFacts.code_of_char, !from_url_digit by assumption. reflexivity.
  - destruct (SessionFacts.sextets_bounded _ _ _ (SessionFacts.code_bounded a)
                (SessionFacts.code_bounded b) (SessionFacts.code_bounded c))
      as (H1 & H2 & H3 & H4).
    rewrite !SessionFacts.binary_string_cons, ?SessionFacts.binary_string_nil.
    cbn [btoa base64url_nopad].
    cbv zeta.
    change (String.length (String ?c1 (String ?c2 (String ?c3 (String ?c4 ?s)))))
      with (4 + String.length s)%nat.
    rewrite pad_four, !append_cons.
    rewrite !SessionFacts.code_of_char, !from_url_digit by assumption.
    do 4 f_equal. apply (IH (length rest)); [ simpl in Hlen; lia | reflexivity ].
Qed.

(** A segment without dots, followed by a dot, is the first segment. *)
Lemma split_first (segment rest : string) :
  lacks "." segment = true ->
  split "." (segment +:+ String "." rest) = segment :: split "." rest.
Proof.
  induction segment as [| c segment IH]; intros Hfree.
  - reflexivity.
  - cbn [lacks] in Hfree. apply andb_true_iff in Hfree as [Hc Hfree].
    rewrite append_cons. cbn [split].
    apply negb_true_iff in Hc. rewrite Hc, (IH Hfree). reflexivity.
Qed.

(** No digit of the URL-safe alphabet is a dot, nor is the padding. *)
Lemma url_digit_is_no_dot (n : nat) : digit_in base64url_alphabet n <> "."%char.
Proof.
  do 64 (destruct n as [| n]; [ discriminate | ]).
  discriminate.
Qed.

Lemma base64url_lacks_dot (octets : list Byte.byte) :
  lacks "." (base64url_nopad octets) = true.
Proof.
  remember (length octets) as n eqn:Hlen.
  revert octets Hlen.
  induction n as [n IH] using lt_wf_ind. intros octets Hlen.
  assert (Hdigit : forall k, negb (Ascii.eqb (digit_in base64url_alphabet k) ".") = true).
  { intros k. apply negb_true_iff, Ascii.eqb_neq, url_digit_is_no_dot. }
  destruct octets as [| a [| b [| c rest]]]; cbn [base64url_nopad lacks];
    rewrite ?Hdigit; cbn [andb]; auto.
  apply (IH (length rest)); [ simpl in Hlen; lia | reflexivity ].
Qed.

Section WithPlatform.
Context `{Platform} `{WebApi}.

(** [base64UrlDecode] undoes the encoding of [sha256Base64Url]: given the
    base64url text without padding of some octets, it pads it, undoes the
    two replacements and hands [atob] exactly the text [btoa] gives for
    these octets; what it returns is that decoding, read as UTF-8 when it is
    UTF-8 and left as it is otherwise. *)
Theorem base64UrlDecode_undoes_the_url_safe_encoding (octets : list Byte.byte) :
  base64UrlDecode (base64url_nopad octets)
  = match atob (btoa (binary_string octets)) with
    | Throw e => Throw e
    | Ok decoded =>
        match decodeURIComponent (percent_encode_all decoded) with
        | Ok text => Ok text
        | Throw _ => Ok decoded
        end
    end.
Proof.
  unfold base64UrlDecode. cbv zeta.
  rewrite (padded_is_btoa octets). reflexivity.
Qed.

(** [decodeJwt] reads the second segment of a token and nothing else: for
    a token of three segments it is the decoding of the payload, parsed as
    JSON ([null] when it is not JSON); an error of [atob] on the payload
    escapes; the header and the signature have no part in the result, which
    is the same under any other header and signature. *)
Theorem decodeJwt_reads_the_payload_only
    (header payload signature header' signature' : string) :
  lacks "." header = true ->
  lacks "." header' = true ->
  lacks "." payload = true ->
  decodeJwt (Some (JStr (jwt_of header payload signature)))
  = match base64UrlDecode payload with
    | Throw e => Throw e
    | Ok text => Ok (safeJsonParse text)
    end
  /\ decodeJwt (Some (JStr (jwt_of header payload signature)))
     = decodeJwt (Some (JStr (jwt_of header' payload signature'))).
Proof.
  intros Hheader Hheader' Hpayload.
  assert (Hdecode : forall h s,
            lacks "." h = true ->
            decodeJwt (Some (JStr (jwt_of h payload s)))
            = match base64UrlDecode payload with
              | Throw e => Throw e
              | Ok text => Ok (safeJsonParse text)
              end).
  { intros h s Hh. unfold decodeJwt, jwt_of.
    change ("." +:+ payload +:+ "." +:+ s) with (String "." (payload +:+ String "." s)).
    rewrite (split_first h _ Hh), (split_first payload _ Hpayload).
    assert (Htruthy : str_truthy (h +:+ String "." (payload +:+ String "." s)) = true)
      by (destruct h; reflexivity).
    rewrite Htruthy. cbn [negb].
    replace (length (h :: payload :: split "." s) <? 2)%nat with false
      by (symmetry; apply Nat.ltb_ge; simpl; lia).
    reflexivity. }
  split; [ apply Hdecode; assumption | ].
  rewrite !Hdecode by assumption. reflexivity.
Qed.

(** *** Random strings *)

Lemma digit36_is_a_digit (n : nat) : (n < 36)%nat -> In (digit36 n) base36_digits.
Proof.
  intros Hn. unfold base36_digits. cbn [list_ascii_of_string].
  do 36 (destruct n as [| n]; [ cbn; auto 40 | ]).
  lia.
Qed.

(** On a device, [randomString(len)] returns a string of exactly [len]
    characters, each a digit of base 36 (a decimal digit or a lower-case
    letter), whatever the random source holds. *)
Theorem randomString_length_and_alphabet (len : nat) (d : Device) :
  exists s : string,
    (run device (randomString len) d).1.1 = Ok s
    /\ String.length s = len
    /\ Forall (fun c => In c base36_digits) (list_ascii_of_string s).
Proof.
  unfold randomString, mbind, Prog_bind, call.
  cbn [bind run device W_answer device_answer fst snd].
  set (octets := firstn len (entropy d ++ repeat Byte.x00 len)).
  exists (base36 octets). split; [ reflexivity | ].
  assert (Hlen : length octets = len).
  { unfold octets. rewrite List.length_firstn, List.length_app, List.repeat_length. lia. }
  clearbody octets. subst len. unfold base36. clear d.
  induction octets as [| b octets IH]; cbn [map string_of_list_ascii String.length
                                             list_ascii_of_string length].
  - split; [ reflexivity | constructor ].
  - destruct IH as [IHlen IHall]. split; [ now rewrite IHlen | ].
    constructor; [ | exact IHall ].
    apply digit36_is_a_digit, Nat.mod_upper_bound. lia.
Qed.

(** *** Discovery and the token endpoint *)

Section Http.
Variable isNative : bool.

(** [fetchJson] returns truthy JSON or throws: a value it returns is never
    [null], [false], [0] or the empty string. On the web it takes the body
    of the answer whatever its status: a body that parses to a truthy value
    is returned, any other makes it throw
    [Invalid JSON from discovery endpoint]. *)
Theorem fetchJson_returns_truthy_json_or_throws
    (url : string) (W : World) (w : W_state W) :
  returns_only (fun j => json_truthy j = true) (run W (fetchJson isNative url) w).1.1
  /\ (isNative = false ->
      forall status text,
        (W_answer W _ (Fetch {| url := url; method := "GET";
                                req_headers := []; req_body := "" |}) w).1
        = Responded status text ->
        (run W (fetchJson isNative url) w).1.1
        = if json_truthy (safeJsonParse text) then Ok (safeJsonParse text)
          else Throw (Error "Invalid JSON from discovery endpoint")).
Proof.
  split.
  - apply OutcomeFacts.outcomes_run. unfold fetchJson.
    apply OutcomeFacts.outcomes_bind. apply OutcomeFacts.outcomes_any.
    intros [text | e]; cbv beta iota; [ | exact I ].
    destruct (json_truthy (safeJsonParse text)) eqn:Htruthy; cbn [negb];
      constructor; cbn; auto.
  - intros -> status text Hanswer.
    unfold fetchJson, httpGetText, mbind, Prog_bind. cbn [fetch bind run].
    destruct (W_answer W _ _ w) as [fr w1]. cbn [fst] in Hanswer. subst fr.
    cbn [bind run]. destruct (json_truthy (safeJsonParse text)); reflexivity.
Qed.

End Http.


(** *** The login callback *)

Section Callback.
Variable isNative : bool.
Variable oidc : jsval.
Variable loadCustomerProfile : jsval -> Prog unit.

(** A callback whose [state] is not the one of the login under way is
    refused before anything else happens: [handleOAuthCallback] reads the
    record of the login, throws [State mismatch (possible stale login)], and
    has made no request, written nothing and set nothing. *)
Theorem callback_with_a_foreign_state_is_refused
    (code : jsval) (state : string) (value verifier login_state nonce : string)
    (created_at : Z) (W : World) (w : W_state W) :
  (W_answer W _ (PrefGet K.PKCE) w).1 = Some value ->
  str_truthy value = true ->
  JSON_parse value = Ok (pkce_record verifier login_state nonce created_at) ->
  verifier <> "" ->
  login_state <> "" ->
  state <> "" ->
  state <> login_state ->
  run W (handleOAuthCallback isNative oidc loadCustomerProfile code (Some (JStr state))) w
  = (Throw (Error "State mismatch (possible stale login)"),
     [Step (PrefGet K.PKCE) (Some value)],
     (W_answer W _ (PrefGet K.PKCE) w).2).
Proof.
  intros Hstored Htruthy Hparse Hverifier Hlogin Hstate Hforeign.
  unfold handleOAuthCallback, mbind, Prog_bind. rewrite ProgFacts.run_bind.
  unfold read_verifier, mbind, Prog_bind, call. cbn [bind run].
  destruct (W_answer W _ (PrefGet K.PKCE) w) as [stored w1].
  cbn [fst snd] in *. subst stored. rewrite Htruthy.
  unfold safeJsonParse. rewrite Hparse.
  cbn [pkce_record get_opt member assoc String.eqb Ascii.eqb Bool.eqb truthy
         json_truthy strict_eq].
  apply String.eqb_neq in Hverifier, Hlogin, Hstate.
  rewrite Hverifier, Hlogin, Hstate. cbn [negb andb].
  replace (String.eqb login_state state) with false
    by (symmetry; apply String.eqb_neq; congruence).
  reflexivity.
Qed.

(** The calls of a program that touches neither the record of the login,
    nor the stored session, nor the [auth] state. *)
Lemma spares_session_calls {A : Type} (p : Prog A) :
  calls (fun X ev => spares_pref K.PKCE X ev /\ spares_pref K.AUTH X ev
                     /\ spares_state "auth" X ev) p ->
  calls (spares_pref K.PKCE) p /\ calls (spares_pref K.AUTH) p
  /\ calls (spares_state "auth") p.
Proof.
  intros Hp. repeat split; (eapply ProgFacts.calls_weaken; [ | exact Hp ]);
    cbv beta; tauto.
Qed.

(** On a device, provided the loading of the profile leaves them alone,
    when [handleOAuthCallback] returns the store holds no record of a login
    any more, it holds under the session key the JSON text of the session,
    the [auth] state is that session, and its access token is truthy. A
    second callback is then refused with
    [Missing PKCE verifier (login session expired)], before any request. *)
Lemma callback_stores_the_session
    (code state : jsval) (d d' : Device) (t : list step) :
  (forall a, calls (fun X ev => spares_pref K.PKCE X ev /\ spares_pref K.AUTH X ev
                                /\ spares_state "auth" X ev)
               (loadCustomerProfile a)) ->
  run device (handleOAuthCallback isNative oidc loadCustomerProfile code state) d
  = (Ok tt, t, d') ->
  prefs d' !! K.PKCE = None
  /\ (exists authObj : json,
        prefs d' !! K.AUTH = Some (JSON_stringify authObj)
        /\ ui d' !! "auth" = Some (Some authObj)
        /\ truthy (get_opt (Some authObj) "access_token") = true)
  /\ (forall code' state' : jsval,
        run device (handleOAuthCallback isNative oidc loadCustomerProfile code' state') d'
        = (Throw (Error "Missing PKCE verifier (login session expired)"),
           [Step (PrefGet K.PKCE) None], d')).
Proof.
  intros Hprofile Hrun.
  assert (Hspent : prefs d' !! K.PKCE = None
                   /\ exists authObj : json,
                        prefs d' !! K.AUTH = Some (JSON_stringify authObj)
                        /\ ui d' !! "auth" = Some (Some authObj)
                        /\ truthy (get_opt (Some authObj) "access_token") = true).
  { unfold handleOAuthCallback, mbind, Prog_bind in Hrun.
    rewrite ProgFacts.run_bind in Hrun.
    destruct (run device (read_verifier state) d) as [[[verifier | e] t1] d1];
      [ | discriminate Hrun ].
    rewrite ProgFacts.run_bind in Hrun.
    destruct (run device (discover_oidc isNative oidc) d1) as [[[oidcJson | e] t2] d2];
      [ | discriminate Hrun ].
    rewrite ProgFacts.run_bind in Hrun.
    destruct (run device (httpPostForm isNative (token_endpoint oidcJson)
                            (token_form code verifier)) d2)
      as [[[tokenJson | e] t3] d3]; [ | discriminate Hrun ].
    destruct (run device (store_session loadCustomerProfile tokenJson) d3)
      as [[[[] | e] t4] d4] eqn:Hstore; [ | discriminate Hrun ].
    injection Hrun as _ <-. clear t1 t2 t3 d d1 d2.
    unfold store_session in Hstore. cbv zeta in Hstore.
    unfold mbind, Prog_bind in Hstore.
    destruct (ToNumber (or_else (get_opt (Some tokenJson) "expires_in") (Some (JNum 3600))))
      as [expires_in | e]; cbn [lift bind] in Hstore; [ | discriminate Hstore ].
    destruct (get_opt (Some tokenJson) "access_token") as [token |] eqn:Htoken;
      [ | discriminate Hstore ].
    cbn [truthy] in Hstore. revert Hstore.
    destruct (json_truthy token) eqn:Htruthy; cbn [negb]; intros Hstore;
      [ | discriminate Hstore ].
    unfold mbind, Prog_bind, setState, call in Hstore.
    cbn [bind run device W_answer device_answer] in Hstore.
    match type of Hstore with
    | context [PrefSet K.AUTH (JSON_stringify ?obj)] => set (authObj := obj) in *
    end.
    match type of Hstore with
    | context [run device ?p ?d0] =>
        assert (Hcalls : calls (fun X ev => spares_pref K.PKCE X ev
                                            /\ spares_pref K.AUTH X ev
                                            /\ spares_state "auth" X ev) p);
        [ | destruct (spares_session_calls p Hcalls) as (Hpkce & Hauth & Hstate);
            pose proof (DeviceFacts.device_spares_pref K.PKCE p Hpkce d0) as Hkeep1;
            pose proof (DeviceFacts.device_spares_pref K.AUTH p Hauth d0) as Hkeep2;
            pose proof (DeviceFacts.device_spares_state "auth" p Hstate d0) as Hkeep3;
            destruct (run device p d0) as [[r t5] d5] ]
    end.
    { repeat first
        [ apply Hprofile
        | calls_step
        | match goal with |- calls _ (Vis _ _) => constructor end
        | progress (unfold setToast, setView, setState)
        | progress (cbn [spares_pref spares_state]; repeat split; auto; try discriminate) ]. }
    injection Hstore as -> _ ->. cbn [snd] in *.
    split.
    - refine (eq_trans Hkeep1 _). cbn. apply lookup_delete_eq.
    - exists authObj. split; [ | split ].
      + refine (eq_trans Hkeep2 _). cbn.
        rewrite lookup_delete_ne by discriminate. apply lookup_insert_eq.
      + refine (eq_trans Hkeep3 _). cbn. apply lookup_insert_eq.
      + unfold authObj, object. cbn. rewrite Htruthy. reflexivity. }
  destruct Hspent as [Hpkce Hsession]. split; [ exact Hpkce | split; [ exact Hsession | ] ].
  intros code' state'.
  unfold handleOAuthCallback, mbind, Prog_bind. rewrite ProgFacts.run_bind.
  unfold read_verifier, mbind, Prog_bind, call.
  cbn [bind run device W_answer device_answer]. rewrite Hpkce. reflexivity.
Qed.

End Callback.

End WithPlatform.

(** A callback carrying another state than the one of the login. *)
Lemma callback_foreign_state_witness :
  run device
    (handleOAuthCallback (H := Reference.platform) (H0 := Web.api) true
       (Some Samples.oidc_doc) (fun _ => Ret tt)
       (Some (JStr "c0de")) (Some (JStr "other")))
    mid_login
  = (Throw (Error "State mismatch (possible stale login)"),
     [Step (PrefGet K.PKCE) (Some (Reference.stringify login_record))],
     (W_answer device _ (PrefGet K.PKCE) mid_login).2).
Proof.
  apply (callback_with_a_foreign_state_is_refused (H := Reference.platform)
           (H0 := Web.api) true (Some Samples.oidc_doc) (fun _ => Ret tt)
           (Some (JStr "c0de")) "other" (Reference.stringify login_record)
           "v3r1f13r" "st4te" "n0nce" 1767225600000 device mid_login);
    first [ reflexivity | discriminate ].
Defined.

(** An unsigned token with the payload [{"email":"jo@example.com"}]. *)
Lemma decodeJwt_payload_witness :
  decodeJwt (H := Reference.platform) (H0 := Web.api)
    (Some (JStr (jwt_of "eyJhbGciOiJub25lIn0"
                   "eyJlbWFpbCI6ImpvQGV4YW1wbGUuY29tIn0" "")))
  = match base64UrlDecode (H0 := Web.api) "eyJlbWFpbCI6ImpvQGV4YW1wbGUuY29tIn0" with
    | Throw e => Throw e
    | Ok text => Ok (safeJsonParse (H := Reference.platform) text)
    end
  /\ decodeJwt (H := Reference.platform) (H0 := Web.api)
       (Some (JStr (jwt_of "eyJhbGciOiJub25lIn0"
                      "eyJlbWFpbCI6ImpvQGV4YW1wbGUuY29tIn0" "")))
     = decodeJwt (H := Reference.platform) (H0 := Web.api)
         (Some (JStr (jwt_of "e30" "eyJlbWFpbCI6ImpvQGV4YW1wbGUuY29tIn0" "forged"))).
Proof.
  apply (decodeJwt_reads_the_payload_only (H := Reference.platform) (H0 := Web.api)
           "eyJhbGciOiJub25lIn0" "eyJlbWFpbCI6ImpvQGV4YW1wbGUuY29tIn0" ""
           "e30" "forged");
    reflexivity.
Defined.

Example decodeJwt_sample :
  decodeJwt (H := Reference.platform) (H0 := Web.api)
    (Some (JStr (jwt_of "eyJhbGciOiJub25lIn0"
                   "eyJlbWFpbCI6ImpvQGV4YW1wbGUuY29tIn0" "")))
  = Ok (JObj [("email", JStr "jo@example.com")]).
Proof.
  vm_compute. reflexivity.
Qed.

End TokenFacts.

(** ** The VAT-verification form and its endpoint *)

Module VatFormFacts.
Import App VatForm.

Section WithPlatform.
Context `{Platform}.
Variable userEmail : string.

(** [submitVatVerification] sends at most its one request, and none
    without an e-mail address. *)
Lemma submitVatVerification_sends (bn c vn : string) (W : World) (w : W_state W) :
  requests (run W (submitVatVerification userEmail bn c vn) w).1.2
  = if str_truthy userEmail then [submit_request userEmail bn c vn] else [].
Proof.
  unfold submitVatVerification. cbv zeta. rewrite ProgFacts.run_try_catch.
  destruct (str_truthy userEmail); cbn [negb].
  - unfold mbind, Prog_bind, setToast, setState, call. cbn [fetch bind run].
    destruct (W_answer W _ (Fetch (submit_request userEmail bn c vn)) w)
      as [[status text | e] w1]; cbn [bind run].
    + destruct (JSON_parse text) as [result | e]; cbn [lift bind run].
      * destruct (negb (status_ok status)).
        -- destruct (get (Some result) "error") as [error | e]; cbn [lift bind run];
             [ destruct (String_of _) as [reason | e]; cbn [lift bind run] | ];
             destruct (W_answer W _ _ w1) as [[] w2]; reflexivity.
        -- cbn [bind run]. destruct (W_answer W _ _ w1) as [[] w2].
           destruct (W_answer W _ _ w2) as [[] w3].
           destruct (W_answer W _ _ w3) as [[] w4].
           destruct (W_answer W _ _ w4) as [[] w5]. reflexivity.
      * destruct (W_answer W _ _ w1) as [[] w2]. reflexivity.
    + destruct (W_answer W _ _ w1) as [[] w2]. reflexivity.
  - unfold mbind, Prog_bind, setToast, setState, call. cbn [bind run].
    destruct (W_answer W _ _ w) as [[] w1]. reflexivity.
Qed.

(** What the form sends. Pressing the button with a business name, a VAT
    number and an e-mail address of the customer that are all non-empty
    sends exactly one request: the POST, as JSON, of these and of the country
    to [/api/submitVatVerification]. When one of the three is empty it sends
    nothing. Neither the button nor [submitVatVerification] throws, and
    [submitVatVerification] answers [true] only when its request was
    answered with a 2xx status and a JSON body. *)
Theorem vat_form_sends_one_filled_submission_or_nothing
    (bn c vn : string) (W : World) (w : W_state W) :
  let posted :=
    {| url := "/api/submitVatVerification";
       method := "POST";
       req_headers := [("Content-Type", "application/json")];
       req_body :=
         JSON_stringify
           (JObj [ ("customerEmail", JStr userEmail); ("businessName", JStr bn);
                   ("country", JStr c); ("vatNumber", JStr vn) ]) |} in
  (userEmail <> "" /\ bn <> "" /\ vn <> "" ->
   requests (run W (onSubmit userEmail bn c vn) w).1.2 = [posted])
  /\ (userEmail = "" \/ bn = "" \/ vn = "" ->
      requests (run W (onSubmit userEmail bn c vn) w).1.2 = [])
  /\ (run W (onSubmit userEmail bn c vn) w).1.1 = Ok tt
  /\ match run W (submitVatVerification userEmail bn c vn) w with
     | (Ok true, t, _) =>
         exists status text v rest,
           t = Step (Fetch posted) (Responded status text) :: rest
           /\ status_ok status = true
           /\ JSON_parse text = Ok v
     | (Ok false, _, _) => True
     | (Throw _, _, _) => False
     end.
Proof.
  intros posted.
  change posted with (submit_request userEmail bn c vn). clear posted.
  assert (Hsent : requests (run W (onSubmit userEmail bn c vn) w).1.2
                  = if str_truthy bn && str_truthy vn && str_truthy userEmail
                    then [submit_request userEmail bn c vn] else []).
  { unfold onSubmit.
    destruct (str_truthy bn); cbn [negb orb andb].
    2: { unfold setToast, setState, call. cbn [run].
         destruct (W_answer W _ _ w) as [[] w1]. reflexivity. }
    destruct (str_truthy vn); cbn [negb orb andb].
    2: { unfold setToast, setState, call. cbn [run].
         destruct (W_answer W _ _ w) as [[] w1]. reflexivity. }
    unfold mbind, Prog_bind. unfold setState at 1. unfold call. cbn [bind run].
    destruct (W_answer W _ (SetState "vatFormLoading" (Some (JBool true))) w) as [[] w1].
    rewrite ProgFacts.run_try_finally, ProgFacts.run_bind.
    pose proof (submitVatVerification_sends bn c vn W w1) as Hsent.
    destruct (run W (submitVatVerification userEmail bn c vn) w1) as [[[b | e] t] w2];
      cbn [fst snd] in Hsent; unfold setState, call; cbn [run];
      destruct (W_answer W _ _ w2) as [[] w3]; cbn [fst snd requests];
      rewrite ?app_nil_r, ProgFacts.requests_app, Hsent;
      destruct (str_truthy userEmail); reflexivity. }
  split; [ | split; [ | split ] ].
  - intros (Hemail & Hbn & Hvn). rewrite Hsent. unfold str_truthy.
    apply String.eqb_neq in Hemail, Hbn, Hvn. rewrite Hemail, Hbn, Hvn. reflexivity.
  - intros Hempty. rewrite Hsent.
    destruct Hempty as [-> | [-> | ->]]; cbn [str_truthy String.eqb negb andb];
      rewrite ?andb_false_r; reflexivity.
  - unfold onSubmit.
    destruct (negb (str_truthy bn) || negb (str_truthy vn)).
    + unfold setToast, setState, call. cbn [run].
      destruct (W_answer W _ _ w) as [[] w1]. reflexivity.
    + assert (Hall : outcomes (returns (fun _ : unit => True))
                       (setState "vatFormLoading" (JBool true);;
                        try_finally
                          (_ ← submitVatVerification userEmail bn c vn; Ret tt)
                          (setState "vatFormLoading" (JBool false)))).
      { unfold submitVatVerification, setToast, setState.
        repeat first [ outcomes_step | progress (cbn [returns]; auto) ]. }
      pose proof (OutcomeFacts.outcomes_run _ _ W Hall w) as Hr.
      destruct ((run W _ w).1.1) as [[] | e]; [ reflexivity | contradiction ].
  - unfold submitVatVerification. cbv zeta. rewrite ProgFacts.run_try_catch.
    destruct (str_truthy userEmail); cbn [negb].
    + unfold mbind, Prog_bind, setToast, setState, call. cbn [fetch bind run].
      destruct (W_answer W _ (Fetch (submit_request userEmail bn c vn)) w)
        as [[status text | e] w1]; cbn [bind run].
      * destruct (JSON_parse text) as [result | e] eqn:Hparse; cbn [lift bind run].
        -- destruct (status_ok status) eqn:Hok; cbn [negb].
           ++ cbn [bind run]. destruct (W_answer W _ _ w1) as [[] w2].
              destruct (W_answer W _ _ w2) as [[] w3].
              destruct (W_answer W _ _ w3) as [[] w4].
              destruct (W_answer W _ _ w4) as [[] w5]. eauto 8.
           ++ destruct (get (Some result) "error") as [error | e]; cbn [lift bind run];
                [ destruct (String_of _) as [reason | e]; cbn [lift bind run] | ];
                destruct (W_answer W _ _ w1) as [[] w2]; exact I.
        -- destruct (W_answer W _ _ w1) as [[] w2]. exact I.
      * destruct (W_answer W _ _ w1) as [[] w2]. exact I.
    + unfold mbind, Prog_bind, setToast, setState, call. cbn [bind run].
      destruct (W_answer W _ _ w) as [[] w1]. exact I.
Qed.

(** What the form sends passes the validation of the endpoint. When the
    e-mail address, the business name, the country and the VAT number are all
    non-empty, the object the form serialises supplies the four fields the
    endpoint requires; handed that object as the body of a POST, the endpoint
    never answers 400 or 405: it answers 200, 404 (no such customer) or 500. *)
Theorem vat_form_submission_passes_the_endpoint_validation
    (bn c vn : string) (env : Env) (W : World) (w : W_state W) :
  userEmail <> "" -> bn <> "" -> c <> "" -> vn <> "" ->
  Vat.complete (Some (submission userEmail bn c vn)) = true
  /\ exists reply : Vat.Reply,
       (run W (Vat.handler env (Vat.mkReq "POST" (Some (submission userEmail bn c vn)))) w).1.1
       = Ok reply
       /\ In (Vat.status reply) [200; 404; 500].
Proof.
  intros Hemail Hbn Hc Hvn.
  apply String.eqb_neq in Hemail, Hbn, Hc, Hvn.
  assert (Hcomplete : Vat.complete (Some (submission userEmail bn c vn)) = true).
  { unfold Vat.complete, Vat.required_fields, Vat.supplies, submission.
    cbn. rewrite Hemail, Hbn, Hc, Hvn. reflexivity. }
  split; [ exact Hcomplete | ].
  assert (Hall : outcomes (returns (fun reply => In (Vat.status reply) [200; 404; 500]))
                   (Vat.handler env (Vat.mkReq "POST" (Some (submission userEmail bn c vn))))).
  { unfold Vat.handler. cbn [Vat.req_method Vat.body String.eqb Ascii.eqb Bool.eqb negb].
    unfold submission. cbn [destructure member assoc String.eqb Ascii.eqb Bool.eqb].
    cbn [mbind Prog_bind bind lift truthy json_truthy].
    rewrite Hemail, Hbn, Hc, Hvn. cbn [negb orb].
    unfold Vat.graphqlRequest.
    repeat first [ outcomes_step | progress (cbn [returns Vat.status In]; auto 8) ]. }
  pose proof (OutcomeFacts.outcomes_run _ _ W Hall w) as Hr.
  destruct ((run W _ w).1.1) as [reply | e]; [ | contradiction ].
  exists reply. auto.
Qed.

End WithPlatform.

Lemma vat_form_submission_witness :
  Vat.complete
    (Some (submission "jo@example.com" "Jo Fixings Ltd" "Ireland" "IE1234567T")) = true
  /\ exists reply : Vat.Reply,
       (run device
          (Vat.handler (H := Reference.platform) Samples.vat_env
             (Vat.mkReq "POST"
                (Some (submission "jo@example.com" "Jo Fixings Ltd" "Ireland" "IE1234567T"))))
          (mkDevice Samples.vat_upstream ∅ ∅)).1.1
       = Ok reply
       /\ In (Vat.status reply) [200; 404; 500].
Proof.
  apply (vat_form_submission_passes_the_endpoint_validation (H := Reference.platform)
           "jo@example.com" "Jo Fixings Ltd" "Ireland" "IE1234567T"
           Samples.vat_env device (mkDevice Samples.vat_upstream ∅ ∅));
    discriminate.
Defined.

End VatFormFacts.

(** ** The Customer Account API and the profile *)

Module AccountFacts.
Import App Session Account.

Section WithPlatform.
Context `{Platform}.
Variable trim toLowerCase : string -> string.
Variable not_a_function : string -> JsError.
Variable isNative : bool.
Variable custApi : jsval.

Lemma customerApiGraphql_calls (accessToken : jsval) (query : string) (variables : json) :
  calls profile_call (customerApiGraphql isNative custApi accessToken query variables).
Proof.
  unfold customerApiGraphql.
  repeat first [ calls_step | progress (simpl; auto) ].
Qed.

(** The calls of [loadCustomerProfile]: requests, state updates and the
    writing of [customer_shopify_id]. *)
Lemma loadCustomerProfile_calls (accessToken : jsval) :
  calls profile_call
    (loadCustomerProfile trim toLowerCase not_a_function isNative custApi accessToken).
Proof.
  unfold loadCustomerProfile, setCompanyAccount, setToast, setState.
  repeat first
    [ apply customerApiGraphql_calls | calls_step | progress (simpl; auto) ].
Qed.

(** [loadCustomerProfile] never saves the profile. Whatever the Customer
    Account API answers, it returns [null] and never throws; the only
    preference it ever writes is [customer_shopify_id]: the key of the
    profile, [acefixings_customer_profile], is never written, and the clock
    is never read. *)
Theorem loadCustomerProfile_never_saves_the_profile
    (accessToken : jsval) (W : World) (w : W_state W) :
  (run W (loadCustomerProfile trim toLowerCase not_a_function isNative custApi accessToken)
       w).1.1 = Ok JNull
  /\ Forall (fun s => match s with
                      | Step ev _ =>
                          match ev with
                          | PrefSet key _ => key = CUSTOMER_SHOPIFY_ID /\ key <> K.PROFILE
                          | PrefRemove _ | DateNow => False
                          | _ => True
                          end
                      end)
       (run W (loadCustomerProfile trim toLowerCase not_a_function isNative custApi
                 accessToken) w).1.2.
Proof.
  split.
  - assert (Hall : outcomes (returns (fun j => j = JNull))
                     (loadCustomerProfile trim toLowerCase not_a_function isNative
                        custApi accessToken)).
    { unfold loadCustomerProfile.
      apply OutcomeFacts.outcomes_try_catch. apply OutcomeFacts.outcomes_bind.
      apply OutcomeFacts.outcomes_any. intros [data | e]; cbv beta iota zeta.
      2: { constructor. reflexivity. }
      unfold setCompanyAccount, setToast, setState.
      repeat first [ outcomes_step | progress (cbn [returns]; auto) ]. }
    pose proof (OutcomeFacts.outcomes_run _ _ W Hall w) as Hr.
    destruct ((run W _ w).1.1) as [j | e]; [ | contradiction ].
    cbn in Hr. now subst j.
  - pose proof (ProgFacts.calls_traces _ _ _ _ (loadCustomerProfile_calls accessToken)
                  (ProgFacts.run_traces W _ w)) as Hcalls.
    eapply List.Forall_impl; [ | exact Hcalls ].
    intros [X ev x]. destruct ev; cbn; auto.
    intros ->. split; [ reflexivity | discriminate ].
Qed.

(** The loading of the profile leaves the record of the login, the stored
    session and the [auth] state alone. *)
Lemma loadCustomerProfile_spares_the_session (accessToken : jsval) :
  calls (fun X ev => spares_pref K.PKCE X ev /\ spares_pref K.AUTH X ev
                     /\ spares_state "auth" X ev)
    (_ ← loadCustomerProfile trim toLowerCase not_a_function isNative custApi accessToken;
     Ret tt).
Proof.
  unfold loadCustomerProfile, customerApiGraphql, setCompanyAccount, setToast, setState.
  repeat first
    [ calls_step
    | progress (cbn [spares_pref spares_state]; repeat split; auto; try discriminate) ].
Qed.

(** *** Orders *)


Section Orders.
Variable auth : jsval.
Variable silent : bool.



End Orders.

Context `{WebApi}.
Variable oidc : jsval.

(** On a device, a callback that succeeds stores the session and spends the
    verifier. When [handleOAuthCallback] returns, the store holds no record
    of a login any more; it holds under the session key the JSON text of the
    session; the [auth] state is that session; and its access token is truthy.
    A second callback is then refused, whatever it carries, with
    [Missing PKCE verifier (login session expired)], before any request: a
    callback cannot be replayed. *)
Theorem successful_callback_stores_the_session_and_spends_the_verifier
    (code state : jsval) (d d' : Device) (t : list step) :
  let profile := fun accessToken =>
    _ ← loadCustomerProfile trim toLowerCase not_a_function isNative custApi accessToken;
    Ret tt in
  run device (handleOAuthCallback isNative oidc profile code state) d = (Ok tt, t, d') ->
  prefs d' !! K.PKCE = None
  /\ (exists authObj : json,
        prefs d' !! K.AUTH = Some (JSON_stringify authObj)
        /\ ui d' !! "auth" = Some (Some authObj)
        /\ truthy (get_opt (Some authObj) "access_token") = true)
  /\ (forall code' state' : jsval,
        run device (handleOAuthCallback isNative oidc profile code' state') d'
        = (Throw (Error "Missing PKCE verifier (login session expired)"),
           [Step (PrefGet K.PKCE) None], d')).
Proof.
  intros profile Hrun.
  exact (TokenFacts.callback_stores_the_session isNative oidc profile code state d d' t
           loadCustomerProfile_spares_the_session Hrun).
Qed.

End WithPlatform.

Import Samples Token.

(** A phone in the middle of a login, to which the token endpoint answers. *)
Lemma successful_callback_witness :
  let profile := fun accessToken =>
    _ ← loadCustomerProfile (H := Reference.platform) (fun s => s) (fun s => s)
          (fun name => TypeError (name +:+ " is not a function")) true (Some cust_doc)
          accessToken;
    Ret tt in
  let d := mkPhone [] {[ K.PKCE := Reference.stringify login_record ]} ∅ [tokens] []
             1767225600000 [] in
  let d' := (run device
               (handleOAuthCallback (H := Reference.platform) (H0 := Web.api) true
                  (Some oidc_doc) profile (Some (JStr "c0de")) (Some (JStr "st4te"))) d).2 in
  prefs d' !! K.PKCE = None
  /\ (exists authObj : json,
        prefs d' !! K.AUTH = Some (Reference.stringify authObj)
        /\ ui d' !! "auth" = Some (Some authObj)
        /\ truthy (get_opt (Some authObj) "access_token") = true)
  /\ (forall code' state' : jsval,
        run device
          (handleOAuthCallback (H := Reference.platform) (H0 := Web.api) true
             (Some oidc_doc) profile code' state') d'
        = (Throw (Error "Missing PKCE verifier (login session expired)"),
           [Step (PrefGet K.PKCE) None], d')).
Proof.
  intros profile d d'.
  apply (successful_callback_stores_the_session_and_spends_the_verifier
           (H := Reference.platform) (fun s => s) (fun s => s)
           (fun name => TypeError (name +:+ " is not a function")) true (Some cust_doc)
           (H0 := Web.api) (Some oidc_doc)
           (Some (JStr "c0de")) (Some (JStr "st4te")) d d'
           (run device
              (handleOAuthCallback (H := Reference.platform) (H0 := Web.api) true
                 (Some oidc_doc) profile (Some (JStr "c0de")) (Some (JStr "st4te"))) d).1.2).
  vm_compute. reflexivity.
Defined.

End AccountFacts.

(** ** Favourites, comparison and vendors *)

Module CatalogFacts.
Import Catalog.

Lemma existsb_filter_other (product : Product) (prev : list Product) (productId : string) :
  existsb (fun p => String.eqb (id p) productId) (List.filter (other_id product) prev)
  = existsb (fun p => String.eqb (id p) productId) prev
    && negb (String.eqb productId (id product)).
Proof.
  induction prev as [| p prev IH]; cbn [List.filter existsb]; [ reflexivity | ].
  unfold other_id at 1.
  destruct (String.eqb_spec (id p) (id product)) as [Hsame | Hother]; cbn [negb existsb].
  - rewrite IH. destruct (String.eqb_spec (id p) productId) as [Hp | Hp]; cbn [orb].
    + subst productId. rewrite Hsame, String.eqb_refl. cbn.
      now rewrite andb_false_r.
    + reflexivity.
  - rewrite IH. destruct (String.eqb_spec (id p) productId) as [Hp | Hp]; cbn [orb].
    + subst productId.
      destruct (String.eqb_spec (id p) (id product)); [ contradiction | ].
      now rewrite ?andb_true_r.
    + reflexivity.
Qed.

Lemma filter_other_absent (product : Product) (prev : list Product) :
  existsb (same_id product) prev = false ->
  List.filter (other_id product) prev = prev.
Proof.
  induction prev as [| p prev IH]; cbn [existsb List.filter]; [ reflexivity | ].
  intros Habsent. apply orb_false_iff in Habsent as [Hp Hprev].
  unfold other_id at 1. unfold same_id in Hp. rewrite Hp. cbn [negb].
  now rewrite (IH Hprev).
Qed.

(** Toggling a favourite flips it and nothing else. After the update of
    [toggleFavorite(product)], the product is a favourite exactly when it
    was not one before; whether any other product is a favourite does not
    change; and toggling twice a product that was not a favourite gives back
    the list as it was. *)
Theorem toggleFavorite_flips_the_product_only (product : Product) (prev : list Product) :
  isFavorited (toggleFavorite_updater product prev) (id product)
  = negb (isFavorited prev (id product))
  /\ (forall productId : string,
        productId <> id product ->
        isFavorited (toggleFavorite_updater product prev) productId
        = isFavorited prev productId)
  /\ (isFavorited prev (id product) = false ->
      toggleFavorite_updater product (toggleFavorite_updater product prev) = prev).
Proof.
  unfold toggleFavorite_updater, isFavorited. cbv zeta.
  change (existsb (same_id product) prev)
    with (existsb (fun p => String.eqb (id p) (id product)) prev).
  destruct (existsb (fun p => String.eqb (id p) (id product)) prev) eqn:Hfav.
  - split; [ | split ].
    + rewrite existsb_filter_other, String.eqb_refl. cbn. now rewrite andb_false_r.
    + intros productId Hother. rewrite existsb_filter_other.
      apply String.eqb_neq in Hother. rewrite Hother. cbn. now rewrite andb_true_r.
    + discriminate.
  - split; [ | split ].
    + rewrite existsb_app. cbn. rewrite String.eqb_refl. cbn. now rewrite orb_true_r.
    + intros productId Hother. rewrite existsb_app. cbn.
      destruct (String.eqb_spec (id product) productId) as [Heq | _];
        [ now destruct Hother | ].
      cbn. now rewrite orb_false_r.
    + intros _.
      change (existsb (same_id product) (prev ++ [product]))
        with (existsb (fun p => String.eqb (id p) (id product)) (prev ++ [product])).
      rewrite existsb_app. cbn. rewrite String.eqb_refl. cbn. rewrite orb_true_r.
      rewrite List.filter_app. cbn. unfold other_id at 2. rewrite String.eqb_refl.
      cbn. rewrite app_nil_r. now apply filter_other_absent.
Qed.

Lemma find_existsb (f : Product -> bool) (l : list Product) :
  List.find f l = None <-> existsb f l = false.
Proof.
  induction l as [| x l IH]; cbn; [ tauto | ].
  destruct (f x); cbn; [ split; discriminate | exact IH ].
Qed.

Lemma filter_removes_one (product : Product) (prev : list Product) :
  existsb (same_id product) prev = true ->
  (length (List.filter (other_id product) prev) < length prev)%nat.
Proof.
  induction prev as [| p prev IH]; cbn [existsb List.filter length]; [ discriminate | ].
  unfold other_id at 1, same_id at 1.
  pose proof (List.filter_length_le (other_id product) prev) as Hle.
  destruct (String.eqb (id p) (id product)); cbn [negb orb length].
  - intros _. lia.
  - intros Hrest. specialize (IH Hrest). lia.
Qed.

Lemma updater_bound (product : Product) (prev : list Product) :
  (length prev <= 3 -> length (toggleCompare_updater product prev) <= 3)%nat.
Proof.
  intros Hprev. unfold toggleCompare_updater, slice_last.
  destruct (List.find (same_id product) prev) eqn:Hfind.
  - pose proof (List.filter_length_le (other_id product) prev). lia.
  - rewrite List.length_app, List.length_skipn. cbn. lia.
Qed.

(** Never more than three products are compared. Starting from an empty
    comparison, whatever products are toggled and in whatever order, the
    comparison holds at most three products; one update never holds more than
    three products, or than one less than before; and it flips the product:
    it is compared after the update exactly when it was not before. *)
Theorem toggleCompare_keeps_at_most_three
    (toggled : list Product) (product : Product) (prev : list Product) :
  (length (fold_left (fun compared p => toggleCompare_updater p compared) toggled [])
   <= 3)%nat
  /\ (length (toggleCompare_updater product prev) <= Nat.max 3 (length prev - 1))%nat
  /\ existsb (same_id product) (toggleCompare_updater product prev)
     = negb (existsb (same_id product) prev).
Proof.
  split; [ | split ].
  - assert (Hfold : forall start : list Product,
              (length start <= 3)%nat ->
              (length (fold_left (fun compared p => toggleCompare_updater p compared)
                         toggled start) <= 3)%nat).
    { induction toggled as [| p toggled IH]; intros start Hstart; cbn [fold_left].
      - exact Hstart.
      - apply IH, updater_bound, Hstart. }
    apply Hfold. cbn. lia.
  - unfold toggleCompare_updater, slice_last.
    destruct (List.find (same_id product) prev) eqn:Hfind.
    + assert (Hpresent : existsb (same_id product) prev = true).
      { destruct (existsb (same_id product) prev) eqn:Hexists; [ reflexivity | ].
        apply find_existsb in Hexists. congruence. }
      pose proof (filter_removes_one product prev Hpresent). lia.
    + rewrite List.length_app, List.length_skipn. cbn. lia.
  - unfold toggleCompare_updater.
    destruct (List.find (same_id product) prev) eqn:Hfind.
    + assert (Hpresent : existsb (same_id product) prev = true).
      { destruct (existsb (same_id product) prev) eqn:Hexists; [ reflexivity | ].
        apply find_existsb in Hexists. congruence. }
      rewrite Hpresent. cbn.
      change (existsb (same_id product) (List.filter (other_id product) prev))
        with (existsb (fun p => String.eqb (id p) (id product))
                (List.filter (other_id product) prev)).
      rewrite existsb_filter_other, String.eqb_refl. cbn. now rewrite andb_false_r.
    + apply find_existsb in Hfind. rewrite Hfind. cbn.
      rewrite existsb_app. cbn. unfold same_id at 2. rewrite String.eqb_refl.
      cbn. now rewrite orb_true_r.
Qed.

(** *** Vendors *)

Lemma insert_sorted_In (x v : string) (sorted : list string) :
  In v (insert_sorted x sorted) <-> v = x \/ In v sorted.
Proof.
  induction sorted as [| y rest IH]; cbn [insert_sorted].
  - cbn. intuition congruence.
  - destruct (String.leb x y); cbn [In] in *; [ intuition congruence | ].
    rewrite IH. intuition congruence.
Qed.

Lemma sort_In (v : string) (values : list string) : In v (sort values) <-> In v values.
Proof.
  induction values as [| x values IH]; cbn [sort fold_right]; [ tauto | ].
  fold (sort values). rewrite insert_sorted_In, IH. cbn. intuition congruence.
Qed.

Lemma insert_sorted_NoDup (x : string) (sorted : list string) :
  ~ In x sorted -> List.NoDup sorted -> List.NoDup (insert_sorted x sorted).
Proof.
  induction sorted as [| y rest IH]; cbn [insert_sorted]; intros Hx Hsorted.
  - constructor; [ exact Hx | constructor ].
  - destruct (String.leb x y); [ constructor; assumption | ].
    inversion Hsorted as [| y' rest' Hy Hrest]; subst.
    constructor.
    + rewrite insert_sorted_In. cbn in Hx. intuition congruence.
    + apply IH; [ cbn in Hx; tauto | exact Hrest ].
Qed.

Lemma sort_NoDup (values : list string) : List.NoDup values -> List.NoDup (sort values).
Proof.
  induction values as [| x values IH]; cbn [sort fold_right]; intros Hvalues.
  - constructor.
  - fold (sort values). inversion Hvalues as [| x' values' Hx Hrest]; subst.
    apply insert_sorted_NoDup; [ now rewrite sort_In | now apply IH ].
Qed.

Lemma insert_sorted_Sorted (x : string) (sorted : list string) :
  Sorted (fun a b => String.leb a b = true) sorted ->
  Sorted (fun a b => String.leb a b = true) (insert_sorted x sorted).
Proof.
  induction sorted as [| y rest IH]; cbn [insert_sorted]; intros Hsorted.
  - repeat constructor.
  - destruct (String.leb x y) eqn:Hxy.
    + constructor; [ exact Hsorted | constructor; exact Hxy ].
    + inversion Hsorted as [| y' rest' Hrest Hhead]; subst.
      constructor; [ now apply IH | ].
      assert (Hyx : String.leb y x = true).
      { destruct (String.leb_total x y) as [Hle | Hle]; congruence. }
      destruct rest as [| z rest]; cbn [insert_sorted].
      * constructor; exact Hyx.
      * destruct (String.leb x z); constructor; [ exact Hyx | ].
        inversion Hhead; assumption.
Qed.

Lemma sort_Sorted (values : list string) :
  Sorted (fun a b => String.leb a b = true) (sort values).
Proof.
  induction values as [| x values IH]; cbn [sort fold_right].
  - constructor.
  - apply insert_sorted_Sorted, IH.
Qed.

Lemma existsb_eqb_In (x : string) (seen : list string) :
  existsb (String.eqb x) seen = true <-> In x seen.
Proof.
  rewrite List.existsb_exists. split.
  - intros (y & Hy & Heq). apply String.eqb_eq in Heq. now subst.
  - intros Hx. exists x. split; [ exact Hx | apply String.eqb_refl ].
Qed.

Lemma distinct_In (v : string) (values seen : list string) :
  In v (distinct seen values) <-> In v values /\ ~ In v seen.
Proof.
  revert seen. induction values as [| x values IH]; intros seen; cbn [distinct].
  - cbn. tauto.
  - destruct (existsb (String.eqb x) seen) eqn:Hseen.
    + apply existsb_eqb_In in Hseen. rewrite IH. cbn. intuition congruence.
    + assert (Hfresh : ~ In x seen).
      { intros Hin. apply existsb_eqb_In in Hin. congruence. }
      cbn [In]. rewrite IH. cbn [In].
      destruct (String.eqb_spec x v) as [-> | Hother]; intuition congruence.
Qed.

Lemma distinct_NoDup (values seen : list string) : List.NoDup (distinct seen values).
Proof.
  revert seen. induction values as [| x values IH]; intros seen; cbn [distinct].
  - constructor.
  - destruct (existsb (String.eqb x) seen); [ apply IH | ].
    constructor; [ | apply IH ].
    rewrite distinct_In. cbn. tauto.
Qed.

(** The vendors of the filter are sorted, distinct and complete:
    [getAllVendors(products)] is in ascending order, holds no vendor twice,
    never holds the empty vendor, and holds exactly the non-empty vendors of
    the products. *)
Theorem getAllVendors_sorted_distinct_complete (products : list Product) :
  Sorted (fun a b => String.leb a b = true) (getAllVendors products)
  /\ List.NoDup (getAllVendors products)
  /\ (forall v : string,
        In v (getAllVendors products)
        <-> v <> "" /\ exists p, In p products /\ vendor p = v).
Proof.
  unfold getAllVendors. cbv zeta. split; [ apply sort_Sorted | split ].
  - apply sort_NoDup, distinct_NoDup.
  - intros v. rewrite sort_In, distinct_In, List.filter_In, List.in_map_iff.
    unfold str_truthy. rewrite negb_true_iff, String.eqb_neq.
    cbn [In]. split.
    + intros [[(p & Hv & Hp) Hne] _]. eauto.
    + intros [Hne (p & Hp & Hv)]. repeat split; eauto.
Qed.

End CatalogFacts.

(** ** Going back *)

Module NavigationFacts.
Import App Navigation.

(** Going back leads home. From each of the screens [goBackOne] knows, one
    press changes the screen, and at most two presses show the home screen,
    whether or not a collection is open. On any other view ([home] itself
    and the views it does not know) it clears the error and the search and
    leaves the view as it is. *)
Theorem goBackOne_leads_home_in_two_presses
    (hasCollection hasCollection' : bool) (d : Device) :
  Forall (fun v =>
            let d1 := (run device (goBackOne v hasCollection) d).2 in
            let v1 := shown v d1 in
            v1 <> v
            /\ (v1 = "home"
                \/ shown v1 (run device (goBackOne v1 hasCollection') d1).2 = "home"))
         screens
  /\ (forall v : string,
        ~ In v screens ->
        (run device (goBackOne v hasCollection) d).1.2
        = [ Step (SetState "error" (Some (JStr ""))) tt;
            Step (SetState "search" (Some (JStr ""))) tt ]).
Proof.
  split.
  - unfold screens.
    repeat (apply List.Forall_cons;
            [ destruct hasCollection, hasCollection';
              cbv zeta; unfold shown; cbn;
              do 3 (repeat (rewrite lookup_insert_eq
                            || rewrite lookup_insert_ne by discriminate);
                    cbn);
              (split; [ discriminate | first [ left; reflexivity | right; reflexivity ] ])
            | ]).
    apply List.Forall_nil.
  - intros v Hv. unfold goBackOne. cbn [In screens] in Hv.
    repeat match goal with
           | |- context [String.eqb v ?s] =>
               destruct (String.eqb_spec v s) as [-> | ?]; [ exfalso; tauto | ]
           end.
    reflexivity.
Qed.

End NavigationFacts.

(** ** The Storefront API client and the start of a login *)

Module LoginFacts.
Import App Session.

(** Closes a goal stating that the calls of a trace open no page. *)
Ltac calm :=
  repeat first
    [ assumption
    | apply Forall_app; split
    | apply List.Forall_cons; [ exact I | ]
    | apply List.Forall_nil ].

(** A trace that opens no page has no opening of a page in it. *)
Lemma calm_trace_opens_nothing (t before after : list step) (page : string) :
  Forall (fun s => match s with Step ev _ => opens_nothing _ ev end) t ->
  t = (before ++ Step (BrowserOpen page) tt :: after)%list ->
  False.
Proof.
  intros Hcalm ->. apply Forall_app in Hcalm as [_ Hopen].
  inversion Hopen as [| ? ? Hhead _]. exact Hhead.
Qed.

(** After calls that open no page, the opening of a page is found at one
    place only. *)
Lemma opening_is_last (calm before after : list step) (url page : string) :
  Forall (fun s => match s with Step ev _ => opens_nothing _ ev end) calm ->
  (calm ++ [Step (BrowserOpen url) tt])%list
  = (before ++ Step (BrowserOpen page) tt :: after)%list ->
  before = calm /\ after = [].
Proof.
  intros Hcalm. revert before.
  induction Hcalm as [| s calm Hs _ IH]; intros [| b before] Heq; cbn [app] in Heq.
  - injection Heq as _ <-. auto.
  - injection Heq as _ Hrest. destruct before; discriminate Hrest.
  - injection Heq as -> _. contradiction.
  - injection Heq as -> Hrest. destruct (IH _ Hrest) as [-> ->]. auto.
Qed.

Section WithPlatform.
Context `{Platform} `{WebApi}.

(** [shopifyStorefront] returns only the data of a clean answer. It makes
    exactly one request; when it returns, that request was answered with a
    2xx status and a body that is JSON, is not [null] and has no non-empty
    [errors], and what it returns is the [data] member of that body. Any
    other answer makes it throw. *)
Theorem shopifyStorefront_returns_the_data_of_a_clean_answer
    (query : string) (variables : json) (W : World) (w : W_state W) :
  match run W (shopifyStorefront query variables) w with
  | (Ok data, t, _) =>
      exists status text body,
        t = [Step (Fetch (storefront_request query variables)) (Responded status text)]
        /\ status_ok status = true
        /\ JSON_parse text = Ok body
        /\ body <> JNull
        /\ truthy (get_opt (get_opt (Some body) "errors") "length") = false
        /\ data = member body "data"
  | (Throw _, t, _) =>
      exists answer, t = [Step (Fetch (storefront_request query variables)) answer]
  end.
Proof.
  unfold shopifyStorefront, mbind, Prog_bind. cbn [fetch bind run].
  destruct (W_answer W _ _ w) as [[status text | e] w1]; cbn [bind run]; [ | eauto ].
  destruct (status_ok status) eqn:Hok; cbn [negb run]; [ | eauto ].
  unfold safeJsonParse.
  destruct (JSON_parse text) as [body | e] eqn:Hparse.
  - destruct (truthy (get_opt (get_opt (Some body) "errors") "length")) eqn:Herrors;
      cbn [run]; [ eauto | ].
    destruct (AdminFacts.classic_null body) as [-> | Hbody]; [ cbn; eauto | ].
    rewrite (AdminFacts.supplies_get body) by assumption. cbn [lift run].
    exists status, text, body. repeat split; auto.
    destruct body; reflexivity.
  - cbn. eauto.
Qed.

Section Login.
Variable isNative : bool.
Variable oidc custApi : jsval.

(** The calls of [startLogin], in order: calls that open no page, and then
    at most one opening of a page, in the native app, after the record of
    the login was stored. *)
Lemma startLogin_trace (W : World) (w : W_state W) :
  Forall (fun s => match s with Step ev _ => opens_nothing _ ev end)
         (run W (startLogin isNative oidc custApi) w).1.2
  \/ isNative = true
     /\ exists (calm : list step) (record page : string),
          (run W (startLogin isNative oidc custApi) w).1.2
          = (calm ++ [Step (BrowserOpen page) tt])%list
          /\ Forall (fun s => match s with Step ev _ => opens_nothing _ ev end) calm
          /\ In (Step (PrefSet K.PKCE record) tt) calm.
Proof.
  destruct (run W (startLogin isNative oidc custApi) w) as [[r t] w'] eqn:Hrun.
  cbn [fst snd]. revert Hrun.
  unfold startLogin, mbind, Prog_bind. rewrite ProgFacts.run_bind.
  unfold setError at 1. unfold setState, call. cbn [run].
  destruct (W_answer W _ (SetState "error" (Some (JStr ""))) w) as [[] w0].
  destruct isNative; cbn [negb].
  - rewrite ProgFacts.run_try_catch, ProgFacts.run_bind.
    assert (Hcalm : Forall (fun s => match s with Step ev _ => opens_nothing _ ev end)
                      (run W (discover true oidc custApi) w0).1.2).
    { eapply ProgFacts.calls_traces; [ | apply ProgFacts.run_traces ].
      unfold discover, loaded_or_fetch, fetchJson, httpGetText, setState.
      repeat first [ calls_step | progress (simpl; auto) ]. }
    destruct (run W (discover true oidc custApi) w0) as [[[oidcJson | e] t1] w1];
      cbn [fst snd] in Hcalm.
    + unfold authorize, randomString, mbind, Prog_bind, call. cbn [bind run].
      destruct (W_answer W _ (GetRandomValues 64) w1) as [octets w2].
      destruct (W_answer W _ (GetRandomValues 24) w2) as [octets' w3].
      destruct (W_answer W _ (GetRandomValues 24) w3) as [octets'' w4].
      destruct (W_answer W _ DateNow w4) as [now w5].
      destruct (W_answer W _ (PrefSet K.PKCE _) w5) as [[] w6].
      destruct (authorization_url _ _ _ _) as [authUrl | e]; cbn [lift bind run].
      * destruct (W_answer W _ (BrowserOpen authUrl) w6) as [[] w7].
        intros [= <- <- <-].
        right. split; [ reflexivity | ].
        eexists (Step (SetState "error" (Some (JStr ""))) tt
                 :: t1 ++ [ Step (GetRandomValues 64) octets;
                            Step (GetRandomValues 24) octets';
                            Step (GetRandomValues 24) octets'';
                            Step DateNow now;
                            Step (PrefSet K.PKCE _) tt ])%list, _, authUrl.
        split; [ cbn [app]; rewrite <- app_assoc; reflexivity | ].
        split.
        -- calm.
        -- right. apply in_or_app. right. cbn. auto 8.
      * unfold setError, setState, call. cbn [run].
        destruct (W_answer W _ (SetState "error" _) w6) as [[] w7].
        intros [= <- <- <-].
        left. calm.
    + unfold setError, setState, call. cbn [run].
      destruct (W_answer W _ (SetState "error" _) w1) as [[] w2].
      intros [= <- <- <-].
      left. calm.
  - unfold setToast, setView, setState, mbind, Prog_bind, call. cbn [bind run].
    destruct (W_answer W _ (SetState "toast" _) w0) as [[] w1].
    destruct (W_answer W _ (SetState "view" _) w1) as [[] w2].
    intros [= <- <- <-].
    left. calm.
Qed.

(** [startLogin] never throws, and it never opens the authorization page
    before the verifier is saved. In any world, wherever the trace of
    [startLogin] has the opening of a page, the app is the native one, that
    opening is the last call, no page was opened before it, and among the
    calls before it is the storing of a record of the login under the PKCE
    key. On the web the calls are three settings of the state: nothing is
    stored, nothing is opened and no request is made. *)
Theorem startLogin_opens_the_page_only_after_saving_the_verifier
    (W : World) (w : W_state W) :
  (run W (startLogin isNative oidc custApi) w).1.1 = Ok tt
  /\ (forall (before after : list step) (page : string),
        (run W (startLogin isNative oidc custApi) w).1.2
        = (before ++ Step (BrowserOpen page) tt :: after)%list ->
        isNative = true
        /\ after = []
        /\ Forall (fun s => match s with Step ev _ => opens_nothing _ ev end) before
        /\ exists record : string, In (Step (PrefSet K.PKCE record) tt) before)
  /\ (isNative = false ->
      (run W (startLogin isNative oidc custApi) w).1.2
      = [ Step (SetState "error" (Some (JStr ""))) tt;
          Step (SetState "toast"
                  (Some (JStr "Login works in the Android app (not on localhost)"))) tt;
          Step (SetState "view" (Some (JStr "account"))) tt ]).
Proof.
  split; [ | split ].
  - assert (Hall : outcomes (returns (fun _ => True)) (startLogin isNative oidc custApi)).
    { unfold startLogin, setError, setToast, setView, setState.
      apply OutcomeFacts.outcomes_bind, OutcomeFacts.outcomes_call. intros [].
      destruct (negb isNative).
      - repeat first [ outcomes_step | progress (cbn [returns]; auto) ].
      - apply OutcomeFacts.outcomes_try_catch, OutcomeFacts.outcomes_any.
        intros [[] | e]; cbv beta iota; [ exact I | ].
        repeat first [ outcomes_step | progress (cbn [returns]; auto) ]. }
    pose proof (OutcomeFacts.outcomes_run _ _ W Hall w) as Hr.
    destruct ((run W _ w).1.1) as [[] | e]; [ reflexivity | contradiction ].
  - intros before after page Htrace.
    destruct (startLogin_trace W w) as [Hcalm | (Hnative & calm & record & url & Hshape & Hcalm & Hsaved)].
    + exfalso. exact (calm_trace_opens_nothing _ _ _ _ Hcalm Htrace).
    + rewrite Hshape in Htrace.
      destruct (opening_is_last _ _ _ _ _ Hcalm Htrace) as [-> ->].
      repeat split; eauto.
  - intros ->. unfold startLogin, setError, setToast, setView, setState, mbind, Prog_bind, call.
    cbn [negb bind run].
    destruct (W_answer W _ (SetState "error" _) w) as [[] w0].
    destruct (W_answer W _ (SetState "toast" _) w0) as [[] w1].
    destruct (W_answer W _ (SetState "view" _) w1) as [[] w2].
    reflexivity.
Qed.

End Login.
End WithPlatform.
End LoginFacts.

(** ** The registration endpoint: the courses of a registration *)


Module RegisterFacts.
Import Register.

Section WithPlatform.
Context `{Platform}.
Variable trim : string -> string.
Variable not_a_function : string -> JsError.

(** The business name of the metafields is the one the courses name. *)
Lemma business_name_text (firstName lastName : jsval) (name : option string) :
  business_name trim firstName lastName = Ok name ->
  (if truthy firstName then
     Some (trim (text_of firstName +:+ " "
                 +:+ text_of (Some (js_or lastName (JStr "")))))
   else None) = name.
Proof.
  unfold business_name, text_of. destruct (truthy firstName); [ | congruence ].
  destruct (String_of firstName) as [first | e]; [ | discriminate ].
  cbn [String_of].
  destruct (ToString (js_or lastName (JStr ""))) as [last | e]; [ | discriminate ].
  congruence.
Qed.

Lemma handler_lawful (env : Env) (req : Vat.Req) :
  sends (lawful trim env req) (handler trim not_a_function env req).
Proof.
  destruct req as [method body]. unfold handler. cbn [Vat.req_method Vat.body].
  destruct (String.eqb method "OPTIONS") eqn:Hoptions.
  { apply SendFacts.sends_ret. split; [ reflexivity | ]. left.
    apply String.eqb_eq in Hoptions. cbn; auto. }
  destruct (String.eqb method "POST") eqn:Hpost; cbn [negb].
  2: { apply SendFacts.sends_ret. split; [ reflexivity | ]. left.
       cbn. repeat split; auto. discriminate. }
  assert (Hrefused : forall e : JsError,
             lawful trim env {| Vat.req_method := method; Vat.body := body |} []
               (Ok (respond 500
                      (JObj [("error", JStr (if str_truthy (emessage e) then emessage e
                                             else "Registration failed"))])))).
  { intros e. split; [ reflexivity | ]. left. cbn. repeat split; auto. discriminate. }
  destruct body as [b |]; [ destruct (AdminFacts.classic_null b) as [-> | Hb] | ].
  1, 3: apply SendFacts.sends_ret, Hrefused.
  clear Hrefused.
  rewrite !(AdminFacts.supplies_destructure b) by assumption.
  unfold mbind, Prog_bind. cbn [lift bind].
  unfold find_or_create, add_vat_details, send_invite, mbind, Prog_bind.
  assert (Htext : forall text,
             String_of (get_opt (Some b) "email") = Ok text ->
             text_of (get_opt (Some b) "email") = text).
  { intros text Htext. unfold text_of. rewrite Htext. reflexivity. }
  pose proof (business_name_text (get_opt (Some b) "firstName")
                (get_opt (Some b) "lastName")) as Hname.
  destruct (String_of (get_opt (Some b) "email")) as [email_text | e0];
    [ specialize (Htext _ eq_refl) | clear Htext ].
  all: destruct (business_name trim (get_opt (Some b) "firstName")
                   (get_opt (Some b) "lastName")) as [name | e1];
    [ specialize (Hname _ eq_refl) | clear Hname ].
  all: repeat first
    [ progress cbv beta iota
    | progress cbn [app lawful negb lift bind]
    | sends_step ].
  all: split; [ reflexivity | ].
  all: unfold course, search_request, metafields_request;
    cbn [Vat.body Vat.req_method status respond];
    rewrite ?Htext, ?Hname.
  all: pick ltac:(repeat split;
                  first [ reflexivity
                        | solve [ cbn [In]; auto ]
                        | intros Hcode; discriminate Hcode ]).
Qed.

(** Whatever the request and whatever Shopify answers, the endpoint returns a
    reply and never throws; the reply carries the CORS headers; and the
    requests it made are those of one of the courses of a registration: none
    (and then a 200 only to OPTIONS); the search alone; the search, the
    metafields and the tag of a customer found; or the search and the
    creation, followed by the metafields and the invitation of the customer
    created. A customer is never both created and tagged, only a customer
    just created is invited, and once the invitation is sent the reply is
    200 whatever its answer. *)
Theorem registerCustomer_takes_one_of_its_courses
    (env : Env) (req : Vat.Req) (W : World) (w : W_state W) :
  exists reply : Reply,
    (run W (handler trim not_a_function env req) w).1.1 = Ok reply
    /\ headers reply = cors
    /\ course trim env req
         (requests (run W (handler trim not_a_function env req) w).1.2)
         (status reply).
Proof.
  pose proof (handler_lawful env req W w) as Hlawful.
  destruct ((run W (handler trim not_a_function env req) w).1.1) as [reply | e];
    [ | contradiction ].
  exists reply. destruct Hlawful. auto.
Qed.

(** The messages of user errors that are objects. *)
Lemma map_message_of_objects (items : list json) :
  Forall (fun e => e <> JNull) items ->
  map_message items = Ok (map (fun e => get_opt (Some e) "message") items).
Proof.
  induction 1 as [| e items He _ IH]; [ reflexivity | ].
  cbn [map_message map]. rewrite (AdminFacts.supplies_get e) by assumption.
  rewrite IH. reflexivity.
Qed.

(** When the search for an e-mail that has a text finds no customer and
    [customerCreate] reports user errors whose messages have a text, the
    registration is answered 400 with the messages of the errors, joined by
    a comma and a space, and it ends there: the search and the creation are
    the only requests, so that no metafield is written and nobody is
    invited. *)
Theorem registerCustomer_reports_the_creation_errors
    (env : Env) (req : Vat.Req) (b d1 d2 e : json) (more : list json)
    (email text : string)
    (fr1 fr2 : FetchResult) (rest : list FetchResult)
    (store : gmap string string) (state : gmap string jsval) :
  Vat.req_method req = "POST" ->
  Vat.body req = Some b ->
  truthy (get_opt (Some b) "email") = true ->
  str_truthy (adminToken env) = true ->
  String_of (get_opt (Some b) "email") = Ok email ->
  Vat.graphql_answer fr1 = Ok d1 ->
  gt_zero (get_opt (get_opt (get_opt (Some d1) "customers") "edges") "length") = Ok false ->
  Vat.graphql_answer fr2 = Ok d2 ->
  get_opt (get_opt (Some d2) "customerCreate") "userErrors" = Some (JArr (e :: more)) ->
  Forall (fun e => e <> JNull) (e :: more) ->
  join ", " (map (fun e => get_opt (Some e) "message") (e :: more)) = Ok text ->
  run device (handler trim not_a_function env req) (mkDevice (fr1 :: fr2 :: rest) store state)
  = (Ok (respond 400 (JObj [("error", JStr text)])),
     [ Step (Fetch (admin_request env searchQuery
                      (JObj [("query", JStr ("email:" +:+ email))])))
            fr1;
       Step (Fetch (create_request env (Some b))) fr2 ],
     mkDevice rest store state).
Proof.
  intros Hpost Hbody Hemail Htoken Htext Hd1 Hnone Hd2 Huser Hobjects Hjoined.
  assert (Hb : b <> JNull) by (intros ->; discriminate Hemail).
  unfold handler. rewrite Hpost, Hbody. cbn [String.eqb Ascii.eqb Bool.eqb negb].
  rewrite !(AdminFacts.supplies_destructure b) by assumption.
  cbn [mbind Prog_bind bind lift].
  rewrite Hemail, Htoken, Htext. cbn [mbind Prog_bind negb lift bind].
  rewrite ProgFacts.run_try_catch.
  unfold find_or_create, mbind, Prog_bind.
  rewrite !ProgFacts.run_bind, AdminFacts.run_graphqlRequest, Hd1, Hnone.
  cbn [lift bind].
  rewrite ProgFacts.run_bind, AdminFacts.run_graphqlRequest, Hd2, Huser.
  replace (gt_zero (get_opt (Some (JArr (e :: more))) "length")) with (Ok true)
    by (symmetry; cbn; f_equal; apply Z.ltb_lt; lia).
  unfold messages. rewrite (map_message_of_objects _ Hobjects), Hjoined.
  reflexivity.
Qed.

End WithPlatform.

Import Samples RegisterSamples.

Lemma registerCustomer_creation_errors_witness :
  run device
    (handler (H := Reference.platform) (fun s => s)
       (fun name => TypeError (name +:+ " is not a function"))
       register_env registration)
    (mkDevice [answer nobody; answer create_refused] ∅ ∅)
  = (Ok (respond 400
           (JObj [("error", JStr "Email has already been taken, Phone is invalid")])),
     [ Step (Fetch (admin_request (H := Reference.platform) register_env searchQuery
                      (JObj [("query", JStr ("email:" +:+ "jo@example.com"))])))
            (answer nobody);
       Step (Fetch (create_request (H := Reference.platform) register_env
                      (Some register_body)))
            (answer create_refused) ],
     mkDevice [] ∅ ∅).
Proof.
  refine (registerCustomer_reports_the_creation_errors (H := Reference.platform)
            (fun s => s) (fun name => TypeError (name +:+ " is not a function"))
            register_env registration register_body nobody create_refused
            (JObj [("field", JArr [JStr "email"]);
                   ("message", JStr "Email has already been taken")])
            [JObj [("field", JArr [JStr "phone"]); ("message", JStr "Phone is invalid")]]
            "jo@example.com" "Email has already been taken, Phone is invalid"
            (answer nobody) (answer create_refused) [] ∅ ∅
            _ _ _ _ _ _ _ _ _ _ _);
    first [ reflexivity | vm_compute; reflexivity
          | repeat constructor; discriminate ].
Defined.

End RegisterFacts.
